(** * HealthAssist: the HRV analytic core

    A shallow embedding of the scoring and baseline functions of
    [dashboard/hrv/index_1.py] and [dashboard/hrv/index_2.py], and the
    properties the specification states about them; then the report, chart
    and summary functions around them ([dashboard/hrv/record_summary.py]
    included), with further properties of the code.

    Numbers.  The Python code computes on IEEE doubles (numpy [float64]).
    Here a float is either [NaN] (pandas' marker of a missing value) or a
    finite value, and finite values are exact rationals: arithmetic is the
    arithmetic of [Q], so binary rounding error and the infinities are left
    out of the model.  What the code does with a missing value is kept as
    it is: every comparison with [NaN] is false, and Python's builtin
    [min] and [max] keep their first argument unless the comparison
    succeeds.

    Rounding.  [round(x, 1)] rounds the exact value, half to even, where the
    code rounds a binary64 value: the two can differ at and next to a tie
    (the code stores 0.15 as 0.1499... and rounds it to 0.1).  Wherever the
    last digit of a binary64 computation could decide, the statements below
    bound a value instead of fixing it, so that they do not depend on an
    error of a few units in the last place. *)

From Stdlib Require Import QArith Qround Qabs Lqa Lia ZArith List.
From Stdlib Require Import Sorting.Permutation Sorting.Sorted.
From stdpp Require Import gmap strings list fin_maps.

Local Open Scope Q_scope.

(** ** Floats *)

Inductive float : Type :=
  | NaN : float
  | Fin : Q -> float.

Module Float.

Definition isna (x : float) : bool :=
  match x with NaN => true | Fin _ => false end.

(** [x < y], [x > y], [x <= y], [x >= y] and [x == y] of Python: false as
    soon as one side is NaN. *)
Definition ltb (x y : float) : bool :=
  match x, y with
  | Fin a, Fin b => if Qlt_le_dec a b then true else false
  | _, _ => false
  end.

Definition gtb (x y : float) : bool := ltb y x.

Definition leb (x y : float) : bool :=
  match x, y with
  | Fin a, Fin b => if Qlt_le_dec b a then false else true
  | _, _ => false
  end.

Definition geb (x y : float) : bool := leb y x.

Definition eqb (x y : float) : bool :=
  match x, y with
  | Fin a, Fin b => Qeq_bool a b
  | _, _ => false
  end.

(** Arithmetic propagates NaN.  Division is only ever called by the
    modelled code with a divisor it has tested; [Qdiv] by zero is zero. *)
Definition lift2 (f : Q -> Q -> Q) (x y : float) : float :=
  match x, y with
  | Fin a, Fin b => Fin (f a b)
  | _, _ => NaN
  end.

Definition add := lift2 Qplus.
Definition sub := lift2 Qminus.
Definition mul := lift2 Qmult.
Definition div := lift2 Qdiv.

(** Python's builtin [min(x, y)]: [y] if [y < x], else [x]. *)
Definition py_min (x y : float) : float := if ltb y x then y else x.

(** Python's builtin [max(x, y)]: [y] if [y > x], else [x]. *)
Definition py_max (x y : float) : float := if gtb y x then y else x.

(** Round half to even, to an integer. *)
Definition round_half_even (q : Q) : Z :=
  let f := Qfloor q in
  let d := q - inject_Z f in
  if Qlt_le_dec d (1#2) then f
  else if Qlt_le_dec (1#2) d then (f + 1)%Z
  else if Z.even f then f else (f + 1)%Z.

(** [round(x, 1)] on a finite value. *)
Definition round1_Q (q : Q) : Q := inject_Z (round_half_even (q * 10)) / 10.

(** [round(x, 1)]; NaN rounds to NaN. *)
Definition round1 (x : float) : float :=
  match x with
  | NaN => NaN
  | Fin q => Fin (round1_Q q)
  end.

(** Equality of floats up to the value of the rational. *)
Definition eq (x y : float) : Prop :=
  match x, y with
  | NaN, NaN => True
  | Fin a, Fin b => a == b
  | _, _ => False
  end.

End Float.

Declare Scope float_scope.
Delimit Scope float_scope with float.
Bind Scope float_scope with float.
Infix "+" := Float.add : float_scope.
Infix "-" := Float.sub : float_scope.
Infix "*" := Float.mul : float_scope.
Infix "/" := Float.div : float_scope.
Infix "<?" := Float.ltb : float_scope.
Infix ">?" := Float.gtb : float_scope.
Infix "<=?" := Float.leb : float_scope.
Infix ">=?" := Float.geb : float_scope.
Infix "=?" := Float.eqb : float_scope.
Infix "=f=" := Float.eq (at level 70, no associativity).

(** ** [calculate_stress_index] (index_2.py) *)

Definition calculate_stress_index (hr baseline_rhr hrv baseline_hrv : float) : float :=
  if Float.isna hr || Float.isna baseline_rhr || Float.isna hrv
     || Float.isna baseline_hrv
     || (baseline_rhr =? Fin 0)%float || (baseline_hrv =? Fin 0)%float
  then NaN
  else
    let hr_ratio := (hr / baseline_rhr)%float in
    let hr_component :=
      Float.py_min (Fin 1.5)
        (Float.py_max (Fin 0) ((hr_ratio - Fin 0.8) * Fin 2)%float) in
    let hrv_ratio := (hrv / baseline_hrv)%float in
    let hrv_component :=
      Float.py_min (Fin 1.5)
        (Float.py_max (Fin 0) ((Fin 1 - hrv_ratio) * Fin 2)%float) in
    let stress_index := (hr_component + hrv_component)%float in
    Float.round1 (Float.py_min (Fin 3.0) (Float.py_max (Fin 0.0) stress_index)).


(** The formula of the specification (section 4.3), on finite inputs:
    [clamp(lo, hi, x)] and the stress index built from it. *)
Definition clamp (lo hi x : Q) : Q :=
  if Qlt_le_dec x lo then lo else if Qlt_le_dec hi x then hi else x.

Definition stress_index_spec (hr baseline_rhr hrv baseline_hrv : Q) : Q :=
  let hr_component := clamp 0 1.5 ((hr / baseline_rhr - 0.8) * 2) in
  let hrv_component := clamp 0 1.5 ((1 - hrv / baseline_hrv) * 2) in
  Float.round1_Q (clamp 0 3 (hr_component + hrv_component)).

(** The order on defined values; nothing is below or above NaN. *)
Definition float_le (x y : float) : Prop :=
  match x, y with
  | Fin a, Fin b => a <= b
  | _, _ => False
  end.

(** ** Sorting

    A stable insertion sort, used for pandas' [sort_values], [quantile],
    [median] and [nsmallest] and for Python's [sorted]. *)

Section Sort.
Context {A : Type} (leb : A -> A -> bool).

Fixpoint insert_sorted (x : A) (l : list A) : list A :=
  match l with
  | [] => [x]
  | y :: t => if leb x y then x :: y :: t else y :: insert_sorted x t
  end.

Fixpoint isort (l : list A) : list A :=
  match l with
  | [] => []
  | x :: t => insert_sorted x (isort t)
  end.
End Sort.

Definition Qleb (a b : Q) : bool := if Qlt_le_dec b a then false else true.

(** ** pandas Series reductions

    A column is a [list float]; every reduction skips the missing values
    first ([skipna=True], pandas' default) and is NaN on what is left empty. *)

Module Series.

Definition dropna (s : list float) : list Q :=
  flat_map (fun x => match x with NaN => [] | Fin q => [q] end) s.

Definition sum_Q (v : list Q) : Q := fold_right Qplus 0 v.

Definition len_Q {A} (v : list A) : Q := inject_Z (Z.of_nat (length v)).

Definition mean (s : list float) : float :=
  match dropna s with
  | [] => NaN
  | v => Fin (sum_Q v / len_Q v)
  end.

Fixpoint min_Q (a : Q) (v : list Q) : Q :=
  match v with
  | [] => a
  | b :: t => min_Q (if Qlt_le_dec b a then b else a) t
  end.

Definition min (s : list float) : float :=
  match dropna s with
  | [] => NaN
  | a :: t => Fin (min_Q a t)
  end.

Definition sort_values (v : list Q) : list Q := isort Qleb v.

(** [quantile(p)] with pandas' default linear interpolation: on the sorted
    values [v[0..n-1]], the value at the fractional position [p*(n-1)]. *)
Definition quantile (p : Q) (s : list float) : float :=
  match sort_values (dropna s) with
  | [] => NaN
  | (x0 :: _) as v =>
      let pos := p * (len_Q v - 1) in
      let lo := Z.to_nat (Qfloor pos) in
      let frac := pos - inject_Z (Qfloor pos) in
      let a := nth lo v x0 in
      let b := nth (S lo) v a in
      Fin (a + (b - a) * frac)
  end.

(** [median()]: the middle value, or the mean of the two middle values. *)
Definition median (s : list float) : float :=
  match sort_values (dropna s) with
  | [] => NaN
  | (x0 :: _) as v =>
      let n := length v in
      if Nat.even n
      then Fin ((nth (n / 2 - 1)%nat v x0 + nth (n / 2)%nat v x0) / 2)
      else Fin (nth (n / 2)%nat v x0)
  end.

End Series.

(** ** Records and data frames *)

(** One row of the table [get_hrv_data] returns: the columns the analytic
    core reads.  [timestamp] is in seconds; [date] is the calendar date of
    the timestamp (a day number); [tags] is [None] when the cell is not a
    Python list. *)
Record HrvRecord : Type := {
  timestamp : Q;
  date : Z;
  heartRate : float;
  mean_rr : float;
  sdnn : float;
  rmssd : float;
  pnn50 : float;
  cv_rr : float;
  lfPower : float;
  hfPower : float;
  lfHfRatio : float;
  breathingRate : float;
  quality_score : float;
  tags : option (list string)
}.

Definition DataFrame : Type := list HrvRecord.

(** [lambda x: 'Sleep' in x if isinstance(x, list) else False] *)
Definition is_sleep (r : HrvRecord) : bool :=
  match tags r with
  | Some l => existsb (String.eqb "Sleep") l
  | None => false
  end.

Definition on_date (d : Z) (r : HrvRecord) : bool := (date r =? d)%Z.

Definition column (f : HrvRecord -> float) (df : DataFrame) : list float := map f df.

(** [sorted(df['date'].unique())], and the ascending group keys of
    [groupby('date')]. *)
Fixpoint insert_date (d : Z) (l : list Z) : list Z :=
  match l with
  | [] => [d]
  | x :: t =>
      if (d <? x)%Z then d :: x :: t
      else if (d =? x)%Z then x :: t
      else x :: insert_date d t
  end.

Definition sorted_unique (l : list Z) : list Z := fold_right insert_date [] l.

(** [min()] and [max()] of the timestamps of a non-empty frame. *)
Definition Qmin' (a b : Q) : Q := if Qlt_le_dec b a then b else a.
Definition Qmax' (a b : Q) : Q := if Qlt_le_dec a b then b else a.

Definition timestamp_min (df : DataFrame) : Q :=
  match map timestamp df with
  | [] => 0
  | t :: ts => fold_left Qmin' ts t
  end.

Definition timestamp_max (df : DataFrame) : Q :=
  match map timestamp df with
  | [] => 0
  | t :: ts => fold_left Qmax' ts t
  end.

(** [(end_time - start_time).total_seconds() / 60.0] *)
Definition span_minutes (df : DataFrame) : Q :=
  (timestamp_max df - timestamp_min df) / 60.

(** ** [calculate_night_metrics] (index_1.py)

    A row of the night table: its date and its numeric columns by name. *)
Record NightRow : Type := {
  night_date : Z;
  night_cols : gmap string float
}.

Definition night_row (d : Z) (group : DataFrame) : NightRow :=
  let mean_rr_ := Series.mean (column mean_rr group) in
  let mean_hr :=
    if negb (Float.isna mean_rr_) && (mean_rr_ >? Fin 0)%float
    then (Fin 60000 / mean_rr_)%float else NaN in
  let rhr :=
    if (3 <=? length group)%nat
    then Series.quantile 0.1 (column heartRate group)
    else Series.min (column heartRate group) in
  let duration_minutes := span_minutes group in
  {| night_date := d;
     night_cols :=
       list_to_map
         [ ("mean_rr"%string, mean_rr_);
           ("sdnn"%string, Series.mean (column sdnn group));
           ("rmssd"%string, Series.mean (column rmssd group));
           ("pnn50"%string, Series.mean (column pnn50 group));
           ("cv_rr"%string, Series.mean (column cv_rr group));
           ("lf_power"%string, Series.mean (column lfPower group));
           ("hf_power"%string, Series.mean (column hfPower group));
           ("lf_hf_ratio"%string, Series.mean (column lfHfRatio group));
           ("breathing_rate"%string, Series.mean (column breathingRate group));
           ("mean_hr"%string, mean_hr);
           ("rhr"%string, rhr);
           ("session_quality"%string, Series.mean (column quality_score group));
           ("record_count"%string, Fin (Series.len_Q group));
           ("duration_minutes"%string, Fin duration_minutes) ] |}.

Definition calculate_night_metrics (df : DataFrame) : list NightRow :=
  let sleep_df := List.filter is_sleep df in
  match sleep_df with
  | [] => []
  | _ =>
      map (fun d => night_row d (List.filter (on_date d) sleep_df))
          (sorted_unique (map date sleep_df))
  end.

(** ** [calculate_baselines] (index_1.py) *)

Definition latest_date (df : DataFrame) : Z :=
  match map date df with
  | [] => 0%Z
  | d :: ds => fold_left Z.max ds d
  end.

Definition baseline_window (df : DataFrame) (days : Z) : DataFrame :=
  let cutoff_date := (latest_date df - days)%Z in
  List.filter (fun r => (cutoff_date <=? date r)%Z) df.

Definition calculate_baselines (df : DataFrame) (days : Z) : gmap string float :=
  match df with
  | [] => ∅
  | _ =>
      let baseline_df := baseline_window df days in
      let sleep_sessions := List.filter is_sleep baseline_df in
      let baselines : gmap string float := ∅ in
      match sleep_sessions with
      | [] => baselines
      | _ =>
          let baselines := <["hrv"%string := Series.median (column rmssd sleep_sessions)]> baselines in
          let baselines := <["rhr"%string := Series.quantile 0.1 (column heartRate sleep_sessions)]> baselines in
          let baselines := <["sdnn"%string := Series.median (column sdnn sleep_sessions)]> baselines in
          let baselines := <["breathing_rate"%string := Series.median (column breathingRate sleep_sessions)]> baselines in
          let baselines := <["hr"%string := Series.mean (column heartRate baseline_df)]> baselines in
          let baselines := <["lf_hf_ratio"%string := Series.median (column lfHfRatio sleep_sessions)]> baselines in
          baselines
      end
  end.

(** ** [calculate_recovery_score] (index_1.py) *)

(** [d.get(k, default)] on a Python dict and on a row of a data frame. *)
Definition get (m : gmap string float) (k : string) (d : float) : float :=
  match m !! k with
  | Some v => v
  | None => d
  end.

Module Score.
(** The values the loop body computes for one night. *)
Record t : Type := {
  hrv_score : float;
  rhr_score : float;
  hr_drop_score : float;
  duration_score : float;
  lfhf_penalty : float;
  sleep_quality : float;
  recovery_score : float
}.
End Score.

Definition score_components (baselines row : gmap string float) : Score.t :=
  let rmssd := get row "rmssd" NaN in
  let rhr := get row "rhr" NaN in
  let avg_hr := get row "mean_hr" NaN in
  let duration := get row "duration_minutes" (Fin 0) in
  let lf_hf := get row "lf_hf_ratio" NaN in
  let baseline_rmssd := get baselines "hrv" rmssd in
  let baseline_rhr := get baselines "rhr" rhr in
  let baseline_hr := get baselines "hr" avg_hr in
  let hrv_score :=
    if (baseline_rmssd >? Fin 0)%float && (rmssd >? Fin 0)%float
    then Float.py_min (rmssd / baseline_rmssd)%float (Fin 1.0) else Fin 0.5 in
  let rhr_score :=
    if (baseline_rhr >? Fin 0)%float && (rhr >? Fin 0)%float
    then Float.py_min (baseline_rhr / rhr)%float (Fin 1.0) else Fin 0.5 in
  let rmssd_score := hrv_score in
  let hr_drop_score :=
    if (baseline_hr >? Fin 0)%float
    then ((baseline_hr - avg_hr) / baseline_hr)%float else Fin 0 in
  let duration_score := Float.py_min (duration / Fin 420)%float (Fin 1.0) in
  let lfhf_penalty :=
    if (lf_hf <? Fin 2)%float then Fin 1.0
    else if (lf_hf <? Fin 4)%float then Fin 0.8 else Fin 0.5 in
  let sleep_quality :=
    ((Fin 0.4 * rmssd_score + Fin 0.3 * hr_drop_score
      + Fin 0.2 * duration_score + Fin 0.1 * lfhf_penalty) * Fin 100)%float in
  let sleep_quality := Float.py_max (Fin 0) (Float.py_min (Fin 100) sleep_quality) in
  let recovery_score :=
    ((Fin 0.5 * hrv_score + Fin 0.3 * rhr_score
      + Fin 0.2 * (sleep_quality / Fin 100)) * Fin 100)%float in
  let recovery_score := Float.py_max (Fin 0) (Float.py_min (Fin 100) recovery_score) in
  {| Score.hrv_score := hrv_score;
     Score.rhr_score := rhr_score;
     Score.hr_drop_score := hr_drop_score;
     Score.duration_score := duration_score;
     Score.lfhf_penalty := lfhf_penalty;
     Score.sleep_quality := sleep_quality;
     Score.recovery_score := recovery_score |}.

(** One turn of the loop: the row already carries the [recovery_score]
    column the function added (NaN) before the loop. *)
Definition score_row (baselines : gmap string float) (r : NightRow) : NightRow :=
  let row := <["recovery_score"%string := NaN]> (night_cols r) in
  let s := score_components baselines row in
  {| night_date := night_date r;
     night_cols :=
       <["recovery_score"%string := Float.round1 (Score.recovery_score s)]>
         (<["sleep_quality"%string := Float.round1 (Score.sleep_quality s)]> row) |}.

Definition calculate_recovery_score
    (night_data : list NightRow) (baselines : gmap string float) : list NightRow :=
  match night_data with
  | [] => night_data
  | _ =>
      if (size baselines =? 0)%nat then night_data
      else map (score_row baselines) night_data
  end.

(** ** [detect_sleep_stages] and the stage durations of [main] (index_1.py) *)

Inductive SleepStage : Type := Deep | REM | Light | Unknown.

Definition SleepStage_eqb (a b : SleepStage) : bool :=
  match a, b with
  | Deep, Deep | REM, REM | Light, Light | Unknown, Unknown => true
  | _, _ => false
  end.

Definition classify_stage (hr_p20 rmssd_p80 rmssd_p30 mean_hr : float)
    (r : HrvRecord) : SleepStage :=
  let hr := heartRate r in
  let rmssd_ := rmssd r in
  let lf_hf := lfHfRatio r in
  if Float.isna hr || Float.isna rmssd_ || Float.isna lf_hf then Unknown
  else if (hr <=? hr_p20)%float && (rmssd_ >=? rmssd_p80)%float
          && (lf_hf <? Fin 1.0)%float then Deep
  else if (hr >? mean_hr)%float && (rmssd_ <=? rmssd_p30)%float
          && (lf_hf >? Fin 2.0)%float then REM
  else Light.

(** The result frame: every record with its [sleep_stage] label. *)
Definition detect_sleep_stages (sleep_df : DataFrame) : list (HrvRecord * SleepStage) :=
  let hr_p20 := Series.quantile 0.2 (column heartRate sleep_df) in
  let rmssd_p30 := Series.quantile 0.3 (column rmssd sleep_df) in
  let rmssd_p80 := Series.quantile 0.8 (column rmssd sleep_df) in
  let mean_hr := Series.mean (column heartRate sleep_df) in
  map (fun r => (r, classify_stage hr_p20 rmssd_p80 rmssd_p30 mean_hr r)) sleep_df.

(** [stage_counts.get(stage, 0)] *)
Definition stage_count (s : SleepStage) (l : list (HrvRecord * SleepStage)) : nat :=
  length (List.filter (fun x => SleepStage_eqb (snd x) s) l).

Module Stages.
Record t : Type := {
  total_minutes : Q;
  deep_minutes : Q;
  rem_minutes : Q;
  light_minutes : Q
}.
End Stages.

(** Lines 672-694 of [main], for a non-empty [sleep_records]. *)
Definition stage_minutes (sleep_records : DataFrame) : Stages.t :=
  let sleep_with_stages := detect_sleep_stages sleep_records in
  let total_minutes := Float.round1_Q (span_minutes (map fst sleep_with_stages)) in
  let total_stage_counts :=
    (stage_count Deep sleep_with_stages + stage_count REM sleep_with_stages
     + stage_count Light sleep_with_stages + stage_count Unknown sleep_with_stages)%nat in
  let pct_raw (s : SleepStage) : Q :=
    if (0 <? total_stage_counts)%nat
    then inject_Z (Z.of_nat (stage_count s sleep_with_stages))
         / inject_Z (Z.of_nat total_stage_counts)
    else 0 in
  {| Stages.total_minutes := total_minutes;
     Stages.deep_minutes := Float.round1_Q (total_minutes * pct_raw Deep);
     Stages.rem_minutes := Float.round1_Q (total_minutes * pct_raw REM);
     Stages.light_minutes := Float.round1_Q (total_minutes * pct_raw Light) |}.

(** ** [calculate_daily_metrics_with_dynamic_baselines] (index_2.py) *)

Module Daily.
(** One dict appended to [result_data]. *)
Record t : Type := {
  date : Z;
  rhr : float;
  avg_hr : float;
  hrv : float;
  breathing_rate : float;
  stress_index : float;
  baseline_rhr : float;
  baseline_hr : float;
  baseline_hrv : float;
  baseline_breathing_rate : float;
  day_number : nat
}.
End Daily.

Definition empty (df : DataFrame) : bool :=
  match df with [] => true | _ => false end.

(** The order of [sort_values] on a column of a frame: NaN last. *)
Definition key_leb (key : HrvRecord -> float) (x y : HrvRecord) : bool :=
  match key x, key y with
  | Fin a, Fin b => Qleb a b
  | Fin _, NaN => true
  | NaN, Fin _ => false
  | NaN, NaN => true
  end.

(** [df.nsmallest(n, key)]: the first [n] rows in ascending order of the
    column, ties and missing values in their original order, missing last. *)
Definition nsmallest (n : nat) (key : HrvRecord -> float) (df : DataFrame) : DataFrame :=
  firstn n (isort (key_leb key) df).

(** [int(x)] on a float: truncation towards zero. *)
Definition py_int (q : Q) : Z := Z.quot (Qnum q) (Zpos (Qden q)).

(** [max(1, int(len(cumulative_sleep) * 0.3))] *)
Definition lowest_count (cumulative_sleep : DataFrame) : nat :=
  Z.to_nat (Z.max 1 (py_int (Series.len_Q cumulative_sleep * 0.3))).

Definition daily_row (d : Z) (day_sleep day_non_sleep : DataFrame)
    (cumulative_sleep cumulative_non_sleep : DataFrame) (n_results : nat) : Daily.t :=
  let rhr :=
    if negb (empty day_sleep) && (3 <=? length day_sleep)%nat
    then Series.quantile 0.1 (column heartRate day_sleep)
    else if negb (empty day_sleep) then Series.min (column heartRate day_sleep)
    else NaN in
  let avg_hr :=
    if negb (empty day_non_sleep) then Series.mean (column heartRate day_non_sleep)
    else NaN in
  let hrv :=
    if negb (empty day_sleep) then Series.mean (column rmssd day_sleep) else NaN in
  let breathing_rate :=
    if negb (empty day_sleep) then Series.mean (column breathingRate day_sleep)
    else NaN in
  let baseline_hrv :=
    if negb (empty cumulative_sleep) && (3 <=? length cumulative_sleep)%nat
    then
      let lowest_hrv_count := lowest_count cumulative_sleep in
      Series.median (column rmssd (nsmallest lowest_hrv_count rmssd cumulative_sleep))
    else hrv in
  let baseline_rhr :=
    if negb (empty cumulative_sleep) && (3 <=? length cumulative_sleep)%nat
    then
      let lowest_rhr_count := lowest_count cumulative_sleep in
      Series.median
        (column heartRate (nsmallest lowest_rhr_count heartRate cumulative_sleep))
    else rhr in
  let baseline_hr :=
    if negb (empty cumulative_non_sleep)
    then Series.median (column heartRate cumulative_non_sleep) else avg_hr in
  let baseline_breathing_rate :=
    if negb (empty cumulative_sleep)
    then Series.median (column breathingRate cumulative_sleep) else breathing_rate in
  let stress_index := calculate_stress_index avg_hr baseline_rhr hrv baseline_hrv in
  {| Daily.date := d;
     Daily.rhr := rhr;
     Daily.avg_hr := avg_hr;
     Daily.hrv := hrv;
     Daily.breathing_rate := breathing_rate;
     Daily.stress_index := stress_index;
     Daily.baseline_rhr := baseline_rhr;
     Daily.baseline_hr := baseline_hr;
     Daily.baseline_hrv := baseline_hrv;
     Daily.baseline_breathing_rate := baseline_breathing_rate;
     Daily.day_number := (n_results + 1)%nat |}.

(** The [for date in unique_dates] loop, with the three variables it
    updates: the two cumulative frames and [result_data]. *)
Fixpoint daily_loop (sleep_records non_sleep_records : DataFrame)
    (unique_dates : list Z) (cumulative_sleep cumulative_non_sleep : DataFrame)
    (result_data : list Daily.t) : list Daily.t :=
  match unique_dates with
  | [] => result_data
  | d :: rest =>
      let day_sleep := List.filter (on_date d) sleep_records in
      let day_non_sleep := List.filter (on_date d) non_sleep_records in
      let cumulative_sleep := cumulative_sleep ++ day_sleep in
      let cumulative_non_sleep := cumulative_non_sleep ++ day_non_sleep in
      let row :=
        daily_row d day_sleep day_non_sleep cumulative_sleep cumulative_non_sleep
          (length result_data) in
      daily_loop sleep_records non_sleep_records rest
        cumulative_sleep cumulative_non_sleep (result_data ++ [row])
  end.

Definition calculate_daily_metrics_with_dynamic_baselines (df : DataFrame)
    : list Daily.t :=
  match df with
  | [] => []
  | _ =>
      let sleep_records := List.filter is_sleep df in
      let non_sleep_records := List.filter (fun r => negb (is_sleep r)) df in
      match sleep_records with
      | [] => []
      | _ =>
          let unique_dates := sorted_unique (map date df) in
          daily_loop sleep_records non_sleep_records unique_dates [] [] []
      end
  end.

(** ** The functions around the scores *)

(** What a call does: it returns a value or it raises (an [IndexError], a
    [KeyError] or a [ValueError]). *)
Inductive result (A : Type) : Type :=
  | Returns : A -> result A
  | Raises : result A.
Arguments Returns {A} _.
Arguments Raises {A}.

(** *** [generate_color_label] (index_1.py) *)

(** [colors[-1]] *)
Definition last_item (colors : list string) : result string :=
  match rev colors with
  | [] => Raises
  | c :: _ => Returns c
  end.

(** [colors[i], ["Low", "Moderate", "High"][i]] *)
Definition color_and_label (colors : list string) (i : nat) : result (string * string) :=
  match nth_error colors i, nth_error ["Low"; "Moderate"; "High"]%string i with
  | Some c, Some l => Returns (c, l)
  | _, _ => Raises
  end.

(** The [for i, threshold in enumerate(thresholds)] loop from index [i] on,
    and the [return] after it. *)
Fixpoint color_label_from (i : nat) (value : float) (thresholds : list float)
    (colors : list string) : result (string * string) :=
  match thresholds with
  | [] =>
      match last_item colors with
      | Returns c => Returns (c, "High"%string)
      | Raises => Raises
      end
  | threshold :: rest =>
      if (value <? threshold)%float then color_and_label colors i
      else color_label_from (S i) value rest colors
  end.

(** [value] is [None] for Python's [None]. *)
Definition generate_color_label (value : option float) (thresholds : list float)
    (colors : list string) : result (string * string) :=
  match value with
  | Some (Fin v) => color_label_from 0 (Fin v) thresholds colors
  | _ =>
      match last_item colors with
      | Returns c => Returns (c, "Unknown"%string)
      | Raises => Raises
      end
  end.

(** *** [create_daily_report] (index_1.py) *)

(** [round(x, 2)] *)
Definition round2_Q (q : Q) : Q := inject_Z (Float.round_half_even (q * 100)) / 100.

Definition round2 (x : float) : float :=
  match x with
  | NaN => NaN
  | Fin q => Fin (round2_Q q)
  end.

Module Report.
(** The dict the function builds; [hr_change] is the number that the string
    [f"{...:.1f}%"] shows, and [None] stands for ["N/A"]. *)
Record t : Type := {
  date : Z;
  hr_value : float;
  hr_baseline : float;
  hr_change : option float;
  hrv_rmssd : float;
  hrv_baseline : float;
  hrv_score : float;
  rhr_value : float;
  rhr_baseline : float;
  rhr_score : float;
  breathing_rate_value : float;
  breathing_rate_baseline : float;
  recovery_score : float;
  sleep_quality : float;
  sleep_duration : Z
}.
End Report.

(** [night_data.sort_values('date', ascending=False)].  The night table has
    one row per date, so the order of the result is fixed by the dates. *)
Definition sort_by_date_descending (night_data : list NightRow) : list NightRow :=
  isort (fun a b => (night_date b <=? night_date a)%Z) night_data.

(** [x if not pd.isna(x) else 0] *)
Definition or_zero (x : float) : float := if Float.isna x then Fin 0 else x.

(** [row[k] if k in row and not pd.isna(row[k]) else 0] *)
Definition present_or_zero (row : gmap string float) (k : string) : float :=
  match row !! k with
  | Some x => or_zero x
  | None => Fin 0
  end.

Definition build_report (d : Z) (latest_day baselines : gmap string float)
    : result Report.t :=
  match latest_day !! "mean_hr"%string, latest_day !! "rmssd"%string,
        latest_day !! "rhr"%string, latest_day !! "breathing_rate"%string,
        latest_day !! "duration_minutes"%string with
  | Some mean_hr, Some rmssd_, Some rhr, Some breathing_rate, Some (Fin duration) =>
      Returns
        {| Report.date := d;
           Report.hr_value := Float.round1 (or_zero mean_hr);
           Report.hr_baseline := Float.round1 (get baselines "hr" (Fin 0));
           Report.hr_change :=
             if negb (Float.isna mean_hr) && (get baselines "hr" (Fin 0) >? Fin 0)%float
             then Some (Float.round1
                          ((mean_hr / get baselines "hr" (Fin 1) - Fin 1) * Fin 100)%float)
             else None;
           Report.hrv_rmssd := Float.round1 (or_zero rmssd_);
           Report.hrv_baseline := Float.round1 (get baselines "hrv" (Fin 0));
           Report.hrv_score :=
             round2 (if negb (Float.isna rmssd_)
                        && (get baselines "hrv" (Fin 0) >? Fin 0)%float
                     then (rmssd_ / get baselines "hrv" (Fin 1))%float else Fin 0);
           Report.rhr_value := Float.round1 (or_zero rhr);
           Report.rhr_baseline := Float.round1 (get baselines "rhr" (Fin 0));
           Report.rhr_score :=
             round2 (if negb (Float.isna rhr) && (rhr >? Fin 0)%float
                     then (get baselines "rhr" (Fin 0) / rhr)%float else Fin 0);
           Report.breathing_rate_value := Float.round1 (or_zero breathing_rate);
           Report.breathing_rate_baseline :=
             Float.round1 (get baselines "breathing_rate" (Fin 0));
           Report.recovery_score :=
             Float.round1 (present_or_zero latest_day "recovery_score");
           Report.sleep_quality :=
             Float.round1 (present_or_zero latest_day "sleep_quality");
           Report.sleep_duration := py_int duration |}
  | _, _, _, _, _ => Raises
  end.

(** The result is [None] for the empty dict [{}]. *)
Definition create_daily_report (night_data : list NightRow)
    (baselines : gmap string float) : result (option Report.t) :=
  match sort_by_date_descending night_data with
  | [] => Returns None
  | latest_day :: _ =>
      match build_report (night_date latest_day) (night_cols latest_day) baselines with
      | Returns report => Returns (Some report)
      | Raises => Raises
      end
  end.

(** *** The sleep analysis of [main] (index_1.py) *)

Module StagePct.
Record t : Type := {
  deep_pct : Q;
  rem_pct : Q;
  light_pct : Q
}.
End StagePct.

(** [round((minutes / total_minutes) * 100, 1) if total_minutes > 0 else 0.0] *)
Definition stage_pct (minutes total_minutes : Q) : Q :=
  if Qlt_le_dec 0 total_minutes
  then Float.round1_Q (minutes / total_minutes * 100) else 0.0.

(** Lines 696-699 of [main], after the stage minutes. *)
Definition stage_percentages (sleep_records : DataFrame) : StagePct.t :=
  let s := stage_minutes sleep_records in
  {| StagePct.deep_pct := stage_pct (Stages.deep_minutes s) (Stages.total_minutes s);
     StagePct.rem_pct := stage_pct (Stages.rem_minutes s) (Stages.total_minutes s);
     StagePct.light_pct := stage_pct (Stages.light_minutes s) (Stages.total_minutes s) |}.

(** The body of the weekly loop for a date that has sleep records: the hours
    of Deep, REM and Light. *)
Definition night_stage_hours (date_sleep : DataFrame) : Q * Q * Q :=
  let date_sleep_with_stages := detect_sleep_stages date_sleep in
  let total_minutes := span_minutes (map fst date_sleep_with_stages) in
  let total_stage_counts :=
    (stage_count Deep date_sleep_with_stages + stage_count REM date_sleep_with_stages
     + stage_count Light date_sleep_with_stages
     + stage_count Unknown date_sleep_with_stages)%nat in
  let stage_minutes_of (s : SleepStage) : Q :=
    if (0 <? total_stage_counts)%nat && (if Qlt_le_dec 0 total_minutes then true else false)
    then total_minutes
         * (inject_Z (Z.of_nat (stage_count s date_sleep_with_stages))
            / inject_Z (Z.of_nat total_stage_counts))
    else 0 in
  (stage_minutes_of Deep / 60, stage_minutes_of REM / 60, stage_minutes_of Light / 60).

(** [[latest_sleep_date - timedelta(days=i) for i in range(6, -1, -1)]] *)
Definition week_dates (latest_sleep_date : Z) : list Z :=
  map (fun i => (latest_sleep_date - i)%Z) [6; 5; 4; 3; 2; 1; 0]%Z.

(** The three lists [deep_durations], [rem_durations] and [light_durations]
    of the weekly chart, entry by entry: one triple per date of the week. *)
Definition weekly_stage_hours (df : DataFrame) (latest_sleep_date : Z)
    : list (Q * Q * Q) :=
  map (fun d =>
         let date_sleep := List.filter is_sleep (List.filter (on_date d) df) in
         if negb (empty date_sleep) then night_stage_hours date_sleep else (0, 0, 0))
      (week_dates latest_sleep_date).

(** *** [create_metric_convergence_plot] (index_2.py) *)

(** [np.abs(a - b)] *)
Definition abs_diff (a b : float) : float :=
  match (a - b)%float with
  | Fin q => Fin (Qabs q)
  | NaN => NaN
  end.

(** [Series.max()], missing values skipped. *)
Fixpoint max_Q (a : Q) (v : list Q) : Q :=
  match v with
  | [] => a
  | b :: t => max_Q (if Qlt_le_dec a b then b else a) t
  end.

Definition series_max (s : list float) : float :=
  match Series.dropna s with
  | [] => NaN
  | a :: t => Fin (max_Q a t)
  end.

(** One normalised column: [diff / max_diff if max_diff > 0 else 0]. *)
Definition diff_norm (metric baseline : list float) : list float :=
  let diff := map (fun p => abs_diff (fst p) (snd p)) (combine metric baseline) in
  let max_diff := series_max diff in
  if (max_diff >? Fin 0)%float
  then map (fun x => (x / max_diff)%float) diff
  else map (fun _ => Fin 0) diff.

Module Convergence.
(** The four columns the function adds to [data] and plots. *)
Record t : Type := {
  rhr_diff_norm : list float;
  hr_diff_norm : list float;
  hrv_diff_norm : list float;
  breathing_diff_norm : list float
}.
End Convergence.

Definition convergence_columns (data : list Daily.t) : Convergence.t :=
  {| Convergence.rhr_diff_norm :=
       diff_norm (map Daily.rhr data) (map Daily.baseline_rhr data);
     Convergence.hr_diff_norm :=
       diff_norm (map Daily.avg_hr data) (map Daily.baseline_hr data);
     Convergence.hrv_diff_norm :=
       diff_norm (map Daily.hrv data) (map Daily.baseline_hrv data);
     Convergence.breathing_diff_norm :=
       diff_norm (map Daily.breathing_rate data)
         (map Daily.baseline_breathing_rate data) |}.

(** *** [fetch_tag_distribution] and [calculate_date_range] (record_summary.py) *)

(** [tag_counts[tag] += 1], or [tag_counts[tag] = 1] for a new tag; the dict
    keeps its keys in the order of their first insertion. *)
Fixpoint count_tag (tag : string) (tag_counts : list (string * nat))
    : list (string * nat) :=
  match tag_counts with
  | [] => [(tag, 1%nat)]
  | (t, c) :: rest =>
      if String.eqb tag t then (t, S c) :: rest else (t, c) :: count_tag tag rest
  end.

(** The two nested loops over [df['tags']]. *)
Definition tag_counts (df : DataFrame) : list (string * nat) :=
  fold_left
    (fun counts r =>
       match tags r with
       | Some tags_list => fold_left (fun counts tag => count_tag tag counts) tags_list counts
       | None => counts
       end)
    df [].

(** [tag_df.sort_values('Count', ascending=False)].  pandas leaves the
    order among tags of one count open; here they keep their order, and no
    statement below depends on it. *)
Definition fetch_tag_distribution (df : DataFrame) : list (string * nat) :=
  isort (fun a b => (snd b <=? snd a)%nat) (tag_counts df).

Definition earliest_date (df : DataFrame) : Z :=
  match map date df with
  | [] => 0%Z
  | d :: ds => fold_left Z.min ds d
  end.

(** [(min_date, max_date, date_range)], or [None] for [(None, None, None)];
    a date is never falsy, so the test on the two dates always passes. *)
Definition calculate_date_range (df : DataFrame) : option (Z * Z * Z) :=
  match df with
  | [] => None
  | _ =>
      let min_date := earliest_date df in
      let max_date := latest_date df in
      Some (min_date, max_date, (max_date - min_date + 1)%Z)
  end.

(** Every tag of every record, in order. *)
Definition all_tags (df : DataFrame) : list string :=
  flat_map (fun r => match tags r with Some l => l | None => [] end) df.

(** How often [tag] occurs in a list of tags. *)
Definition occurrences (tag : string) (l : list string) : nat :=
  length (List.filter (String.eqb tag) l).

(** *** The recovery label, the components chart and the recommendation of
    [main] (index_1.py) *)

(** [generate_color_label(recovery_score, [33, 67], [...])] on the report's
    recovery score. *)
Definition recovery_category (report : Report.t) : result (string * string) :=
  generate_color_label (Some (Report.recovery_score report)) [Fin 33; Fin 67]
    ["#d9534f"; "#f0ad4e"; "#5cb85c"]%string.

Module Components.
(** The four component scores behind the bars of the chart. *)
Record t : Type := {
  rmssd_score : float;
  hr_drop_score : float;
  duration_score : float;
  lfhf_penalty : float
}.
End Components.

(** The component scores [main] computes again for the chart, from the
    latest night's [rmssd], [mean_hr], [duration_minutes] and [lf_hf_ratio]. *)
Definition displayed_components (baselines : gmap string float)
    (rmssd avg_hr duration lf_hf_ratio : float) : Components.t :=
  let baseline_rmssd := get baselines "hrv" rmssd in
  let baseline_hr := get baselines "hr" avg_hr in
  {| Components.rmssd_score :=
       if (baseline_rmssd >? Fin 0)%float
       then Float.py_min (rmssd / baseline_rmssd)%float (Fin 1.2) else Fin 0.5;
     Components.hr_drop_score :=
       if (baseline_hr >? Fin 0)%float
       then ((baseline_hr - avg_hr) / baseline_hr)%float else Fin 0.5;
     Components.duration_score := Float.py_min (duration / Fin 420)%float (Fin 1.0);
     Components.lfhf_penalty :=
       if (lf_hf_ratio <? Fin 2)%float then Fin 1.0
       else if (lf_hf_ratio <? Fin 4)%float then Fin 0.8 else Fin 0.5 |}.

Inductive Recommendation : Type :=
  | RecoveryFocusDay
  | ModerateTrainingDay
  | PerformanceDay.

(** [k in night_data.columns]: the frame is built from the rows' dicts, so it
    has the column when a row has the key. *)
Definition has_column (k : string) (night_data : list NightRow) : bool :=
  existsb (fun r => match night_cols r !! k with Some _ => true | None => false end)
    night_data.

(** The branch the recommendations take; [None] when the section shows none. *)
Definition daily_recommendation (night_data : list NightRow) : option Recommendation :=
  if has_column "recovery_score" night_data && negb (length night_data =? 0)%nat
  then
    match sort_by_date_descending night_data with
    | [] => None
    | latest :: _ =>
        let latest_recovery := get (night_cols latest) "recovery_score" NaN in
        Some (if (latest_recovery <? Fin 33)%float then RecoveryFocusDay
              else if (latest_recovery <? Fin 67)%float then ModerateTrainingDay
              else PerformanceDay)
    end
  else None.

(** *** [create_weekly_trend_chart] and [create_day_number_chart] (index_2.py) *)

Module Rect.
(** A rectangle drawn between the metric and its baseline. *)
Record t : Type := {
  x0 : Z;
  x1 : Z;
  y0 : float;
  y1 : float
}.
End Rect.

(** The loop [for i in range(len(plot_data) - 1)]: one rectangle from each row
    to the next; [x] is the column of the horizontal axis. *)
Fixpoint difference_shapes (x : Daily.t -> Z)
    (metric_column baseline_column : Daily.t -> float) (plot_data : list Daily.t)
    : list Rect.t :=
  match plot_data with
  | row :: rest =>
      match rest with
      | next :: _ =>
          {| Rect.x0 := x row;
             Rect.x1 := x next;
             Rect.y0 := Float.py_min (metric_column row) (baseline_column row);
             Rect.y1 := Float.py_max (metric_column row) (baseline_column row) |}
          :: difference_shapes x metric_column baseline_column rest
      | [] => []
      end
  | [] => []
  end.

(** [data.tail(n)] *)
Definition tail (n : nat) (data : list Daily.t) : list Daily.t :=
  skipn (length data - n) data.

Definition weekly_trend_shapes (metric_column baseline_column : Daily.t -> float)
    (data : list Daily.t) : list Rect.t :=
  let days_to_show := Nat.min 7 (length data) in
  let plot_data := tail days_to_show data in
  difference_shapes Daily.date metric_column baseline_column plot_data.

Definition day_number_shapes (metric_column baseline_column : Daily.t -> float)
    (data : list Daily.t) : list Rect.t :=
  difference_shapes (fun row => Z.of_nat (Daily.day_number row))
    metric_column baseline_column data.

(** ** Vocabulary of the statements *)

(** The rows of a frame that carry the date [d]. *)
Definition day_records (records : DataFrame) (d : Z) : DataFrame :=
  List.filter (on_date d) records.

(** A stored cell that holds a defined value between [lo] and [hi]. *)
Definition in_range (lo hi : Q) (o : option float) : Prop :=
  exists y, o = Some (Fin y) /\ lo <= y /\ y <= hi.

(** [subset] is a choice of [k] rows of [cumulative] that are lowest by the
    column [key]: it has [k] rows, is not empty, and no row left out comes
    before one of its rows in the order of the column (missing values last). *)
Definition lowest_subset (key : HrvRecord -> float) (k : nat)
    (cumulative subset : DataFrame) : Prop :=
  length subset = k /\ subset <> []
  /\ exists rest,
       Permutation (subset ++ rest) cumulative
       /\ forall x y, In x subset -> In y rest -> key_leb key x y = true.

(** The cumulative sleep frame when the date [d] is processed: the sleep
    records of every date up to [d], one date after the other, ascending. *)
Definition cumulative_sleep_upto (df : DataFrame) (d : Z) : DataFrame :=
  flat_map (day_records (List.filter is_sleep df))
    (List.filter (fun x => (x <=? d)%Z) (sorted_unique (map date df))).

(** [x] lies between two defined values of the column [s]. *)
Definition between_recorded (s : list float) (x : Q) : Prop :=
  exists a b, In (Fin a) s /\ In (Fin b) s /\ a <= x /\ x <= b.

(** [h] is a triple of stage hours that fits the span of the sleep records
    [date_sleep]: each of the three lies between 0 and the span in hours. *)
Definition hours_fit_span (date_sleep : DataFrame) (h : Q * Q * Q) : Prop :=
  let '(deep, rem, light) := h in
  let span_hours := span_minutes date_sleep / 60 in
  (0 <= deep /\ deep <= span_hours)
  /\ (0 <= rem /\ rem <= span_hours)
  /\ (0 <= light /\ light <= span_hours).

(** A plotted value: missing, or between 0 and 1. *)
Definition unit_or_missing (x : float) : Prop :=
  match x with
  | NaN => True
  | Fin q => 0 <= q /\ q <= 1
  end.

(** The count a dict of counts holds under [tag] (0 when it has no such key). *)
Definition count_of (tag : string) (counts : list (string * nat)) : nat :=
  list_sum (map snd (List.filter (fun p => String.eqb tag (fst p)) counts)).

(** What the two loops keep true of the dict. *)
Definition counts_ok (seen : list string) (counts : list (string * nat)) : Prop :=
  List.NoDup (map fst counts)
  /\ List.Forall (fun p => (1 <= snd p)%nat) counts
  /\ list_sum (map snd counts) = length seen
  /\ forall tag, count_of tag counts = occurrences tag seen.

(** Both missing, or both defined and in order. *)
Definition same_or_le (x y : float) : Prop :=
  match x, y with
  | NaN, NaN => True
  | Fin a, Fin b => a <= b
  | _, _ => False
  end.

(** [min(num / den, 1.0) if den > 0 and num > 0 else 0.5] *)
Definition ratio_score (num den : float) : float :=
  if (den >? Fin 0)%float && (num >? Fin 0)%float
  then Float.py_min (num / den)%float (Fin 1.0) else Fin 0.5.

(** The two scores of a night from its components. *)
Definition sleep_quality_of (rmssd_score hr_drop_score duration_score lfhf_penalty : float)
    : float :=
  Float.py_max (Fin 0)
    (Float.py_min (Fin 100)
       ((Fin 0.4 * rmssd_score + Fin 0.3 * hr_drop_score
         + Fin 0.2 * duration_score + Fin 0.1 * lfhf_penalty) * Fin 100)%float).

Definition recovery_score_of (hrv_score rhr_score sleep_quality : float) : float :=
  Float.py_max (Fin 0)
    (Float.py_min (Fin 100)
       ((Fin 0.5 * hrv_score + Fin 0.3 * rhr_score
         + Fin 0.2 * (sleep_quality / Fin 100)) * Fin 100)%float).


(** [y0] is not above [y1], when both are defined. *)
Definition not_above (y0 y1 : float) : Prop :=
  forall a b, y0 = Fin a -> y1 = Fin b -> a <= b.

(** ** Sample data *)

(** A record with the columns the examples vary; the other metrics are missing. *)
Definition sample (ts : Q) (d : Z) (hr rm lf : float) (sleep : bool) : HrvRecord :=
  {| timestamp := ts; date := d; heartRate := hr; mean_rr := NaN; sdnn := NaN;
     rmssd := rm; pnn50 := NaN; cv_rr := NaN; lfPower := NaN; hfPower := NaN;
     lfHfRatio := lf; breathingRate := NaN; quality_score := NaN;
     tags := Some (if sleep then ["Sleep"%string] else ["Rest"%string]) |}.

(** One night of six sleep records over 100 minutes. *)
Definition six_record_night : DataFrame :=
  [ sample 0 1 (Fin 50) (Fin 80) (Fin 0.5) true;
    sample 1200 1 (Fin 60) (Fin 50) (Fin 1.5) true;
    sample 2400 1 (Fin 60) (Fin 50) (Fin 1.5) true;
    sample 3600 1 (Fin 60) (Fin 50) (Fin 1.5) true;
    sample 4800 1 (Fin 60) (Fin 50) (Fin 1.5) true;
    sample 6000 1 (Fin 70) (Fin 20) (Fin 3) true ].

(** A first day with three sleep records and one record awake. *)
Definition three_sleep_day : DataFrame :=
  [ sample 0 1 (Fin 50) (Fin 10) (Fin 0.5) true;
    sample 60 1 (Fin 60) (Fin 20) (Fin 1.5) true;
    sample 120 1 (Fin 70) (Fin 60) (Fin 1.5) true;
    sample 40000 1 (Fin 75) (Fin 30) (Fin 1.5) false ].

(** A first day with two sleep records and one record awake. *)
Definition two_sleep_day : DataFrame :=
  [ sample 0 1 (Fin 50) (Fin 10) (Fin 0.5) true;
    sample 60 1 (Fin 60) (Fin 20) (Fin 1.5) true;
    sample 40000 1 (Fin 75) (Fin 30) (Fin 1.5) false ].

(** A baselines mapping that is not empty and has neither [hrv] nor [rhr]. *)
Definition hr_only_baselines : gmap string float := {[ "hr"%string := Fin 60 ]}.

(** The first row of each result table ([iloc[0]]), for the examples. *)
Definition first_daily (df : DataFrame) : Daily.t :=
  hd (daily_row 0 [] [] [] [] 0) (calculate_daily_metrics_with_dynamic_baselines df).

Definition first_night (df : DataFrame) : NightRow :=
  hd {| night_date := 0; night_cols := ∅ |} (calculate_night_metrics df).

(** The records of a second day, after [two_sleep_day]. *)
Definition second_day : DataFrame :=
  [ sample 86400 2 (Fin 55) (Fin 40) (Fin 1.0) true;
    sample 120000 2 (Fin 80) (Fin 25) (Fin 2.5) false ].

(** * Properties *)

(** ** Rounding and clamping *)

Module FloatFacts.
Import Float.

Ltac case_Qdec :=
  repeat match goal with
  | |- context [Qlt_le_dec ?a ?b] => destruct (Qlt_le_dec a b)
  end.

Lemma Qdiv_const (a : Q) (p : positive) : a / (Zpos p # 1) == a * (1 # p).
Proof. unfold Qdiv. reflexivity. Qed.

Lemma floor_bounds (q : Q) : inject_Z (Qfloor q) <= q /\ q < inject_Z (Qfloor q) + 1.
Proof.
  split; [apply Qfloor_le|].
  pose proof (Qlt_floor q) as H. rewrite inject_Z_plus in H. exact H.
Qed.

Lemma round_half_even_cases (q : Q) :
  (round_half_even q = Qfloor q /\ q - inject_Z (Qfloor q) <= 1#2) \/
  (round_half_even q = (Qfloor q + 1)%Z /\ 1#2 <= q - inject_Z (Qfloor q)).
Proof.
  unfold round_half_even.
  destruct (Qlt_le_dec (q - inject_Z (Qfloor q)) (1#2)) as [H|H].
  - left. split; [reflexivity | lra].
  - destruct (Qlt_le_dec (1#2) (q - inject_Z (Qfloor q))) as [H'|H'].
    + right. split; [reflexivity | lra].
    + destruct (Z.even (Qfloor q)).
      * left. split; [reflexivity | lra].
      * right. split; [reflexivity | lra].
Qed.


Lemma round_half_even_comp (q q' : Q) : q == q' -> round_half_even q = round_half_even q'.
Proof.
  intros E. unfold round_half_even.
  rewrite (Qfloor_comp _ _ E).
  case_Qdec; try reflexivity; exfalso; lra.
Qed.

Lemma inject_Z_le_inv (a b : Z) : inject_Z a <= inject_Z b -> (a <= b)%Z.
Proof. rewrite <- Zle_Qle. auto. Qed.

Lemma inject_Z_lt_inv (a b : Z) : inject_Z a < inject_Z b -> (a < b)%Z.
Proof. rewrite <- Zlt_Qlt. auto. Qed.

Lemma round_half_even_mono (q q' : Q) :
  q <= q' -> (round_half_even q <= round_half_even q')%Z.
Proof.
  intros Hle.
  pose proof (Qfloor_resp_le _ _ Hle) as Hf.
  destruct (Z.eq_dec (Qfloor q) (Qfloor q')) as [E|NE].
  - unfold round_half_even. rewrite E.
    case_Qdec; try (exfalso; lra); destruct (Z.even (Qfloor q')); lia.
  - destruct (round_half_even_cases q) as [[-> _]|[-> _]];
    destruct (round_half_even_cases q') as [[-> _]|[-> _]]; lia.
Qed.

Lemma round_half_even_Z (z : Z) : round_half_even (inject_Z z) = z.
Proof.
  unfold round_half_even. rewrite Qfloor_Z.
  destruct (Qlt_le_dec _ _); [reflexivity | exfalso; lra].
Qed.

Lemma round1_Q_comp (q q' : Q) : q == q' -> round1_Q q = round1_Q q'.
Proof.
  intros E. unfold round1_Q. rewrite (round_half_even_comp (q * 10) (q' * 10)); [reflexivity|].
  rewrite E. reflexivity.
Qed.

Lemma round1_Q_mono (q q' : Q) : q <= q' -> round1_Q q <= round1_Q q'.
Proof.
  intros H. unfold round1_Q.
  assert (Hz : (round_half_even (q * 10) <= round_half_even (q' * 10))%Z)
    by (apply round_half_even_mono; lra).
  rewrite Zle_Qle in Hz.
  rewrite !Qdiv_const. lra.
Qed.


Lemma round1_Q_tenths (z : Z) : round1_Q (inject_Z z / 10) == inject_Z z / 10.
Proof.
  unfold round1_Q.
  rewrite (round_half_even_comp _ (inject_Z z)); [| field].
  rewrite round_half_even_Z. reflexivity.
Qed.


Lemma clamp_range lo hi x : lo <= hi -> lo <= clamp lo hi x /\ clamp lo hi x <= hi.
Proof. intros H. unfold clamp. case_Qdec; split; lra. Qed.

Lemma clamp_mono lo hi x y : lo <= hi -> x <= y -> clamp lo hi x <= clamp lo hi y.
Proof. intros H Hxy. unfold clamp. case_Qdec; lra. Qed.

Lemma clamp_comp lo lo' hi hi' x y :
  lo == lo' -> hi == hi' -> x == y -> clamp lo hi x == clamp lo' hi' y.
Proof. intros E1 E2 E. unfold clamp. case_Qdec; lra. Qed.

Lemma py_clamp lo hi x :
  lo <= hi ->
  exists y, py_min (Fin hi) (py_max (Fin lo) (Fin x)) = Fin y /\ y == clamp lo hi x.
Proof.
  intros H. unfold py_min, py_max, gtb, ltb, clamp.
  case_Qdec; eexists; (split; [reflexivity|]); lra.
Qed.

Lemma stress_index_finite (hr b1 hrv b2 : Q) :
  ~ b1 == 0 -> ~ b2 == 0 ->
  calculate_stress_index (Fin hr) (Fin b1) (Fin hrv) (Fin b2)
  = Fin (stress_index_spec hr b1 hrv b2).
Proof.
  intros H1 H2. unfold calculate_stress_index, eqb. cbn [isna orb].
  destruct (Qeq_bool b1 0) eqn:E1; [apply Qeq_bool_eq in E1; contradiction|].
  destruct (Qeq_bool b2 0) eqn:E2; [apply Qeq_bool_eq in E2; contradiction|].
  cbn [orb div sub mul lift2].
  destruct (py_clamp 0 1.5 ((hr / b1 - 0.8) * 2)) as (c1 & -> & Hc1); [lra|].
  destruct (py_clamp 0 1.5 ((1 - hrv / b2) * 2)) as (c2 & -> & Hc2); [lra|].
  cbn [add lift2].
  destruct (py_clamp 0.0 3.0 (c1 + c2)) as (c3 & -> & Hc3); [lra|].
  cbn [round1]. f_equal. unfold stress_index_spec. apply round1_Q_comp.
  rewrite Hc3. apply clamp_comp; [reflexivity | reflexivity |].
  rewrite Hc1, Hc2. reflexivity.
Qed.

Lemma stress_index_spec_range hr b1 hrv b2 :
  0 <= stress_index_spec hr b1 hrv b2 /\ stress_index_spec hr b1 hrv b2 <= 3.
Proof.
  unfold stress_index_spec.
  set (x := _ + _).
  destruct (clamp_range 0 3 x) as [Hl Hu]; [lra|].
  split.
  - apply (Qle_trans _ (round1_Q 0)); [vm_compute; discriminate | apply round1_Q_mono, Hl].
  - apply (Qle_trans _ (round1_Q 3)); [apply round1_Q_mono, Hu | vm_compute; discriminate].
Qed.

Lemma Qdiv_le_mono (a b c : Q) : 0 < c -> a <= b -> a / c <= b / c.
Proof.
  intros Hc H. unfold Qdiv. apply Qmult_le_compat_r; [exact H|].
  apply Qlt_le_weak, Qinv_lt_0_compat, Hc.
Qed.

Lemma stress_index_spec_mono_hr hr hr' b1 hrv b2 :
  0 < b1 -> hr <= hr' ->
  stress_index_spec hr b1 hrv b2 <= stress_index_spec hr' b1 hrv b2.
Proof.
  intros Hb H. unfold stress_index_spec.
  apply round1_Q_mono, clamp_mono; [lra|].
  apply Qplus_le_compat; [|apply Qle_refl].
  apply clamp_mono; [lra|].
  pose proof (Qdiv_le_mono hr hr' b1 Hb H). lra.
Qed.

Lemma stress_index_spec_mono_hrv hr b1 hrv hrv' b2 :
  0 < b2 -> hrv <= hrv' ->
  stress_index_spec hr b1 hrv' b2 <= stress_index_spec hr b1 hrv b2.
Proof.
  intros Hb H. unfold stress_index_spec.
  apply round1_Q_mono, clamp_mono; [lra|].
  apply Qplus_le_compat; [apply Qle_refl|].
  apply clamp_mono; [lra|].
  pose proof (Qdiv_le_mono hrv hrv' b2 Hb H). lra.
Qed.

End FloatFacts.
Import FloatFacts.

(** X24: the stress index is missing exactly when one of its four inputs is
    missing or one of the two baselines is zero. *)
Theorem stress_index_nan_iff (hr baseline_rhr hrv baseline_hrv : float) :
  calculate_stress_index hr baseline_rhr hrv baseline_hrv = NaN <->
    hr = NaN \/ baseline_rhr = NaN \/ hrv = NaN \/ baseline_hrv = NaN
    \/ baseline_rhr =f= Fin 0 \/ baseline_hrv =f= Fin 0.
Proof.
  destruct hr as [|a], baseline_rhr as [|b], hrv as [|c], baseline_hrv as [|d];
    try (split; [intros _; tauto | intros _; reflexivity]).
  destruct (Qeq_dec b 0) as [Eb|Nb].
  { split; [intros _; right; right; right; right; left; exact Eb|].
    intros _. unfold calculate_stress_index, Float.eqb. cbn [Float.isna orb].
    rewrite (proj2 (Qeq_bool_iff b 0) Eb). reflexivity. }
  destruct (Qeq_dec d 0) as [Ed|Nd].
  { split; [intros _; do 5 right; exact Ed|].
    intros _. unfold calculate_stress_index, Float.eqb. cbn [Float.isna orb].
    rewrite (proj2 (Qeq_bool_iff d 0) Ed). rewrite orb_true_r. reflexivity. }
  rewrite stress_index_finite by assumption.
  split; [discriminate|].
  intros [H|[H|[H|[H|[H|H]]]]]; try discriminate; cbn in H; contradiction.
Qed.

(** C6: with defined inputs and positive baselines the stress index is a
    defined value in [0, 3], does not decrease when hr grows and does not
    increase when hrv grows, the other three inputs being fixed. *)
Theorem stress_index_monotone_bounded (hr hr' baseline_rhr hrv hrv' baseline_hrv : Q) :
  0 < baseline_rhr -> 0 < baseline_hrv ->
  (exists s, calculate_stress_index (Fin hr) (Fin baseline_rhr) (Fin hrv) (Fin baseline_hrv)
             = Fin s /\ 0 <= s /\ s <= 3)
  /\ (hr <= hr' ->
      float_le (calculate_stress_index (Fin hr) (Fin baseline_rhr) (Fin hrv) (Fin baseline_hrv))
               (calculate_stress_index (Fin hr') (Fin baseline_rhr) (Fin hrv) (Fin baseline_hrv)))
  /\ (hrv <= hrv' ->
      float_le (calculate_stress_index (Fin hr) (Fin baseline_rhr) (Fin hrv') (Fin baseline_hrv))
               (calculate_stress_index (Fin hr) (Fin baseline_rhr) (Fin hrv) (Fin baseline_hrv))).
Proof.
  intros H1 H2.
  assert (N1 : ~ baseline_rhr == 0) by lra.
  assert (N2 : ~ baseline_hrv == 0) by lra.
  rewrite !stress_index_finite by assumption.
  split; [|split].
  - eexists; split; [reflexivity | apply stress_index_spec_range].
  - intros H. cbn. apply stress_index_spec_mono_hr; assumption.
  - intros H. cbn. apply stress_index_spec_mono_hrv; assumption.
Qed.

(** Raising hr from 60 to 70 and hrv from 30 to 35 around the same baselines. *)
Lemma sample_stress_index_order :
  float_le (calculate_stress_index (Fin 60) (Fin 50) (Fin 30) (Fin 40))
     (calculate_stress_index (Fin 70) (Fin 50) (Fin 30) (Fin 40))
  /\ float_le (calculate_stress_index (Fin 60) (Fin 50) (Fin 35) (Fin 40))
        (calculate_stress_index (Fin 60) (Fin 50) (Fin 30) (Fin 40)).
Proof.
  assert (P1 : 0 < 50) by reflexivity.
  assert (P2 : 0 < 40) by reflexivity.
  split.
  - apply (stress_index_monotone_bounded 60 70 50 30 30 40 P1 P2). discriminate.
  - apply (stress_index_monotone_bounded 60 60 50 30 35 40 P1 P2). discriminate.
Defined.


(** ** Sleep quality and recovery score *)

Lemma py_clamp_any (lo hi : Q) (x : float) :
  lo <= hi ->
  exists y, Float.py_max (Fin lo) (Float.py_min (Fin hi) x) = Fin y /\ lo <= y /\ y <= hi.
Proof.
  intros H. unfold Float.py_max, Float.py_min, Float.gtb, Float.ltb.
  destruct x as [|q]; case_Qdec; eexists; (split; [reflexivity|]); lra.
Qed.

Lemma round1_clamped (x : float) :
  exists y, Float.round1 (Float.py_max (Fin 0) (Float.py_min (Fin 100) x)) = Fin y
            /\ 0 <= y /\ y <= 100.
Proof.
  destruct (py_clamp_any 0 100 x) as (y & -> & Hl & Hu); [lra|].
  exists (Float.round1_Q y). split; [reflexivity|]. split.
  - apply (Qle_trans _ (Float.round1_Q 0)); [vm_compute; discriminate | apply round1_Q_mono, Hl].
  - apply (Qle_trans _ (Float.round1_Q 100)); [apply round1_Q_mono, Hu | vm_compute; discriminate].
Qed.

Lemma score_row_range baselines r :
  in_range 0 100 (night_cols (score_row baselines r) !! "sleep_quality"%string)
  /\ in_range 0 100 (night_cols (score_row baselines r) !! "recovery_score"%string).
Proof.
  unfold score_row, score_components. cbn [night_cols Score.sleep_quality Score.recovery_score].
  split.
  - rewrite lookup_insert_ne by discriminate. rewrite lookup_insert_eq.
    match goal with |- in_range _ _ (Some (Float.round1 (Float.py_max _ (Float.py_min _ ?x)))) =>
      destruct (round1_clamped x) as (y & -> & H) end.
    eexists; eauto.
  - rewrite lookup_insert_eq.
    match goal with |- in_range _ _ (Some (Float.round1 (Float.py_max _ (Float.py_min _ ?x)))) =>
      destruct (round1_clamped x) as (y & -> & H) end.
    eexists; eauto.
Qed.

(** C7: with a non-empty baselines mapping, every row of the result stores
    a sleep_quality and a recovery_score that are defined values in
    [0, 100]: both are clamped before they are rounded and stored, whatever
    the components are (a negative hr_drop_score included). *)
Theorem scores_in_range (night_data : list NightRow) (baselines : gmap string float) :
  baselines <> ∅ ->
  forall r, In r (calculate_recovery_score night_data baselines) ->
    in_range 0 100 (night_cols r !! "sleep_quality"%string)
    /\ in_range 0 100 (night_cols r !! "recovery_score"%string).
Proof.
  intros Hb r Hr. unfold calculate_recovery_score in Hr.
  destruct night_data as [|r0 nd]; [destruct Hr|].
  destruct (Nat.eqb_spec (size baselines) 0) as [E|_].
  { apply map_size_empty_iff in E. contradiction. }
  apply in_map_iff in Hr as (r' & <- & _). apply score_row_range.
Qed.


Lemma night_row_lookup d group k :
  night_cols (night_row d group) !! k =
  list_to_map (M := gmap string float)
    (map_to_list (night_cols (night_row d group))) !! k.
Proof. rewrite list_to_map_to_list. reflexivity. Qed.

Lemma night_row_no_scores d group :
  night_cols (night_row d group) !! "sleep_quality"%string = None
  /\ night_cols (night_row d group) !! "recovery_score"%string = None.
Proof.
  unfold night_row. cbn [night_cols list_to_map foldr uncurry fst snd].
  split; rewrite !lookup_insert_ne by discriminate; apply lookup_empty.
Qed.

Lemma night_metrics_rows df r :
  In r (calculate_night_metrics df) ->
  exists d, In d (sorted_unique (map date (List.filter is_sleep df)))
            /\ r = night_row d (List.filter (on_date d) (List.filter is_sleep df)).
Proof.
  unfold calculate_night_metrics.
  destruct (List.filter is_sleep df) as [|x l] eqn:E; [intros []|].
  rewrite <- E. intros H. apply in_map_iff in H as (d & <- & Hd). eauto.
Qed.

(** C9: with an empty baselines mapping the function returns the night
    table as it received it; on the table that [calculate_night_metrics]
    builds, no row then carries a sleep_quality or a recovery_score. *)
Theorem recovery_score_without_baselines (night_data : list NightRow) :
  calculate_recovery_score night_data ∅ = night_data
  /\ forall df r,
       In r (calculate_recovery_score (calculate_night_metrics df) ∅) ->
       night_cols r !! "sleep_quality"%string = None
       /\ night_cols r !! "recovery_score"%string = None.
Proof.
  assert (E : forall nd, calculate_recovery_score nd ∅ = nd)
    by (intros nd; destruct nd; reflexivity).
  split; [apply E|].
  intros df r. rewrite E. intros H.
  apply night_metrics_rows in H as (d & _ & ->). apply night_row_no_scores.
Qed.


Lemma gtb_pos (b : Q) : 0 < b -> (Fin b >? Fin 0)%float = true.
Proof.
  intros Hb. unfold Float.gtb, Float.ltb.
  destruct (Qlt_le_dec 0 b); [reflexivity | exfalso; lra].
Qed.



(** ** Sorting, smallest rows and the dynamic baseline *)

Section SortFacts.
Context {A : Type} (leb : A -> A -> bool).
Hypothesis leb_total : forall x y, leb x y = false -> leb y x = true.
Hypothesis leb_trans : forall x y z, leb x y = true -> leb y z = true -> leb x z = true.

Let R (x y : A) : Prop := leb x y = true.

Lemma insert_sorted_perm x l : Permutation (insert_sorted leb x l) (x :: l).
Proof.
  induction l as [|y t IH]; cbn; [reflexivity|].
  destruct (leb x y); [reflexivity|].
  rewrite IH. apply perm_swap.
Qed.

Lemma isort_perm l : Permutation (isort leb l) l.
Proof.
  induction l as [|x t IH]; cbn; [reflexivity|].
  rewrite insert_sorted_perm, IH. reflexivity.
Qed.

Lemma isort_length l : length (isort leb l) = length l.
Proof. apply Permutation_length, isort_perm. Qed.

Lemma insert_sorted_sorted x l :
  StronglySorted R l -> StronglySorted R (insert_sorted leb x l).
Proof.
  induction 1 as [|y t Ht IH Hy]; cbn.
  - constructor; constructor.
  - destruct (leb x y) eqn:E.
    + constructor; [constructor; assumption|].
      constructor; [exact E|].
      eapply Forall_impl; [exact Hy|]. intros z Hz. eapply leb_trans; eassumption.
    + constructor; [exact IH|].
      eapply Permutation_Forall; [symmetry; apply insert_sorted_perm|].
      constructor; [apply leb_total, E | exact Hy].
Qed.

Lemma isort_sorted l : StronglySorted R (isort leb l).
Proof.
  induction l as [|x t IH]; cbn; [constructor | apply insert_sorted_sorted, IH].
Qed.

Lemma sorted_firstn_skipn l :
  StronglySorted R l ->
  forall k x y, In x (firstn k l) -> In y (skipn k l) -> leb x y = true.
Proof.
  induction 1 as [|a t Ht IH Ha]; intros k x y Hx Hy.
  - destruct k; destruct Hx.
  - destruct k as [|k]; [destruct Hx|]. cbn in Hx, Hy.
    destruct Hx as [<-|Hx].
    + rewrite List.Forall_forall in Ha. apply Ha.
      rewrite <- (firstn_skipn k t). apply in_or_app. right. exact Hy.
    + eapply IH; eassumption.
Qed.
End SortFacts.

Lemma Qleb_true a b : Qleb a b = true <-> a <= b.
Proof. unfold Qleb. destruct (Qlt_le_dec b a); split; intros; try lra; congruence. Qed.

Lemma key_leb_total key x y : key_leb key x y = false -> key_leb key y x = true.
Proof.
  unfold key_leb, Qleb. destruct (key x), (key y); try congruence.
  case_Qdec; try congruence. exfalso; lra.
Qed.

Lemma key_leb_trans key x y z :
  key_leb key x y = true -> key_leb key y z = true -> key_leb key x z = true.
Proof.
  unfold key_leb, Qleb. destruct (key x), (key y), (key z); try congruence.
  case_Qdec; try congruence. exfalso; lra.
Qed.

Lemma nsmallest_length n key df :
  (n <= length df)%nat -> length (nsmallest n key df) = n.
Proof.
  intros H. unfold nsmallest. rewrite length_firstn, isort_length. lia.
Qed.

Lemma nsmallest_smallest n key df :
  exists rest,
    Permutation (nsmallest n key df ++ rest) df
    /\ forall x y, In x (nsmallest n key df) -> In y rest -> key_leb key x y = true.
Proof.
  exists (skipn n (isort (key_leb key) df)). unfold nsmallest. split.
  - rewrite firstn_skipn. apply isort_perm.
  - apply sorted_firstn_skipn.
    apply isort_sorted; [apply key_leb_total | apply key_leb_trans].
Qed.

Lemma lowest_count_eq cum :
  lowest_count cum = Nat.max 1 (3 * length cum / 10).
Proof.
  unfold lowest_count, py_int, Series.len_Q.
  cbn [Qmult Qnum Qden inject_Z].
  rewrite Z.quot_div_nonneg by lia.
  change (Z.pos (1 * 10)) with 10%Z.
  apply Nat2Z.inj. rewrite Z2Nat.id by lia.
  rewrite Nat2Z.inj_max, Nat2Z.inj_div, Nat2Z.inj_mul, Z.mul_comm. reflexivity.
Qed.

Lemma lowest_count_bounds cum :
  (3 <= length cum)%nat -> (1 <= lowest_count cum <= length cum)%nat.
Proof.
  rewrite lowest_count_eq. intros H. split; [lia|].
  apply Nat.max_lub; [lia|].
  apply Nat.Div0.div_le_upper_bound. lia.
Qed.

Lemma daily_loop_In sleep ns dates : forall cs cns acc r,
  In r (daily_loop sleep ns dates cs cns acc) ->
  In r acc \/
  exists pre d post,
    dates = pre ++ d :: post
    /\ r = daily_row d (day_records sleep d) (day_records ns d)
             (cs ++ flat_map (day_records sleep) (pre ++ [d]))
             (cns ++ flat_map (day_records ns) (pre ++ [d]))
             (length acc + length pre).
Proof.
  induction dates as [|d rest IH]; intros cs cns acc r H; cbn in H.
  - left. exact H.
  - apply IH in H as [H|(pre & d' & post & -> & ->)].
    + apply in_app_or in H as [H|[<-|[]]]; [left; exact H|].
      right. exists [], d, rest. split; [reflexivity|].
      cbn. rewrite !app_nil_r, Nat.add_0_r. reflexivity.
    + right. exists (d :: pre), d', post. split; [reflexivity|].
      cbn [app flat_map length]. rewrite <- !app_assoc, length_app.
      cbn [length]. f_equal. lia.
Qed.

Lemma dynamic_rows df r :
  In r (calculate_daily_metrics_with_dynamic_baselines df) ->
  exists pre post,
    sorted_unique (map date df) = pre ++ Daily.date r :: post
    /\ r = daily_row (Daily.date r)
             (day_records (List.filter is_sleep df) (Daily.date r))
             (day_records (List.filter (fun x => negb (is_sleep x)) df) (Daily.date r))
             (flat_map (day_records (List.filter is_sleep df)) (pre ++ [Daily.date r]))
             (flat_map (day_records (List.filter (fun x => negb (is_sleep x)) df))
                (pre ++ [Daily.date r]))
             (length pre).
Proof.
  unfold calculate_daily_metrics_with_dynamic_baselines.
  destruct df as [|x df']; [intros []|]. set (df := x :: df').
  destruct (List.filter is_sleep df) as [|s l] eqn:E; [intros []|]. rewrite <- E.
  intros H. apply daily_loop_In in H as [[]|(pre & d & post & Hd & Hr)].
  assert (Daily.date r = d) as Ed by (rewrite Hr; reflexivity).
  rewrite Ed. exists pre, post. split; [exact Hd | exact Hr].
Qed.

Lemma in_dropna q s : In q (Series.dropna s) <-> In (Fin q) s.
Proof.
  unfold Series.dropna. rewrite in_flat_map. split.
  - intros ([|a] & Hx & Hq); [destruct Hq|]. destruct Hq as [<-|[]]. exact Hx.
  - intros H. exists (Fin q). split; [exact H | left; reflexivity].
Qed.

Lemma min_Q_spec v : forall a,
  In (Series.min_Q a v) (a :: v)
  /\ Series.min_Q a v <= a
  /\ forall q, In q v -> Series.min_Q a v <= q.
Proof.
  induction v as [|b t IH]; intros a; cbn [Series.min_Q].
  - split; [left; reflexivity|]. split; [lra | intros q []].
  - destruct (IH (if Qlt_le_dec b a then b else a)) as (Hin & Hle & Hall).
    destruct (Qlt_le_dec b a) as [Hlt|Hge].
    + split; [destruct Hin as [<-|Hin]; [right; left; reflexivity | right; right; exact Hin]|].
      split; [lra|]. intros q [<-|Hq]; [exact Hle | apply Hall, Hq].
    + split; [destruct Hin as [<-|Hin]; [left; reflexivity | right; right; exact Hin]|].
      split; [exact Hle|]. intros q [<-|Hq]; [lra | apply Hall, Hq].
Qed.

Lemma Series_min_exact s m :
  Series.min s = Fin m ->
  In (Fin m) s /\ forall q, In (Fin q) s -> m <= q.
Proof.
  unfold Series.min. destruct (Series.dropna s) as [|a t] eqn:E; [discriminate|].
  intros [= <-]. destruct (min_Q_spec t a) as (Hin & Hle & Hall). split.
  - apply in_dropna. rewrite E. exact Hin.
  - intros q Hq. apply in_dropna in Hq. rewrite E in Hq.
    destruct Hq as [<-|Hq]; [exact Hle | apply Hall, Hq].
Qed.

Lemma in_insert_date d x l : In d (insert_date x l) -> d = x \/ In d l.
Proof.
  induction l as [|y t IH]; cbn.
  - intros [<-|[]]. left; reflexivity.
  - destruct (x <? y)%Z; [intros [<-|H]; [left; reflexivity | right; exact H]|].
    destruct (Z.eqb_spec x y) as [->|_]; [intros H; right; exact H|].
    intros [<-|H]; [right; left; reflexivity|].
    apply IH in H as [->|H]; [left; reflexivity | right; right; exact H].
Qed.

Lemma in_sorted_unique d l : In d (sorted_unique l) -> In d l.
Proof.
  induction l as [|x t IH]; cbn; [intros []|].
  intros H. apply in_insert_date in H as [->|H]; [left; reflexivity | right; apply IH, H].
Qed.

Lemma day_records_nonempty records d :
  In d (map date records) -> day_records records d <> [].
Proof.
  intros H. apply in_map_iff in H as (x & Hx & Hin).
  assert (Hf : In x (day_records records d)).
  { apply filter_In. split; [exact Hin|]. unfold on_date. apply Z.eqb_eq, Hx. }
  intros E. rewrite E in Hf. destruct Hf.
Qed.

Lemma night_row_rhr d group :
  night_cols (night_row d group) !! "rhr"%string =
  Some (if (3 <=? length group)%nat
        then Series.quantile 0.1 (column heartRate group)
        else Series.min (column heartRate group)).
Proof.
  unfold night_row. cbn [night_cols list_to_map foldr uncurry fst snd].
  rewrite !lookup_insert_ne by discriminate. apply lookup_insert_eq.
Qed.

(** C4: the rhr of a night row is the 10th percentile of the heart rates of
    the night's sleep records when there are at least three of them and
    their minimum otherwise; the per-day rhr of the dynamic-baseline engine
    follows the same rule on every day that has sleep records; and the
    minimum is one of the recorded values, below all the others. *)
Theorem rhr_percentile_or_min (df : DataFrame) :
  (forall row, In row (calculate_night_metrics df) ->
     let group := day_records (List.filter is_sleep df) (night_date row) in
     group <> []
     /\ ((3 <= length group)%nat ->
         night_cols row !! "rhr"%string
         = Some (Series.quantile 0.1 (column heartRate group)))
     /\ ((length group < 3)%nat ->
         night_cols row !! "rhr"%string = Some (Series.min (column heartRate group))))
  /\ (forall r, In r (calculate_daily_metrics_with_dynamic_baselines df) ->
        let day_sleep := day_records (List.filter is_sleep df) (Daily.date r) in
        day_sleep <> [] ->
        ((3 <= length day_sleep)%nat ->
         Daily.rhr r = Series.quantile 0.1 (column heartRate day_sleep))
        /\ ((length day_sleep < 3)%nat ->
            Daily.rhr r = Series.min (column heartRate day_sleep)))
  /\ (forall (group : DataFrame) m,
        Series.min (column heartRate group) = Fin m ->
        In (Fin m) (column heartRate group)
        /\ forall q, In (Fin q) (column heartRate group) -> m <= q).
Proof.
  split; [|split].
  - intros row H. apply night_metrics_rows in H as (d & Hd & ->).
    cbv zeta. change (night_date (night_row d _)) with d.
    fold (day_records (List.filter is_sleep df) d).
    split; [apply day_records_nonempty, in_sorted_unique, Hd|].
    rewrite night_row_rhr. split; intros Hn.
    + rewrite (proj2 (Nat.leb_le 3 _) Hn). reflexivity.
    + rewrite (proj2 (Nat.leb_gt 3 _) Hn). reflexivity.
  - intros r H. apply dynamic_rows in H as (pre & post & _ & Hr).
    remember (Daily.date r) as d eqn:Ed. clear Ed. subst r.
    cbn [Daily.rhr daily_row]. intros Hne.
    destruct (day_records (List.filter is_sleep df) d) as [|x l] eqn:E; [contradiction|].
    cbn [empty negb andb]. split; intros Hn.
    + rewrite (proj2 (Nat.leb_le 3 _) Hn). reflexivity.
    + rewrite (proj2 (Nat.leb_gt 3 _) Hn). reflexivity.
  - intros group m. apply Series_min_exact.
Qed.

Lemma hd_In {A} (d : A) (l : list A) : l <> [] -> In (hd d l) l.
Proof. destruct l; [contradiction | left; reflexivity]. Qed.

Lemma first_daily_In df :
  calculate_daily_metrics_with_dynamic_baselines df <> [] ->
  In (first_daily df) (calculate_daily_metrics_with_dynamic_baselines df).
Proof. apply hd_In. Qed.

Lemma first_night_In df :
  calculate_night_metrics df <> [] -> In (first_night df) (calculate_night_metrics df).
Proof. apply hd_In. Qed.

(** On the row with day_number 1, baseline_hrv and baseline_rhr are that
    day's own hrv and rhr when the day has fewer than three sleep records. *)
Lemma dynamic_baseline_first_day (df : DataFrame) (r : Daily.t) :
  In r (calculate_daily_metrics_with_dynamic_baselines df) ->
  Daily.day_number r = 1%nat ->
  (length (day_records (List.filter is_sleep df) (Daily.date r)) < 3)%nat ->
  Daily.baseline_hrv r = Daily.hrv r /\ Daily.baseline_rhr r = Daily.rhr r.
Proof.
  intros H. apply dynamic_rows in H as (pre & post & _ & Hr).
  remember (Daily.date r) as d eqn:Ed. clear Ed. subst r.
  cbn [Daily.day_number daily_row]. intros Hn Hlen.
  assert (pre = []) as -> by (destruct pre; [reflexivity | cbn in Hn; lia]).
  cbn [app flat_map Daily.baseline_hrv Daily.baseline_rhr Daily.hrv Daily.rhr].
  rewrite app_nil_r. unfold daily_row.
  cbn [Daily.baseline_hrv Daily.baseline_rhr Daily.hrv Daily.rhr].
  rewrite (proj2 (Nat.leb_gt 3 _) Hlen), !andb_false_r. split; reflexivity.
Qed.

Lemma lowest_count_floor cum :
  lowest_count cum = Nat.max 1 (Z.to_nat (Qfloor (0.3 * Series.len_Q cum))).
Proof.
  rewrite lowest_count_eq. unfold Series.len_Q.
  cbn [Qfloor Qmult Qnum Qden inject_Z].
  change (Z.pos (10 * 1)) with 10%Z.
  rewrite <- (Nat2Z.id (3 * length cum / 10)).
  rewrite Nat2Z.inj_div, Nat2Z.inj_mul. reflexivity.
Qed.

Lemma nsmallest_lowest key cum :
  (3 <= length cum)%nat ->
  lowest_subset key (lowest_count cum) cum (nsmallest (lowest_count cum) key cum).
Proof.
  intros H. destruct (lowest_count_bounds cum H) as [H1 H2].
  pose proof (nsmallest_length (lowest_count cum) key cum H2) as Hl.
  split; [exact Hl|]. split; [|apply nsmallest_smallest].
  intros E. rewrite E in Hl. cbn in Hl. lia.
Qed.

Lemma insert_date_sorted x l :
  StronglySorted Z.lt l -> StronglySorted Z.lt (insert_date x l).
Proof.
  induction 1 as [|y t Ht IH Hy]; cbn.
  - constructor; constructor.
  - destruct (Z.ltb_spec x y) as [Hlt|Hge].
    + constructor; [constructor; assumption|].
      constructor; [exact Hlt|].
      eapply Forall_impl; [exact Hy|]. intros z Hz. cbn in Hz. lia.
    + destruct (Z.eqb_spec x y) as [->|Hne]; [constructor; assumption|].
      constructor; [exact IH|].
      apply List.Forall_forall. intros z Hz.
      apply in_insert_date in Hz as [->|Hz]; [lia|].
      rewrite List.Forall_forall in Hy. apply Hy, Hz.
Qed.

Lemma sorted_unique_sorted l : StronglySorted Z.lt (sorted_unique l).
Proof.
  induction l as [|x t IH]; cbn; [constructor | apply insert_date_sorted, IH].
Qed.

Lemma sorted_filter_upto pre : forall d post,
  StronglySorted Z.lt (pre ++ d :: post) ->
  List.filter (fun x => (x <=? d)%Z) (pre ++ d :: post) = pre ++ [d].
Proof.
  induction pre as [|a pre IH]; intros d post H; cbn [app] in *.
  - apply StronglySorted_inv in H as [_ Hd]. cbn [List.filter].
    rewrite Z.leb_refl. f_equal.
    rewrite List.Forall_forall in Hd.
    induction post as [|b post IHp]; [reflexivity|]. cbn [List.filter].
    destruct (Z.leb_spec b d) as [Hle|_].
    + specialize (Hd b (or_introl eq_refl)). lia.
    + apply IHp. intros z Hz. apply Hd. right. exact Hz.
  - apply StronglySorted_inv in H as [Ht Ha]. cbn [List.filter].
    rewrite List.Forall_forall in Ha.
    assert (a < d)%Z as Had by (apply Ha, in_or_app; right; left; reflexivity).
    destruct (Z.leb_spec a d) as [_|Hgt]; [|lia].
    f_equal. apply IH, Ht.
Qed.

(** C10: when the cumulative sleep frame of a row has n >= 3 records, the
    baselines of hrv and rhr are the medians of subsets of exactly
    max(1, floor(0.3 n)) records, the lowest by rmssd and by heart rate;
    the subsets are not empty. *)
Theorem dynamic_baseline_lowest_30 (df : DataFrame) (r : Daily.t) :
  In r (calculate_daily_metrics_with_dynamic_baselines df) ->
  let cumulative_sleep := cumulative_sleep_upto df (Daily.date r) in
  (3 <= length cumulative_sleep)%nat ->
  let k := Nat.max 1 (Z.to_nat (Qfloor (0.3 * Series.len_Q cumulative_sleep))) in
  exists lowest_hrv lowest_rhr : DataFrame,
    lowest_subset rmssd k cumulative_sleep lowest_hrv
    /\ Daily.baseline_hrv r = Series.median (column rmssd lowest_hrv)
    /\ lowest_subset heartRate k cumulative_sleep lowest_rhr
    /\ Daily.baseline_rhr r = Series.median (column heartRate lowest_rhr).
Proof.
  intros H. apply dynamic_rows in H as (pre & post & Hd & Hr).
  remember (Daily.date r) as d eqn:Ed. clear Ed.
  unfold cumulative_sleep_upto. rewrite Hd, sorted_filter_upto
    by (rewrite <- Hd; apply sorted_unique_sorted).
  set (cum := flat_map (day_records (List.filter is_sleep df)) (pre ++ [d])) in *.
  cbv zeta. intros Hn. rewrite <- lowest_count_floor.
  exists (nsmallest (lowest_count cum) rmssd cum),
         (nsmallest (lowest_count cum) heartRate cum).
  subst r. unfold daily_row. cbn [Daily.baseline_hrv Daily.baseline_rhr].
  assert (Hc : negb (empty cum) && (3 <=? length cum)%nat = true).
  { rewrite (proj2 (Nat.leb_le 3 _) Hn). destruct cum; [cbn in Hn; lia | reflexivity]. }
  rewrite Hc.
  split; [apply nsmallest_lowest, Hn|]. split; [reflexivity|].
  split; [apply nsmallest_lowest, Hn | reflexivity].
Qed.

(** Three sleep records on the first day: the subsets have one record. *)
Lemma three_sleep_day_lowest_subset :
  exists lowest_hrv lowest_rhr : DataFrame,
    lowest_subset rmssd 1
      (cumulative_sleep_upto three_sleep_day (Daily.date (first_daily three_sleep_day)))
      lowest_hrv
    /\ Daily.baseline_hrv (first_daily three_sleep_day)
       = Series.median (column rmssd lowest_hrv)
    /\ lowest_subset heartRate 1
         (cumulative_sleep_upto three_sleep_day (Daily.date (first_daily three_sleep_day)))
         lowest_rhr
    /\ Daily.baseline_rhr (first_daily three_sleep_day)
       = Series.median (column heartRate lowest_rhr).
Proof.
  apply (dynamic_baseline_lowest_30 three_sleep_day (first_daily three_sleep_day)).
  - apply first_daily_In. vm_compute. discriminate.
  - vm_compute. lia.
Defined.

(** ** The static baseline and the sleep stages *)

(** C8: the static baseline is the empty mapping when the window holds no
    sleep record; otherwise its hr entry is the mean heart rate of all the
    records of the window, and the hrv, rhr, sdnn, breathing_rate and
    lf_hf_ratio entries are computed on the sleep records of the window. *)
Theorem static_baseline_window (df : DataFrame) (days : Z) :
  let baseline_df := baseline_window df days in
  let sleep_sessions := List.filter is_sleep baseline_df in
  (sleep_sessions = [] -> calculate_baselines df days = ∅)
  /\ (sleep_sessions <> [] ->
      let baselines := calculate_baselines df days in
      baselines !! "hr"%string = Some (Series.mean (column heartRate baseline_df))
      /\ baselines !! "hrv"%string = Some (Series.median (column rmssd sleep_sessions))
      /\ baselines !! "rhr"%string
         = Some (Series.quantile 0.1 (column heartRate sleep_sessions))
      /\ baselines !! "sdnn"%string = Some (Series.median (column sdnn sleep_sessions))
      /\ baselines !! "breathing_rate"%string
         = Some (Series.median (column breathingRate sleep_sessions))
      /\ baselines !! "lf_hf_ratio"%string
         = Some (Series.median (column lfHfRatio sleep_sessions))).
Proof.
  cbv zeta. unfold calculate_baselines.
  destruct df as [|x df']; [split; [reflexivity | intros H; contradiction H; reflexivity]|].
  set (df := x :: df').
  destruct (List.filter is_sleep (baseline_window df days)) as [|s l] eqn:E.
  - split; [reflexivity | intros H; contradiction H; reflexivity].
  - split; [discriminate|]. intros _.
    repeat split;
      repeat (first [ apply lookup_insert_eq | rewrite lookup_insert_ne by discriminate ]).
Qed.

Lemma stage_count_total (l : list (HrvRecord * SleepStage)) :
  (stage_count Deep l + stage_count REM l + stage_count Light l
   + stage_count Unknown l)%nat = length l.
Proof.
  unfold stage_count. induction l as [|[r st] t IH]; [reflexivity|].
  cbn [List.filter snd length]. destruct st; cbn [SleepStage_eqb length]; lia.
Qed.

Lemma fold_Qmin_le l : forall a, fold_left Qmin' l a <= a.
Proof.
  induction l as [|b t IH]; intros a; cbn; [lra|].
  specialize (IH (Qmin' a b)). unfold Qmin' in *. destruct (Qlt_le_dec b a); lra.
Qed.

Lemma fold_Qmax_ge l : forall a, a <= fold_left Qmax' l a.
Proof.
  induction l as [|b t IH]; intros a; cbn; [lra|].
  specialize (IH (Qmax' a b)). unfold Qmax' in *. destruct (Qlt_le_dec a b); lra.
Qed.

Lemma span_minutes_nonneg df : 0 <= span_minutes df.
Proof.
  unfold span_minutes, timestamp_max, timestamp_min.
  destruct (map timestamp df) as [|t ts].
  - vm_compute. discriminate.
  - pose proof (fold_Qmin_le ts t). pose proof (fold_Qmax_ge ts t).
    rewrite Qdiv_const. lra.
Qed.

Lemma round1_Q_nonneg q : 0 <= q -> 0 <= Float.round1_Q q.
Proof.
  intros H. apply (Qle_trans _ (Float.round1_Q 0)); [vm_compute; discriminate|].
  apply round1_Q_mono, H.
Qed.

Lemma detect_sleep_stages_records df : map fst (detect_sleep_stages df) = df.
Proof.
  unfold detect_sleep_stages. rewrite map_map. cbn [fst]. apply map_id.
Qed.

Lemma detect_sleep_stages_length df : length (detect_sleep_stages df) = length df.
Proof. unfold detect_sleep_stages. apply length_map. Qed.


(** ** Examples on the sample data *)


(** C2: the code on a first day with three sleep records.  The row has
    day_number 1, baseline_hrv is 10 where hrv is 30, and baseline_rhr is 50
    where rhr is 52: the baselines of day 1 are not the day's own values,
    against the comment [# On first day, baseline = current value] and the
    page's own text on day 1 baselines. *)
Theorem three_sleep_day_baseline_differs :
  let r := first_daily three_sleep_day in
  In r (calculate_daily_metrics_with_dynamic_baselines three_sleep_day)
  /\ Daily.day_number r = 1%nat
  /\ ~ (Daily.baseline_hrv r =f= Daily.hrv r)
  /\ ~ (Daily.baseline_rhr r =f= Daily.rhr r).
Proof.
  cbv zeta. split; [apply first_daily_In; vm_compute; discriminate|].
  repeat split; vm_compute; discriminate.
Qed.


(** A first day with two sleep records. *)
Lemma two_sleep_day_baseline_is_own_value :
  Daily.baseline_hrv (first_daily two_sleep_day) = Daily.hrv (first_daily two_sleep_day)
  /\ Daily.baseline_rhr (first_daily two_sleep_day) = Daily.rhr (first_daily two_sleep_day).
Proof.
  apply (dynamic_baseline_first_day two_sleep_day (first_daily two_sleep_day)).
  - apply first_daily_In. vm_compute. discriminate.
  - reflexivity.
  - vm_compute. lia.
Defined.

(** The percentile on the day with three sleep records, the minimum on the
    day with two. *)
Lemma sample_days_rhr :
  night_cols (first_night three_sleep_day) !! "rhr"%string
  = Some (Series.quantile 0.1
            (column heartRate
               (day_records (List.filter is_sleep three_sleep_day)
                  (night_date (first_night three_sleep_day)))))
  /\ Daily.rhr (first_daily two_sleep_day)
     = Series.min
         (column heartRate
            (day_records (List.filter is_sleep two_sleep_day)
               (Daily.date (first_daily two_sleep_day)))).
Proof.
  split.
  - apply (proj1 (rhr_percentile_or_min three_sleep_day) (first_night three_sleep_day)).
    + apply first_night_In. vm_compute. discriminate.
    + vm_compute. lia.
  - apply (proj1 (proj2 (rhr_percentile_or_min two_sleep_day)) (first_daily two_sleep_day)).
    + apply first_daily_In. vm_compute. discriminate.
    + vm_compute. discriminate.
    + vm_compute. lia.
Defined.

(** The scores of the sample night against its own static baseline. *)
Lemma sample_night_scores_bounded :
  let r := hd (first_night three_sleep_day)
              (calculate_recovery_score (calculate_night_metrics three_sleep_day)
                 (calculate_baselines three_sleep_day 14)) in
  in_range 0 100 (night_cols r !! "sleep_quality"%string)
  /\ in_range 0 100 (night_cols r !! "recovery_score"%string).
Proof.
  cbv zeta.
  apply (scores_in_range (calculate_night_metrics three_sleep_day)
           (calculate_baselines three_sleep_day 14)).
  - intros E. apply (f_equal (fun m : gmap string float => m !! "hr"%string)) in E.
    vm_compute in E. discriminate.
  - apply hd_In. vm_compute. discriminate.
Defined.

(** The hr baseline of the sample day counts its record awake. *)
Lemma sample_hr_baseline_all_records :
  calculate_baselines three_sleep_day 14 !! "hr"%string
  = Some (Series.mean (column heartRate (baseline_window three_sleep_day 14))).
Proof.
  apply (proj2 (static_baseline_window three_sleep_day 14)).
  vm_compute. discriminate.
Defined.

(** Without baselines the sample night has no recovery_score. *)
Lemma sample_night_unscored :
  night_cols (hd (first_night three_sleep_day)
                (calculate_recovery_score (calculate_night_metrics three_sleep_day) ∅))
  !! "recovery_score"%string = None.
Proof.
  apply (proj2 (recovery_score_without_baselines []) three_sleep_day).
  apply hd_In. vm_compute. discriminate.
Defined.

(** * Further properties of the code *)

(** *** The loop of the dynamic-baseline engine *)

Lemma daily_loop_prefix sleep ns dates : forall cs cns acc,
  exists rows,
    daily_loop sleep ns dates cs cns acc = acc ++ rows
    /\ map Daily.date rows = dates
    /\ map Daily.day_number rows = seq (length acc + 1) (length dates).
Proof.
  induction dates as [|d rest IH]; intros cs cns acc; cbn [daily_loop].
  - exists []. rewrite app_nil_r. repeat split.
  - match goal with |- context [daily_loop _ _ rest ?c ?n (acc ++ [?row])] =>
      destruct (IH c n (acc ++ [row])) as (rows & -> & Hd & Hn); exists (row :: rows)
    end.
    rewrite <- app_assoc. split; [reflexivity|].
    cbn [map length seq]. rewrite Hd, Hn, length_app. cbn [length].
    split; [reflexivity|]. do 2 f_equal. lia.
Qed.

Lemma in_insert_date_rev d x l : d = x \/ In d l -> In d (insert_date x l).
Proof.
  induction l as [|y t IH]; cbn.
  - intros [->|[]]. left; reflexivity.
  - destruct (Z.ltb_spec x y).
    + intros [->|H']; [left; reflexivity | right; exact H'].
    + destruct (Z.eqb_spec x y) as [->|Hne].
      * intros [->|H']; [left; reflexivity | exact H'].
      * intros [->|[->|H']];
          [right; apply IH; left; reflexivity | left; reflexivity
          | right; apply IH; right; exact H'].
Qed.

Lemma in_sorted_unique_iff d l : In d (sorted_unique l) <-> In d l.
Proof.
  split; [apply in_sorted_unique|].
  induction l as [|x t IH]; cbn; [intros []|].
  intros [->|H]; apply in_insert_date_rev; [left; reflexivity | right; apply IH, H].
Qed.

Lemma dynamic_engine_rows df :
  List.filter is_sleep df <> [] ->
  exists rows,
    calculate_daily_metrics_with_dynamic_baselines df = rows
    /\ map Daily.date rows = sorted_unique (map date df)
    /\ map Daily.day_number rows = seq 1 (length (sorted_unique (map date df))).
Proof.
  intros Hs. unfold calculate_daily_metrics_with_dynamic_baselines.
  destruct df as [|x df']; [contradiction Hs; reflexivity|]. set (df := x :: df') in *.
  destruct (List.filter is_sleep df) as [|s l] eqn:E; [contradiction Hs; reflexivity|].
  rewrite <- E.
  destruct (daily_loop_prefix (List.filter is_sleep df)
              (List.filter (fun r => negb (is_sleep r)) df)
              (sorted_unique (map date df)) [] [] []) as (rows & Hr & Hd & Hn).
  exists rows. cbn [app] in Hr. repeat split; assumption.
Qed.

(** X14: without a sleep record the dynamic-baseline table is empty; otherwise it
    has exactly one row for every date of the input, awake-only dates
    included, in strictly ascending order of date, and day_number counts
    the rows 1, 2, 3, ... *)
Theorem dynamic_rows_one_per_date (df : DataFrame) :
  (List.filter is_sleep df = [] ->
   calculate_daily_metrics_with_dynamic_baselines df = [])
  /\ (List.filter is_sleep df <> [] ->
      let rows := calculate_daily_metrics_with_dynamic_baselines df in
      map Daily.date rows = sorted_unique (map date df)
      /\ StronglySorted Z.lt (map Daily.date rows)
      /\ (forall d, In d (map Daily.date rows) <-> In d (map date df))
      /\ map Daily.day_number rows = seq 1 (length rows)).
Proof.
  split.
  - intros E. unfold calculate_daily_metrics_with_dynamic_baselines.
    destruct df; [reflexivity|]. rewrite E. reflexivity.
  - intros Hs. cbv zeta.
    destruct (dynamic_engine_rows df Hs) as (rows & -> & Hd & Hn).
    split; [exact Hd|]. rewrite Hd.
    split; [apply sorted_unique_sorted|].
    split; [intros d; apply in_sorted_unique_iff|].
    rewrite Hn. f_equal. rewrite <- Hd. apply length_map.
Qed.

Lemma dynamic_engine_unfold df :
  List.filter is_sleep df <> [] ->
  calculate_daily_metrics_with_dynamic_baselines df
  = daily_loop (List.filter is_sleep df) (List.filter (fun r => negb (is_sleep r)) df)
      (sorted_unique (map date df)) [] [] [].
Proof.
  intros Hs. unfold calculate_daily_metrics_with_dynamic_baselines.
  destruct df as [|x df']; [contradiction Hs; reflexivity|].
  destruct (List.filter is_sleep (x :: df')) as [|s l] eqn:E;
    [contradiction Hs; reflexivity | reflexivity].
Qed.

Lemma insert_date_app x s1 s2 :
  (forall b, In b s2 -> (x < b)%Z) ->
  insert_date x (s1 ++ s2) = insert_date x s1 ++ s2.
Proof.
  intros H. induction s1 as [|y t IH]; cbn.
  - destruct s2 as [|b t]; [reflexivity|]. cbn.
    rewrite (proj2 (Z.ltb_lt x b)); [reflexivity | apply H; left; reflexivity].
  - destruct (x <? y)%Z; [reflexivity|].
    destruct (x =? y)%Z; [reflexivity|]. rewrite IH. reflexivity.
Qed.

Lemma sorted_unique_app l1 l2 :
  (forall a b, In a l1 -> In b l2 -> (a < b)%Z) ->
  sorted_unique (l1 ++ l2) = sorted_unique l1 ++ sorted_unique l2.
Proof.
  intros H. induction l1 as [|x t IH]; [reflexivity|].
  cbn [app sorted_unique fold_right].
  change (fold_right insert_date [] (t ++ l2)) with (sorted_unique (t ++ l2)).
  change (fold_right insert_date [] t) with (sorted_unique t).
  rewrite IH by (intros a b Ha Hb; apply H; [right; exact Ha | exact Hb]).
  apply insert_date_app. intros b Hb. apply in_sorted_unique in Hb.
  apply H; [left; reflexivity | exact Hb].
Qed.

Lemma daily_loop_app sleep ns d1 d2 : forall cs cns acc,
  daily_loop sleep ns (d1 ++ d2) cs cns acc
  = daily_loop sleep ns d2
      (cs ++ flat_map (day_records sleep) d1) (cns ++ flat_map (day_records ns) d1)
      (daily_loop sleep ns d1 cs cns acc).
Proof.
  induction d1 as [|d rest IH]; intros cs cns acc; cbn [app daily_loop flat_map].
  - rewrite !app_nil_r. reflexivity.
  - rewrite IH. unfold day_records. rewrite <- !app_assoc. reflexivity.
Qed.

Lemma daily_loop_ext sleep ns sleep' ns' dates : forall cs cns acc,
  (forall d, In d dates ->
     day_records sleep' d = day_records sleep d /\ day_records ns' d = day_records ns d) ->
  daily_loop sleep' ns' dates cs cns acc = daily_loop sleep ns dates cs cns acc.
Proof.
  induction dates as [|d rest IH]; intros cs cns acc H; cbn [daily_loop]; [reflexivity|].
  destruct (H d (or_introl eq_refl)) as [Hs Hn]. unfold day_records in Hs, Hn.
  rewrite Hs, Hn. apply IH. intros d' Hd'. apply H. right. exact Hd'.
Qed.

Lemma day_records_later (f : HrvRecord -> bool) df later d :
  (forall r, In r later -> date r <> d) ->
  day_records (List.filter f (df ++ later)) d = day_records (List.filter f df) d.
Proof.
  intros H. unfold day_records. rewrite !List.filter_app.
  assert (E : List.filter (on_date d) (List.filter f later) = []).
  { induction later as [|r t IH]; [reflexivity|]. cbn [List.filter].
    assert (Ht : List.filter (on_date d) (List.filter f t) = [])
      by (apply IH; intros r' Hr'; apply H; right; exact Hr').
    destruct (f r); [|exact Ht]. cbn [List.filter]. unfold on_date at 1.
    destruct (Z.eqb_spec (date r) d) as [Ed|_]; [|exact Ht].
    exfalso. apply (H r); [left; reflexivity | exact Ed]. }
  rewrite E. apply app_nil_r.
Qed.

Lemma dynamic_engine_no_sleep df :
  List.filter is_sleep df = [] -> calculate_daily_metrics_with_dynamic_baselines df = [].
Proof.
  intros E. unfold calculate_daily_metrics_with_dynamic_baselines.
  destruct df; [reflexivity|]. rewrite E. reflexivity.
Qed.

(** X15: the rows of the dynamic-baseline table do not depend on later days:
    appending records whose dates are all later than every date of the
    input leaves the existing rows as they are.  When the input already had
    a sleep record, the rows added are one for each new date; when it had
    none, its table was empty and every row of the new table is added. *)
Theorem dynamic_rows_no_lookahead (df later : DataFrame) :
  (forall r r', In r df -> In r' later -> (date r < date r')%Z) ->
  exists rest,
    calculate_daily_metrics_with_dynamic_baselines (df ++ later)
    = calculate_daily_metrics_with_dynamic_baselines df ++ rest
    /\ (List.filter is_sleep df <> [] ->
        map Daily.date rest = sorted_unique (map date later))
    /\ (List.filter is_sleep df = [] ->
        rest = calculate_daily_metrics_with_dynamic_baselines (df ++ later)).
Proof.
  intros Hlt.
  destruct (List.filter is_sleep df) as [|s0 l0] eqn:Es.
  { exists (calculate_daily_metrics_with_dynamic_baselines (df ++ later)).
    rewrite (dynamic_engine_no_sleep df Es).
    split; [reflexivity|]. split; [intros F; contradiction F; reflexivity | reflexivity]. }
  assert (Hs : List.filter is_sleep df <> []) by (rewrite Es; discriminate).
  clear Es.
  assert (Hs' : List.filter is_sleep (df ++ later) <> []).
  { rewrite List.filter_app. intros E. apply app_eq_nil in E as [E _]. contradiction. }
  rewrite (dynamic_engine_unfold _ Hs), (dynamic_engine_unfold _ Hs').
  rewrite map_app, sorted_unique_app.
  2:{ intros a b Ha Hb. apply in_map_iff in Ha as (r & <- & Hr).
      apply in_map_iff in Hb as (r' & <- & Hr'). apply Hlt; assumption. }
  rewrite daily_loop_app.
  rewrite (daily_loop_ext (List.filter is_sleep df)
             (List.filter (fun r => negb (is_sleep r)) df)
             (List.filter is_sleep (df ++ later))
             (List.filter (fun r => negb (is_sleep r)) (df ++ later))
             (sorted_unique (map date df))).
  2:{ intros d Hd. apply in_sorted_unique, in_map_iff in Hd as (r & <- & Hr).
      split; apply day_records_later; intros r' Hr' E;
        specialize (Hlt r r' Hr Hr'); lia. }
  match goal with |- context [daily_loop ?s ?n ?ds ?c ?cn ?acc = _] =>
    destruct (daily_loop_prefix s n ds c cn acc) as (rows & -> & Hd & _) end.
  exists rows. split; [reflexivity|]. split; [intros _; exact Hd|].
  intros F. discriminate F.
Qed.

Lemma stress_index_nan_or_bounded (hr brhr hrv bhrv : float) :
  calculate_stress_index hr brhr hrv bhrv = NaN
  \/ exists s, calculate_stress_index hr brhr hrv bhrv = Fin s /\ 0 <= s /\ s <= 3.
Proof.
  destruct hr as [|a], brhr as [|b], hrv as [|c], bhrv as [|d];
    try (left; reflexivity).
  destruct (Qeq_dec b 0) as [Eb|Nb].
  { left. unfold calculate_stress_index, Float.eqb. cbn [Float.isna orb].
    rewrite (proj2 (Qeq_bool_iff b 0) Eb). reflexivity. }
  destruct (Qeq_dec d 0) as [Ed|Nd].
  { left. unfold calculate_stress_index, Float.eqb. cbn [Float.isna orb].
    rewrite (proj2 (Qeq_bool_iff d 0) Ed), orb_true_r. reflexivity. }
  right. rewrite stress_index_finite by assumption.
  eexists; split; [reflexivity | apply stress_index_spec_range].
Qed.

(** X16: the stress_index of every row of the dynamic-baseline table is either
    missing or a value between 0 and 3; it is missing on a date that has
    no record awake, and on a date that has no sleep record. *)
Theorem dynamic_rows_stress_index (df : DataFrame) (r : Daily.t) :
  In r (calculate_daily_metrics_with_dynamic_baselines df) ->
  (Daily.stress_index r = NaN
   \/ exists s, Daily.stress_index r = Fin s /\ 0 <= s /\ s <= 3)
  /\ (day_records (List.filter (fun x => negb (is_sleep x)) df) (Daily.date r) = [] ->
      Daily.stress_index r = NaN)
  /\ (day_records (List.filter is_sleep df) (Daily.date r) = [] ->
      Daily.stress_index r = NaN).
Proof.
  intros H. apply dynamic_rows in H as (pre & post & _ & Hr).
  remember (Daily.date r) as d eqn:Ed. clear Ed. subst r.
  unfold daily_row. cbn [Daily.stress_index]. split; [apply stress_index_nan_or_bounded|].
  split; intros E; rewrite E; cbn [empty negb andb].
  - reflexivity.
  - unfold calculate_stress_index.
    destruct (if negb (empty _) then _ else NaN); cbn [Float.isna orb];
      try reflexivity.
    match goal with |- context [Float.isna ?x] => destruct x end;
      cbn [Float.isna orb]; reflexivity.
Qed.

(** *** Groups by date *)

Lemma filter_split_perm {A} (p : A -> bool) (l : list A) :
  Permutation (List.filter p l ++ List.filter (fun x => negb (p x)) l) l.
Proof.
  induction l as [|x t IH]; [reflexivity|]. cbn [List.filter].
  destruct (p x); cbn [negb app].
  - constructor. exact IH.
  - rewrite <- Permutation_middle. constructor. exact IH.
Qed.

Lemma day_records_other S d d' :
  d' <> d ->
  day_records (List.filter (fun x => negb (on_date d x)) S) d' = day_records S d'.
Proof.
  intros Hne. unfold day_records. induction S as [|x t IH]; [reflexivity|].
  cbn [List.filter].
  destruct (on_date d x) eqn:E1; cbn [negb List.filter];
    destruct (on_date d' x) eqn:E2; rewrite ?IH; try reflexivity.
  unfold on_date in E1, E2. apply Z.eqb_eq in E1, E2. congruence.
Qed.

Lemma flat_map_ext_in {A B} (f g : A -> list B) l :
  (forall x, In x l -> f x = g x) -> flat_map f l = flat_map g l.
Proof.
  induction l as [|x t IH]; intros H; [reflexivity|]. cbn.
  rewrite (H x (or_introl eq_refl)), IH; [reflexivity|].
  intros y Hy. apply H. right. exact Hy.
Qed.

Lemma flat_map_day_records_perm ds : forall S,
  List.NoDup ds -> (forall x, In x S -> In (date x) ds) ->
  Permutation (flat_map (day_records S) ds) S.
Proof.
  induction ds as [|d t IH]; intros S Hnd Hin.
  - destruct S as [|x S']; [reflexivity|]. destruct (Hin x (or_introl eq_refl)).
  - apply List.NoDup_cons_iff in Hnd as [Hd Hnd]. cbn [flat_map].
    rewrite <- (filter_split_perm (on_date d) S) at 3.
    apply Permutation_app; [reflexivity|].
    rewrite (flat_map_ext_in (day_records S)
               (day_records (List.filter (fun x => negb (on_date d x)) S))).
    + apply IH; [exact Hnd|]. intros x Hx. apply filter_In in Hx as [Hx Hp].
      destruct (Hin x Hx) as [E|H']; [|exact H'].
      unfold on_date in Hp. rewrite E, Z.eqb_refl in Hp. discriminate.
    + intros d' Hd'. symmetry. apply day_records_other. intros ->. contradiction.
Qed.

Lemma flat_map_after_map {A B C} (f : A -> B) (g : B -> list C) l :
  flat_map g (map f l) = flat_map (fun x => g (f x)) l.
Proof. induction l as [|x t IH]; [reflexivity|]. cbn. rewrite IH. reflexivity. Qed.

Lemma sorted_lt_NoDup l : StronglySorted Z.lt l -> List.NoDup l.
Proof.
  induction 1 as [|a t Ht IH Ha]; constructor; [|exact IH].
  intros Hin. rewrite List.Forall_forall in Ha. specialize (Ha a Hin). lia.
Qed.

Lemma night_rows_dates df :
  map night_date (calculate_night_metrics df)
  = sorted_unique (map date (List.filter is_sleep df)).
Proof.
  unfold calculate_night_metrics.
  destruct (List.filter is_sleep df) as [|x l] eqn:E; [reflexivity|].
  rewrite map_map. cbn [night_date night_row]. apply map_id.
Qed.

Lemma night_row_columns d group :
  night_cols (night_row d group) !! "record_count"%string = Some (Fin (Series.len_Q group))
  /\ night_cols (night_row d group) !! "duration_minutes"%string
     = Some (Fin (span_minutes group)).
Proof.
  unfold night_row. cbn [night_cols list_to_map foldr uncurry fst snd].
  split; repeat (first [ apply lookup_insert_eq | rewrite lookup_insert_ne by discriminate ]).
Qed.

(** X1: the night table groups the sleep records by date: its dates are strictly
    ascending and are exactly the dates of the sleep records, the groups
    together hold every sleep record once, and each row is built from a
    group that is not empty, with record_count the size of the group and a
    duration_minutes that is not negative. *)
Theorem night_rows_partition (df : DataFrame) :
  let sleep_df := List.filter is_sleep df in
  let rows := calculate_night_metrics df in
  StronglySorted Z.lt (map night_date rows)
  /\ (forall d, In d (map night_date rows) <-> In d (map date sleep_df))
  /\ Permutation (flat_map (fun row => day_records sleep_df (night_date row)) rows) sleep_df
  /\ forall row, In row rows ->
       day_records sleep_df (night_date row) <> []
       /\ night_cols row !! "record_count"%string
          = Some (Fin (Series.len_Q (day_records sleep_df (night_date row))))
       /\ exists q, night_cols row !! "duration_minutes"%string = Some (Fin q) /\ 0 <= q.
Proof.
  cbv zeta. pose proof (night_rows_dates df) as Hd.
  split; [rewrite Hd; apply sorted_unique_sorted|].
  split; [intros d; rewrite Hd; apply in_sorted_unique_iff|].
  split.
  - rewrite <- (flat_map_after_map night_date (day_records (List.filter is_sleep df))), Hd.
    apply flat_map_day_records_perm.
    + apply sorted_lt_NoDup, sorted_unique_sorted.
    + intros x Hx. apply in_sorted_unique_iff, in_map, Hx.
  - intros row H. apply night_metrics_rows in H as (d & Hin & ->).
    change (night_date (night_row d _)) with d.
    fold (day_records (List.filter is_sleep df) d).
    destruct (night_row_columns d (day_records (List.filter is_sleep df) d)) as [Hc Hm].
    split; [apply day_records_nonempty, in_sorted_unique, Hin|].
    split; [exact Hc|]. eexists. split; [exact Hm | apply span_minutes_nonneg].
Qed.

(** *** Reductions stay within the recorded values *)

Lemma Qleb_total a b : Qleb a b = false -> Qleb b a = true.
Proof. unfold Qleb. case_Qdec; try congruence. exfalso; lra. Qed.

Lemma Qleb_trans a b c : Qleb a b = true -> Qleb b c = true -> Qleb a c = true.
Proof. unfold Qleb. case_Qdec; try congruence. exfalso; lra. Qed.

Lemma sort_values_sorted v :
  StronglySorted (fun a b => Qleb a b = true) (Series.sort_values v).
Proof. apply isort_sorted; [apply Qleb_total | apply Qleb_trans]. Qed.

Lemma sort_values_In q v : In q (Series.sort_values v) <-> In q v.
Proof.
  split; apply Permutation_in; [|symmetry]; apply isort_perm.
Qed.

Lemma sort_values_length v : length (Series.sort_values v) = length v.
Proof. apply isort_length. Qed.

Lemma sorted_nth_le (v : list Q) (d : Q) :
  StronglySorted (fun a b => Qleb a b = true) v ->
  forall i j, (i < j)%nat -> (j < length v)%nat -> nth i v d <= nth j v d.
Proof.
  induction 1 as [|a t Ht IH Ha]; intros i j Hij Hj; [cbn in Hj; lia|].
  destruct j as [|j]; [lia|]. cbn [length] in Hj. destruct i as [|i]; cbn [nth].
  - rewrite List.Forall_forall in Ha. apply Qleb_true, Ha, nth_In. lia.
  - apply IH; lia.
Qed.

Lemma in_sorted_dropna s q :
  In q (Series.sort_values (Series.dropna s)) -> In (Fin q) s.
Proof. intros H. apply in_dropna, sort_values_In, H. Qed.

Lemma interpolation_between (a b frac : Q) :
  a <= b -> 0 <= frac -> frac <= 1 ->
  a <= a + (b - a) * frac /\ a + (b - a) * frac <= b.
Proof.
  intros Hab F0 F1.
  assert (H0 : 0 <= (b - a) * frac) by (apply Qmult_le_0_compat; lra).
  assert (H1 : (b - a) * frac <= (b - a) * 1).
  { rewrite !(Qmult_comm (b - a)). apply Qmult_le_compat_r; lra. }
  split; lra.
Qed.

Lemma quantile_between (p : Q) (s : list float) (x : Q) :
  0 <= p -> p <= 1 -> Series.quantile p s = Fin x -> between_recorded s x.
Proof.
  intros Hp0 Hp1. unfold Series.quantile.
  pose proof (sort_values_sorted (Series.dropna s)) as Hs.
  pose proof (in_sorted_dropna s) as Hin.
  set (v := Series.sort_values (Series.dropna s)) in *.
  destruct v as [|x0 t] eqn:Ev; [discriminate|]. rewrite <- Ev in *.
  intros [= <-].
  set (n := length v).
  assert (Hn : (1 <= n)%nat) by (unfold n; rewrite Ev; cbn; lia).
  set (pos := p * (Series.len_Q v - 1)).
  assert (Hlen : Series.len_Q v == inject_Z (Z.of_nat n)) by reflexivity.
  assert (Hn1 : 1 <= inject_Z (Z.of_nat n)).
  { change 1 with (inject_Z 1). rewrite <- Zle_Qle. lia. }
  assert (Hpos0 : 0 <= pos).
  { unfold pos. apply Qmult_le_0_compat; [exact Hp0 | rewrite Hlen; lra]. }
  assert (Hpos1 : pos <= inject_Z (Z.of_nat n - 1)).
  { unfold pos. rewrite Hlen. unfold Z.sub. rewrite inject_Z_plus.
    change (inject_Z (- (1))) with (-(1)).
    set (m := inject_Z (Z.of_nat n)) in *.
    apply (Qle_trans _ (1 * (m + - (1)))); [|lra].
    apply Qmult_le_compat_r; [exact Hp1 | lra]. }
  destruct (floor_bounds pos) as [Hf1 Hf2].
  assert (Hfl0 : (0 <= Qfloor pos)%Z).
  { rewrite <- (Qfloor_Z 0). apply Qfloor_resp_le, Hpos0. }
  assert (Hfl1 : (Qfloor pos <= Z.of_nat n - 1)%Z).
  { rewrite <- (Qfloor_Z (Z.of_nat n - 1)). apply Qfloor_resp_le, Hpos1. }
  set (lo := Z.to_nat (Qfloor pos)).
  assert (Hlo : (lo < n)%nat) by (unfold lo; lia).
  set (frac := pos - inject_Z (Qfloor pos)).
  assert (Hfrac : 0 <= frac /\ frac <= 1) by (unfold frac; split; lra).
  set (a := nth lo v x0).
  assert (Ha : In (Fin a) s) by (apply Hin, nth_In; exact Hlo).
  destruct (Nat.lt_ge_cases (S lo) n) as [Hlt|Hge].
  - set (b := nth (S lo) v a).
    assert (Eb : b = nth (S lo) v x0) by (apply nth_indep; exact Hlt).
    assert (Hb : In (Fin b) s) by (rewrite Eb; apply Hin, nth_In; exact Hlt).
    assert (Hab : a <= b).
    { rewrite Eb. apply sorted_nth_le; [exact Hs | lia | exact Hlt]. }
    exists a, b. split; [exact Ha|]. split; [exact Hb|].
    destruct Hfrac as [F0 F1]. exact (interpolation_between a b frac Hab F0 F1).
  - assert (Eb : nth (S lo) v a = a) by (apply nth_overflow; exact Hge).
    exists a, a. split; [exact Ha|]. split; [exact Ha|].
    destruct Hfrac as [F0 F1].
    assert (Hab : a <= nth (S lo) v a) by (rewrite Eb; apply Qle_refl).
    destruct (interpolation_between a (nth (S lo) v a) frac Hab F0 F1) as [I1 I2].
    split; [exact I1|].
    apply (Qle_trans _ (nth (S lo) v a)); [exact I2 | rewrite Eb; apply Qle_refl].
Qed.

Lemma midpoint_between (a b : Q) : a <= b -> a <= (a + b) / 2 /\ (a + b) / 2 <= b.
Proof. intros H. rewrite Qdiv_const. split; lra. Qed.

Lemma median_between (s : list float) (x : Q) :
  Series.median s = Fin x -> between_recorded s x.
Proof.
  unfold Series.median.
  pose proof (sort_values_sorted (Series.dropna s)) as Hs.
  pose proof (in_sorted_dropna s) as Hin.
  set (v := Series.sort_values (Series.dropna s)) in *.
  destruct v as [|x0 t] eqn:Ev; [discriminate|]. rewrite <- Ev in *.
  set (n := length v).
  assert (Hn : (1 <= n)%nat) by (unfold n; rewrite Ev; cbn; lia).
  destruct (Nat.even n) eqn:En; intros [= <-].
  - assert (H2 : (2 <= n)%nat) by (destruct n as [|[|k]]; [lia | discriminate | lia]).
    assert (Hh : (n / 2 < n)%nat) by (apply Nat.div_lt; lia).
    assert (Hh1 : (1 <= n / 2)%nat) by (apply Nat.div_le_lower_bound; lia).
    set (a := nth (n / 2 - 1) v x0). set (b := nth (n / 2) v x0).
    assert (Hab : a <= b) by (apply sorted_nth_le; [exact Hs | lia | exact Hh]).
    exists a, b. split; [apply Hin, nth_In; lia|]. split; [apply Hin, nth_In; exact Hh|].
    exact (midpoint_between a b Hab).
  - assert (Hh : (n / 2 < n)%nat) by (apply Nat.div_lt; lia).
    exists (nth (n / 2) v x0), (nth (n / 2) v x0).
    split; [apply Hin, nth_In; exact Hh|]. split; [apply Hin, nth_In; exact Hh|].
    split; apply Qle_refl.
Qed.

Lemma list_max_exists (v : list Q) :
  v <> [] -> exists M, In M v /\ forall q, In q v -> q <= M.
Proof.
  induction v as [|a t IH]; [intros H; contradiction H; reflexivity|]. intros _.
  destruct t as [|b t'].
  - exists a. split; [left; reflexivity|]. intros q [<-|[]]. apply Qle_refl.
  - destruct IH as (M & HM & Hall); [discriminate|].
    destruct (Qlt_le_dec M a) as [Hlt|Hge].
    + exists a. split; [left; reflexivity|].
      intros q [<-|Hq]; [apply Qle_refl|]. specialize (Hall q Hq). lra.
    + exists M. split; [right; exact HM|].
      intros q [<-|Hq]; [exact Hge | apply Hall, Hq].
Qed.

Lemma list_min_exists (v : list Q) :
  v <> [] -> exists m, In m v /\ forall q, In q v -> m <= q.
Proof.
  destruct v as [|a t]; [intros H; contradiction H; reflexivity|]. intros _.
  destruct (min_Q_spec t a) as (Hin & Hle & Hall).
  exists (Series.min_Q a t). split; [exact Hin|].
  intros q [<-|Hq]; [exact Hle | apply Hall, Hq].
Qed.

Lemma sum_Q_bounds (v : list Q) (m M : Q) :
  (forall q, In q v -> m <= q) -> (forall q, In q v -> q <= M) ->
  Series.len_Q v * m <= Series.sum_Q v /\ Series.sum_Q v <= Series.len_Q v * M.
Proof.
  intros Hm HM. induction v as [|a t IH].
  - change (Series.len_Q (@nil Q)) with 0. change (Series.sum_Q []) with 0. split; lra.
  - destruct IH as [I1 I2];
      [intros q Hq; apply Hm; right; exact Hq
      | intros q Hq; apply HM; right; exact Hq |].
    pose proof (Hm a (or_introl eq_refl)). pose proof (HM a (or_introl eq_refl)).
    assert (E : Series.len_Q (a :: t) == Series.len_Q t + 1).
    { unfold Series.len_Q. cbn [length]. rewrite Nat2Z.inj_succ, <- Z.add_1_r.
      rewrite inject_Z_plus. reflexivity. }
    cbn [Series.sum_Q fold_right]. fold (Series.sum_Q t). rewrite E. split; lra.
Qed.

Lemma mean_between (s : list float) (x : Q) :
  Series.mean s = Fin x -> between_recorded s x.
Proof.
  unfold Series.mean. destruct (Series.dropna s) as [|a t] eqn:E; [discriminate|].
  rewrite <- E. intros H.
  assert (Hne : Series.dropna s <> []) by (rewrite E; discriminate).
  destruct (list_min_exists _ Hne) as (m & Hm & Hmin).
  destruct (list_max_exists _ Hne) as (M & HM & Hmax).
  destruct (sum_Q_bounds _ m M Hmin Hmax) as [B1 B2].
  assert (Hn : 0 < Series.len_Q (Series.dropna s)).
  { unfold Series.len_Q. rewrite E. change 0 with (inject_Z 0). rewrite <- Zlt_Qlt.
    cbn [length]. lia. }
  exists m, M. split; [apply in_dropna, Hm|]. split; [apply in_dropna, HM|].
  injection H as <-. split.
  - apply Qle_shift_div_l; [exact Hn | rewrite Qmult_comm; exact B1].
  - apply Qle_shift_div_r; [exact Hn | rewrite Qmult_comm; exact B2].
Qed.

Lemma min_between (s : list float) (x : Q) :
  Series.min s = Fin x -> between_recorded s x.
Proof.
  intros H. apply Series_min_exact in H as [Hin _].
  exists x, x. repeat split; try exact Hin; apply Qle_refl.
Qed.

Lemma between_recorded_incl (s s' : list float) (x : Q) :
  (forall v, In v s -> In v s') -> between_recorded s x -> between_recorded s' x.
Proof.
  intros Hi (a & b & Ha & Hb & H). exists a, b. split; [apply Hi, Ha|].
  split; [apply Hi, Hb | exact H].
Qed.

Lemma quantile_nan_iff p s : Series.quantile p s = NaN <-> Series.dropna s = [].
Proof.
  unfold Series.quantile.
  pose proof (sort_values_length (Series.dropna s)) as Hl.
  destruct (Series.sort_values (Series.dropna s)) as [|x0 t];
    destruct (Series.dropna s); cbn in Hl; try discriminate; split; congruence.
Qed.

Lemma min_nan_iff s : Series.min s = NaN <-> Series.dropna s = [].
Proof. unfold Series.min. destruct (Series.dropna s); split; congruence. Qed.

(** *** The night table *)

(** X2: the rhr of a night is missing exactly when the night has no defined
    heart rate; otherwise it lies between two heart rates recorded in that
    night. *)
Theorem night_rhr_within_recorded (df : DataFrame) (row : NightRow) :
  In row (calculate_night_metrics df) ->
  let heart_rates :=
    column heartRate (day_records (List.filter is_sleep df) (night_date row)) in
  exists rhr,
    night_cols row !! "rhr"%string = Some rhr
    /\ (rhr = NaN <-> Series.dropna heart_rates = [])
    /\ forall x, rhr = Fin x -> between_recorded heart_rates x.
Proof.
  intros H. apply night_metrics_rows in H as (d & _ & ->). cbv zeta.
  change (night_date (night_row d _)) with d.
  fold (day_records (List.filter is_sleep df) d).
  set (group := day_records (List.filter is_sleep df) d).
  eexists. split; [apply night_row_rhr|].
  destruct (3 <=? length group)%nat.
  - split; [apply quantile_nan_iff|]. intros x. apply quantile_between; lra.
  - split; [apply min_nan_iff|]. intros x. apply min_between.
Qed.

(** *** The static baseline *)

Lemma fold_max_ge l : forall a, (a <= fold_left Z.max l a)%Z.
Proof.
  induction l as [|b t IH]; intros a; cbn; [lia|].
  specialize (IH (Z.max a b)). lia.
Qed.

Lemma fold_max_all l : forall a d, In d l -> (d <= fold_left Z.max l a)%Z.
Proof.
  induction l as [|b t IH]; intros a d []; cbn.
  - subst b. pose proof (fold_max_ge t (Z.max a d)). lia.
  - apply IH. assumption.
Qed.

Lemma fold_max_In l : forall a, In (fold_left Z.max l a) (a :: l).
Proof.
  induction l as [|b t IH]; intros a; cbn; [left; reflexivity|].
  destruct (IH (Z.max a b)) as [E|H]; [|right; right; exact H].
  rewrite <- E. destruct (Z.max_spec a b) as [[_ Em]|[_ Em]]; rewrite Em.
  - right. left. reflexivity.
  - left. reflexivity.
Qed.

Lemma latest_date_max df r : In r df -> (date r <= latest_date df)%Z.
Proof.
  intros H. unfold latest_date. apply (in_map date) in H.
  destruct (map date df) as [|d ds]; [destruct H|].
  destruct H as [<-|H]; [apply fold_max_ge | apply fold_max_all, H].
Qed.

Lemma latest_date_In df : df <> [] -> In (latest_date df) (map date df).
Proof.
  intros H. unfold latest_date. destruct df as [|x t]; [contradiction H; reflexivity|].
  cbn [map]. apply fold_max_In.
Qed.

Lemma window_sleep_empty_iff df days :
  List.filter is_sleep (baseline_window df days) = []
  <-> forall r, In r df -> is_sleep r = true -> (date r < latest_date df - days)%Z.
Proof.
  unfold baseline_window. split.
  - intros E r Hr Hs. destruct (Z.lt_ge_cases (date r) (latest_date df - days)) as [|Hge];
      [assumption|].
    assert (Hin : In r (List.filter is_sleep
                          (List.filter (fun r => (latest_date df - days <=? date r)%Z) df))).
    { apply filter_In. split; [|exact Hs]. apply filter_In. split; [exact Hr|].
      apply Z.leb_le, Hge. }
    rewrite E in Hin. destruct Hin.
  - intros H.
    destruct (List.filter is_sleep _) as [|r l] eqn:E; [reflexivity|].
    assert (Hin : In r (r :: l)) by (left; reflexivity). rewrite <- E in Hin.
    apply filter_In in Hin as [Hin Hs]. apply filter_In in Hin as [Hin Hd].
    apply Z.leb_le in Hd. specialize (H r Hin Hs). lia.
Qed.

Lemma baselines_entries df days :
  List.filter is_sleep (baseline_window df days) <> [] ->
  calculate_baselines df days
  = <["lf_hf_ratio"%string :=
        Series.median (column lfHfRatio (List.filter is_sleep (baseline_window df days)))]>
    (<["hr"%string := Series.mean (column heartRate (baseline_window df days))]>
    (<["breathing_rate"%string :=
        Series.median (column breathingRate (List.filter is_sleep (baseline_window df days)))]>
    (<["sdnn"%string :=
        Series.median (column sdnn (List.filter is_sleep (baseline_window df days)))]>
    (<["rhr"%string :=
        Series.quantile 0.1 (column heartRate (List.filter is_sleep (baseline_window df days)))]>
    (<["hrv"%string :=
        Series.median (column rmssd (List.filter is_sleep (baseline_window df days)))]>
     ∅))))).
Proof.
  intros H. unfold calculate_baselines.
  destruct df as [|x df']; [contradiction H; reflexivity|].
  destruct (List.filter is_sleep (baseline_window (x :: df') days)) as [|s l] eqn:E;
    [contradiction H; reflexivity | reflexivity].
Qed.

Lemma baselines_empty df days :
  List.filter is_sleep (baseline_window df days) = [] -> calculate_baselines df days = ∅.
Proof.
  intros H. unfold calculate_baselines. destruct df; [reflexivity|]. rewrite H. reflexivity.
Qed.

(** X3: the static baseline is the empty mapping exactly when every sleep record
    is dated before the cutoff (the latest date minus [days]); otherwise
    its keys are hrv, rhr, sdnn, breathing_rate, hr and lf_hf_ratio.  The
    latest date is the greatest date of the frame and is one of its
    dates. *)
Theorem static_baseline_keys (df : DataFrame) (days : Z) :
  (calculate_baselines df days = ∅
   <-> forall r, In r df -> is_sleep r = true -> (date r < latest_date df - days)%Z)
  /\ (calculate_baselines df days <> ∅ ->
      dom (calculate_baselines df days)
      = list_to_set ["hrv"; "rhr"; "sdnn"; "breathing_rate"; "hr"; "lf_hf_ratio"]%string)
  /\ (forall r, In r df -> (date r <= latest_date df)%Z)
  /\ (df <> [] -> In (latest_date df) (map date df)).
Proof.
  split; [|split; [|split; [apply latest_date_max | apply latest_date_In]]].
  - rewrite <- window_sleep_empty_iff. split; [|apply baselines_empty].
    intros E. destruct (List.filter is_sleep (baseline_window df days)) as [|s l] eqn:Es;
      [reflexivity|].
    rewrite baselines_entries in E by (rewrite Es; discriminate).
    apply (f_equal (fun m : gmap string float => m !! "lf_hf_ratio"%string)) in E.
    rewrite lookup_insert_eq, lookup_empty in E. discriminate.
  - intros Hne.
    destruct (List.filter is_sleep (baseline_window df days)) as [|s l] eqn:Es.
    + contradiction Hne. apply baselines_empty, Es.
    + rewrite baselines_entries by (rewrite Es; discriminate).
      rewrite !dom_insert_L, dom_empty_L. cbn [list_to_set]. set_solver.
Qed.

(** X4: every defined hrv, rhr, sdnn, breathing_rate and lf_hf_ratio value of
    the static baseline (a median or a percentile) lies between two values
    recorded by the sleep records of the window. *)
Theorem static_baselines_within_recorded (df : DataFrame) (days : Z) (x : Q) :
  let sleep_sessions := List.filter is_sleep (baseline_window df days) in
  let baselines := calculate_baselines df days in
  (baselines !! "hrv"%string = Some (Fin x) ->
   between_recorded (column rmssd sleep_sessions) x)
  /\ (baselines !! "rhr"%string = Some (Fin x) ->
      between_recorded (column heartRate sleep_sessions) x)
  /\ (baselines !! "sdnn"%string = Some (Fin x) ->
      between_recorded (column sdnn sleep_sessions) x)
  /\ (baselines !! "breathing_rate"%string = Some (Fin x) ->
      between_recorded (column breathingRate sleep_sessions) x)
  /\ (baselines !! "lf_hf_ratio"%string = Some (Fin x) ->
      between_recorded (column lfHfRatio sleep_sessions) x).
Proof.
  cbv zeta.
  destruct (List.filter is_sleep (baseline_window df days)) as [|s l] eqn:Es.
  - rewrite (baselines_empty _ _ Es). repeat split; rewrite lookup_empty; discriminate.
  - rewrite baselines_entries by (rewrite Es; discriminate). rewrite Es.
    repeat split;
      repeat (first [ rewrite lookup_insert_eq | rewrite lookup_insert_ne by discriminate ]);
      intros [= H];
      first [ apply median_between, H
            | apply (quantile_between 0.1); [lra | lra | exact H] ].
Qed.

(** *** The expanding window *)

Lemma column_incl (f : HrvRecord -> float) (A B : DataFrame) :
  (forall y, In y A -> In y B) -> forall v, In v (column f A) -> In v (column f B).
Proof.
  intros H v Hv. unfold column in *. apply in_map_iff in Hv as (y & <- & Hy).
  apply in_map, H, Hy.
Qed.

Lemma in_cumulative (records : DataFrame) (pre post : list Z) (d : Z) (y : HrvRecord) :
  StronglySorted Z.lt (pre ++ d :: post) ->
  In y (flat_map (day_records records) (pre ++ [d])) ->
  In y (List.filter (fun z => (date z <=? d)%Z) records).
Proof.
  intros Hs H. apply in_flat_map in H as (d' & Hd' & Hy).
  apply filter_In in Hy as [Hy Hdate]. unfold on_date in Hdate. apply Z.eqb_eq in Hdate.
  apply filter_In. split; [exact Hy|].
  rewrite <- (sorted_filter_upto pre d post Hs) in Hd'.
  apply filter_In in Hd' as [_ Hle]. rewrite Hdate. exact Hle.
Qed.

Lemma in_day_records_upto (records : DataFrame) (d : Z) (y : HrvRecord) :
  In y (day_records records d) -> In y (List.filter (fun z => (date z <=? d)%Z) records).
Proof.
  intros H. apply filter_In in H as [Hy Hd]. unfold on_date in Hd. apply Z.eqb_eq in Hd.
  apply filter_In. split; [exact Hy | apply Z.leb_le; lia].
Qed.

Lemma in_nsmallest n key df y : In y (nsmallest n key df) -> In y df.
Proof.
  unfold nsmallest. intros H.
  apply (Permutation_in y (isort_perm (key_leb key) df)).
  rewrite <- (firstn_skipn n (isort (key_leb key) df)). apply in_or_app. left. exact H.
Qed.

(** X17: every defined baseline of a row of the dynamic-baseline table lies
    between two values recorded on or before the date of the row: the hrv,
    rhr and breathing-rate baselines among the sleep records, the hr
    baseline among the records awake. *)
Theorem dynamic_baselines_from_history (df : DataFrame) (r : Daily.t) (x : Q) :
  In r (calculate_daily_metrics_with_dynamic_baselines df) ->
  let upto (records : DataFrame) :=
    List.filter (fun y => (date y <=? Daily.date r)%Z) records in
  let past_sleep := upto (List.filter is_sleep df) in
  let past_awake := upto (List.filter (fun y => negb (is_sleep y)) df) in
  (Daily.baseline_hrv r = Fin x -> between_recorded (column rmssd past_sleep) x)
  /\ (Daily.baseline_rhr r = Fin x -> between_recorded (column heartRate past_sleep) x)
  /\ (Daily.baseline_hr r = Fin x -> between_recorded (column heartRate past_awake) x)
  /\ (Daily.baseline_breathing_rate r = Fin x ->
      between_recorded (column breathingRate past_sleep) x).
Proof.
  intros H. apply dynamic_rows in H as (pre & post & Hd & Hr).
  remember (Daily.date r) as d eqn:Ed. clear Ed. cbv zeta.
  assert (Hs : StronglySorted Z.lt (pre ++ d :: post))
    by (rewrite <- Hd; apply sorted_unique_sorted).
  set (S := List.filter is_sleep df) in *.
  set (N := List.filter (fun y => negb (is_sleep y)) df) in *.
  pose proof (fun y => in_cumulative S pre post d y Hs) as HcS.
  pose proof (fun y => in_cumulative N pre post d y Hs) as HcN.
  pose proof (in_day_records_upto S d) as HdS.
  pose proof (in_day_records_upto N d) as HdN.
  set (cumS := flat_map (day_records S) (pre ++ [d])) in *.
  set (cumN := flat_map (day_records N) (pre ++ [d])) in *.
  subst r. unfold daily_row.
  cbn [Daily.baseline_hrv Daily.baseline_rhr Daily.baseline_hr
       Daily.baseline_breathing_rate].
  repeat split.
  - destruct (negb (empty cumS) && (3 <=? length cumS)%nat).
    + intros E. apply median_between in E.
      eapply between_recorded_incl; [|exact E].
      apply column_incl. intros y Hy. apply HcS, (in_nsmallest _ _ _ _ Hy).
    + destruct (negb (empty (day_records S d))); [|discriminate].
      intros E. apply mean_between in E.
      eapply between_recorded_incl; [|exact E]. apply column_incl, HdS.
  - destruct (negb (empty cumS) && (3 <=? length cumS)%nat).
    + intros E. apply median_between in E.
      eapply between_recorded_incl; [|exact E].
      apply column_incl. intros y Hy. apply HcS, (in_nsmallest _ _ _ _ Hy).
    + destruct (negb (empty (day_records S d))); cbn [andb]; [|discriminate].
      destruct (3 <=? length (day_records S d))%nat; intros E.
      * apply (quantile_between 0.1) in E; [|lra|lra].
        eapply between_recorded_incl; [|exact E]. apply column_incl, HdS.
      * apply min_between in E.
        eapply between_recorded_incl; [|exact E]. apply column_incl, HdS.
  - destruct (negb (empty cumN)).
    + intros E. apply median_between in E.
      eapply between_recorded_incl; [|exact E]. apply column_incl, HcN.
    + destruct (negb (empty (day_records N d))); [|discriminate].
      intros E. apply mean_between in E.
      eapply between_recorded_incl; [|exact E]. apply column_incl, HdN.
  - destruct (negb (empty cumS)).
    + intros E. apply median_between in E.
      eapply between_recorded_incl; [|exact E]. apply column_incl, HcS.
    + destruct (negb (empty (day_records S d))); [|discriminate].
      intros E. apply mean_between in E.
      eapply between_recorded_incl; [|exact E]. apply column_incl, HdS.
Qed.

(** *** Night scores in the analytics page *)

Lemma recovery_score_scored (night_data : list NightRow) (baselines : gmap string float) :
  baselines <> ∅ ->
  calculate_recovery_score night_data baselines = map (score_row baselines) night_data.
Proof.
  intros Hb. unfold calculate_recovery_score. destruct night_data; [reflexivity|].
  destruct (Nat.eqb_spec (size baselines) 0) as [E|_]; [|reflexivity].
  apply map_size_empty_iff in E. contradiction.
Qed.

Lemma baselines_nonempty df days :
  List.filter is_sleep (baseline_window df days) <> [] -> calculate_baselines df days <> ∅.
Proof.
  intros H E. rewrite baselines_entries in E by exact H.
  apply (f_equal (fun m : gmap string float => m !! "lf_hf_ratio"%string)) in E.
  rewrite lookup_insert_eq, lookup_empty in E. discriminate.
Qed.

(** X8: in the analytics page the nights are scored against the static baseline
    of the same frame.  If a sleep record lies within the window, every
    night gets a sleep_quality and a recovery_score between 0 and 100; if
    none does, the night table is returned as it is, with neither
    column. *)
Theorem night_scores_need_recent_sleep (df : DataFrame) (days : Z) :
  let night_data :=
    calculate_recovery_score (calculate_night_metrics df) (calculate_baselines df days) in
  ((exists r, In r df /\ is_sleep r = true /\ (latest_date df - days <= date r)%Z) ->
   forall row, In row night_data ->
     in_range 0 100 (night_cols row !! "sleep_quality"%string)
     /\ in_range 0 100 (night_cols row !! "recovery_score"%string))
  /\ ((forall r, In r df -> is_sleep r = true -> (date r < latest_date df - days)%Z) ->
      night_data = calculate_night_metrics df
      /\ forall row, In row night_data ->
           night_cols row !! "sleep_quality"%string = None
           /\ night_cols row !! "recovery_score"%string = None).
Proof.
  cbv zeta. split.
  - intros (r & Hr & Hs & Hd) row Hrow.
    assert (Hne : List.filter is_sleep (baseline_window df days) <> []).
    { intros E. rewrite window_sleep_empty_iff in E. specialize (E r Hr Hs). lia. }
    rewrite recovery_score_scored in Hrow by (apply baselines_nonempty, Hne).
    apply in_map_iff in Hrow as (r' & <- & _). apply score_row_range.
  - intros H. apply window_sleep_empty_iff in H. rewrite (baselines_empty _ _ H).
    assert (E : forall nd, calculate_recovery_score nd ∅ = nd)
      by (intros nd; destruct nd; reflexivity).
    rewrite E. split; [reflexivity|]. intros row Hrow.
    apply night_metrics_rows in Hrow as (d & _ & ->). apply night_row_no_scores.
Qed.

(** *** Colour labels *)

Lemma last_item_returns colors :
  colors <> [] -> exists c, last_item colors = Returns c /\ In c colors.
Proof.
  intros H. unfold last_item. destruct (rev colors) as [|c t] eqn:E.
  - apply (f_equal (@rev string)) in E. rewrite rev_involutive in E. contradiction.
  - exists c. split; [reflexivity|]. apply in_rev. rewrite E. left. reflexivity.
Qed.

Lemma color_label_from_returns value thresholds colors : forall i,
  colors <> [] ->
  (i + length thresholds <= 3)%nat -> (i + length thresholds <= length colors)%nat ->
  exists c l,
    color_label_from i value thresholds colors = Returns (c, l)
    /\ In c colors /\ In l ["Low"; "Moderate"; "High"]%string.
Proof.
  induction thresholds as [|t rest IH]; intros i Hc H3 Hl; cbn [color_label_from].
  - destruct (last_item_returns colors Hc) as (c & -> & Hin).
    exists c, "High"%string. split; [reflexivity|]. split; [exact Hin|].
    right; right; left; reflexivity.
  - cbn [length] in H3, Hl. destruct (value <? t)%float.
    + unfold color_and_label.
      destruct (nth_error colors i) as [c|] eqn:Ec;
        [|apply nth_error_None in Ec; lia].
      destruct (nth_error ["Low"; "Moderate"; "High"]%string i) as [l|] eqn:El;
        [|apply nth_error_None in El; cbn in El; lia].
      exists c, l. split; [reflexivity|].
      split; [eapply nth_error_In, Ec | eapply nth_error_In, El].
    + apply IH; [exact Hc | lia | lia].
Qed.

(** X11: with at most three thresholds, at least as many colours as thresholds
    and at least one colour, [generate_color_label] raises no exception:
    it returns one of the given colours with one of the labels Unknown,
    Low, Moderate and High, and the label is Unknown exactly when the
    value is None or missing. *)
Theorem color_label_never_raises (value : option float) (thresholds : list float)
    (colors : list string) :
  colors <> [] ->
  (length thresholds <= 3)%nat -> (length thresholds <= length colors)%nat ->
  exists c l,
    generate_color_label value thresholds colors = Returns (c, l)
    /\ In c colors
    /\ In l ["Unknown"; "Low"; "Moderate"; "High"]%string
    /\ (l = "Unknown"%string <-> value = None \/ value = Some NaN).
Proof.
  intros Hc H3 Hl. unfold generate_color_label.
  destruct value as [[|v]|].
  - destruct (last_item_returns colors Hc) as (c & -> & Hin).
    exists c, "Unknown"%string. repeat split; auto. left; reflexivity.
  - destruct (color_label_from_returns (Fin v) thresholds colors 0 Hc H3 Hl)
      as (c & l & -> & Hin & Hl').
    exists c, l. split; [reflexivity|]. split; [exact Hin|]. split; [right; exact Hl'|].
    split.
    + intros ->. destruct Hl' as [E|[E|[E|[]]]]; discriminate.
    + intros [E|E]; discriminate.
  - destruct (last_item_returns colors Hc) as (c & -> & Hin).
    exists c, "Unknown"%string. repeat split; auto. left; reflexivity.
Qed.

(** *** The daily report *)

Lemma sort_by_date_descending_head night_data h t :
  sort_by_date_descending night_data = h :: t ->
  In h night_data /\ forall r, In r night_data -> (night_date r <= night_date h)%Z.
Proof.
  intros E. unfold sort_by_date_descending in E.
  set (leb := fun a b : NightRow => (night_date b <=? night_date a)%Z) in *.
  assert (Hs : StronglySorted (fun a b => leb a b = true) (isort leb night_data)).
  { apply isort_sorted; unfold leb.
    - intros x y H. apply Z.leb_gt in H. apply Z.leb_le. lia.
    - intros x y z H1 H2. apply Z.leb_le in H1, H2. apply Z.leb_le. lia. }
  pose proof (isort_perm leb night_data) as Hp. rewrite E in Hs, Hp.
  split; [apply (Permutation_in h Hp); left; reflexivity|].
  intros r Hr. apply (Permutation_in r (Permutation_sym Hp)) in Hr.
  destruct Hr as [<-|Hr]; [lia|].
  apply StronglySorted_inv in Hs as [_ Hall]. rewrite List.Forall_forall in Hall.
  specialize (Hall r Hr). unfold leb in Hall. apply Z.leb_le in Hall. exact Hall.
Qed.

Lemma night_row_report_columns d group :
  exists mean_hr rmssd_ rhr breathing_rate,
    night_cols (night_row d group) !! "mean_hr"%string = Some mean_hr
    /\ night_cols (night_row d group) !! "rmssd"%string = Some rmssd_
    /\ night_cols (night_row d group) !! "rhr"%string = Some rhr
    /\ night_cols (night_row d group) !! "breathing_rate"%string = Some breathing_rate
    /\ night_cols (night_row d group) !! "duration_minutes"%string
       = Some (Fin (span_minutes group)).
Proof.
  unfold night_row. cbn [night_cols list_to_map foldr uncurry fst snd].
  do 4 eexists.
  repeat split;
    repeat (first [ apply lookup_insert_eq | rewrite lookup_insert_ne by discriminate ]).
Qed.

Lemma score_row_keeps baselines r k :
  k <> "recovery_score"%string -> k <> "sleep_quality"%string ->
  night_cols (score_row baselines r) !! k = night_cols r !! k.
Proof.
  intros H1 H2. unfold score_row. cbn [night_cols].
  rewrite !lookup_insert_ne by congruence. reflexivity.
Qed.

Lemma round1_not_nan x : Float.isna (Float.round1 (or_zero x)) = false.
Proof. destruct x; reflexivity. Qed.

Lemma py_int_nonneg q : 0 <= q -> (0 <= py_int q)%Z.
Proof.
  intros H. unfold py_int. apply Z.quot_pos; [|lia].
  destruct q as [n dq]. unfold Qle in H. cbn in *. lia.
Qed.

Lemma present_or_zero_in_range lo hi row k :
  lo <= 0 -> 0 <= hi ->
  (row !! k = None \/ in_range lo hi (row !! k)) ->
  exists y, present_or_zero row k = Fin y /\ lo <= y /\ y <= hi.
Proof.
  intros Hlo Hhi [E|(y & E & Hy)]; unfold present_or_zero; rewrite E.
  - exists 0. auto.
  - exists y. auto.
Qed.

Lemma round1_in_range (y : Q) :
  0 <= y -> y <= 100 -> 0 <= Float.round1_Q y /\ Float.round1_Q y <= 100.
Proof.
  intros H0 H1. split.
  - apply round1_Q_nonneg, H0.
  - apply (Qle_trans _ (Float.round1_Q 100)); [apply round1_Q_mono, H1|].
    vm_compute. discriminate.
Qed.

(** The rows the report can be built from: the night table, scored or not. *)
Lemma scored_rows night_data baselines r :
  In r (calculate_recovery_score night_data baselines) ->
  In r night_data \/ exists r0, In r0 night_data /\ r = score_row baselines r0.
Proof.
  unfold calculate_recovery_score. destruct night_data as [|r1 nd]; [intros []|].
  destruct (size baselines =? 0)%nat; [left; assumption|].
  intros H. apply in_map_iff in H as (r0 & <- & H0). right. eauto.
Qed.

Lemma recovery_score_unscored night_data :
  calculate_recovery_score night_data ∅ = night_data.
Proof. destruct night_data; reflexivity. Qed.

(** X10: for a frame with a sleep record, the daily report built from its night
    table (scored or not) is returned without an exception and describes
    the latest night; its displayed values are never missing, its
    recovery_score and sleep_quality lie between 0 and 100 (and are 0
    without baselines), and its sleep_duration is not negative. *)
Theorem daily_report_of_latest_night (df : DataFrame) (baselines : gmap string float) :
  List.filter is_sleep df <> [] ->
  let night_data := calculate_recovery_score (calculate_night_metrics df) baselines in
  exists report,
    create_daily_report night_data baselines = Returns (Some report)
    /\ In (Report.date report) (map date (List.filter is_sleep df))
    /\ (forall r, In r df -> is_sleep r = true -> (date r <= Report.date report)%Z)
    /\ Float.isna (Report.hr_value report) = false
    /\ Float.isna (Report.hrv_rmssd report) = false
    /\ Float.isna (Report.rhr_value report) = false
    /\ Float.isna (Report.breathing_rate_value report) = false
    /\ (exists y, Report.recovery_score report = Fin y /\ 0 <= y /\ y <= 100)
    /\ (exists y, Report.sleep_quality report = Fin y /\ 0 <= y /\ y <= 100)
    /\ (baselines = ∅ ->
        Report.recovery_score report =f= Fin 0 /\ Report.sleep_quality report =f= Fin 0)
    /\ (0 <= Report.sleep_duration report)%Z.
Proof.
  intros Hs. cbv zeta.
  set (night_data := calculate_recovery_score (calculate_night_metrics df) baselines).
  assert (Hdates : forall r, In r night_data ->
            exists d, night_date r = d
              /\ In d (map date (List.filter is_sleep df))
              /\ (r = night_row d (day_records (List.filter is_sleep df) d)
                  \/ r = score_row baselines
                           (night_row d (day_records (List.filter is_sleep df) d)))).
  { intros r Hr. apply scored_rows in Hr as [Hr|(r0 & Hr & ->)];
      apply night_metrics_rows in Hr as (d & Hd & ->); exists d;
      (split; [reflexivity|]); (split; [apply in_sorted_unique, Hd|]); auto. }
  assert (Hlen : map night_date night_data = map night_date (calculate_night_metrics df)).
  { unfold night_data, calculate_recovery_score.
    destruct (calculate_night_metrics df) as [|r1 nd]; [reflexivity|].
    destruct (size baselines =? 0)%nat; [reflexivity|].
    rewrite map_map. reflexivity. }
  unfold create_daily_report.
  destruct (sort_by_date_descending night_data) as [|h t] eqn:Esort.
  { exfalso. pose proof (isort_length (fun a b : NightRow => (night_date b <=? night_date a)%Z)
                           night_data) as Hl.
    unfold sort_by_date_descending in Esort. rewrite Esort in Hl. cbn in Hl.
    apply (f_equal (@length Z)) in Hlen. rewrite !length_map in Hlen.
    rewrite <- Hl in Hlen. symmetry in Hlen. apply length_zero_iff_nil in Hlen.
    pose proof (night_rows_dates df) as Hd. rewrite Hlen in Hd. cbn in Hd.
    destruct (List.filter is_sleep df) as [|x l]; [contradiction Hs; reflexivity|].
    assert (Hin : In (date x) (sorted_unique (map date (x :: l))))
      by (apply in_sorted_unique_iff; left; reflexivity).
    rewrite <- Hd in Hin. destruct Hin. }
  destruct (sort_by_date_descending_head _ _ _ Esort) as [Hh Hmax].
  destruct (Hdates h Hh) as (d & Ed & Hd & Hrow).
  set (group := day_records (List.filter is_sleep df) d) in *.
  destruct (night_row_report_columns d group) as (mh & rm & rh & br & L1 & L2 & L3 & L4 & L5).
  assert (Hcols : night_cols h !! "mean_hr"%string = Some mh
                  /\ night_cols h !! "rmssd"%string = Some rm
                  /\ night_cols h !! "rhr"%string = Some rh
                  /\ night_cols h !! "breathing_rate"%string = Some br
                  /\ night_cols h !! "duration_minutes"%string
                     = Some (Fin (span_minutes group))).
  { destruct Hrow as [->| ->]; [repeat split; assumption|].
    rewrite !score_row_keeps by discriminate. repeat split; assumption. }
  destruct Hcols as (C1 & C2 & C3 & C4 & C5).
  assert (Hscores : forall k, k = "recovery_score"%string \/ k = "sleep_quality"%string ->
            (night_cols h !! k = None \/ in_range 0 100 (night_cols h !! k))
            /\ (baselines = ∅ -> night_cols h !! k = None)).
  { intros k Hk. destruct Hrow as [->| ->].
    - destruct (night_row_no_scores d group) as [N1 N2].
      destruct Hk as [->| ->]; (split; [left|intros _]); assumption.
    - destruct (score_row_range baselines (night_row d group)) as [R1 R2]. split.
      + right. destruct Hk as [->| ->]; assumption.
      + intros ->. exfalso.
        unfold night_data in Hh. rewrite recovery_score_unscored in Hh.
        apply night_metrics_rows in Hh as (d' & _ & Hh).
        apply (f_equal (fun r => night_cols r !! "recovery_score"%string)) in Hh.
        rewrite (proj2 (night_row_no_scores _ _)) in Hh.
        destruct R2 as (y & Ey & _). rewrite Ey in Hh. discriminate. }
  unfold build_report. rewrite C1, C2, C3, C4, C5.
  eexists. split; [reflexivity|].
  cbn [Report.date Report.hr_value Report.hrv_rmssd Report.rhr_value
       Report.breathing_rate_value Report.recovery_score Report.sleep_quality
       Report.sleep_duration].
  rewrite Ed. split; [exact Hd|].
  split.
  { intros r Hr Hsl.
    assert (Hin : In (date r) (map night_date night_data)).
    { rewrite Hlen, night_rows_dates. apply in_sorted_unique_iff, in_map, filter_In. auto. }
    apply in_map_iff in Hin as (r' & <- & Hr'). rewrite <- Ed. apply Hmax, Hr'. }
  split; [apply round1_not_nan|]. split; [apply round1_not_nan|].
  split; [apply round1_not_nan|]. split; [apply round1_not_nan|].
  destruct (Hscores "recovery_score"%string (or_introl eq_refl)) as [Hr1 Hr2].
  destruct (Hscores "sleep_quality"%string (or_intror eq_refl)) as [Hq1 Hq2].
  destruct (present_or_zero_in_range 0 100 _ _ (Qle_refl 0) ltac:(discriminate) Hr1)
    as (y1 & Ey1 & Hy1a & Hy1b).
  destruct (present_or_zero_in_range 0 100 _ _ (Qle_refl 0) ltac:(discriminate) Hq1)
    as (y2 & Ey2 & Hy2a & Hy2b).
  split; [rewrite Ey1; eexists; split; [reflexivity | apply round1_in_range; assumption]|].
  split; [rewrite Ey2; eexists; split; [reflexivity | apply round1_in_range; assumption]|].
  split.
  { intros Hb. unfold present_or_zero. rewrite (Hr2 Hb), (Hq2 Hb).
    split; vm_compute; reflexivity. }
  apply py_int_nonneg, span_minutes_nonneg.
Qed.

(** *** Stage minutes, percentages and weekly hours *)

Lemma share_bounds (T : Q) (a n : nat) :
  0 <= T -> (0 < n)%nat -> (a <= n)%nat ->
  0 <= T * (inject_Z (Z.of_nat a) / inject_Z (Z.of_nat n))
  /\ T * (inject_Z (Z.of_nat a) / inject_Z (Z.of_nat n)) <= T.
Proof.
  intros HT Hn Ha.
  assert (Hn' : 0 < inject_Z (Z.of_nat n)).
  { change 0 with (inject_Z 0). rewrite <- Zlt_Qlt. lia. }
  assert (Ha0 : 0 <= inject_Z (Z.of_nat a)).
  { change 0 with (inject_Z 0). rewrite <- Zle_Qle. lia. }
  assert (Han : inject_Z (Z.of_nat a) <= inject_Z (Z.of_nat n)).
  { rewrite <- Zle_Qle. lia. }
  set (qa := inject_Z (Z.of_nat a)) in *. set (qn := inject_Z (Z.of_nat n)) in *.
  assert (F0 : 0 <= qa / qn) by (apply Qle_shift_div_l; [exact Hn' | lra]).
  assert (F1 : qa / qn <= 1) by (apply Qle_shift_div_r; [exact Hn' | lra]).
  set (f := qa / qn) in *. split.
  - apply Qmult_le_0_compat; assumption.
  - apply (Qle_trans _ (1 * T)); [|lra].
    rewrite (Qmult_comm T f). apply Qmult_le_compat_r; assumption.
Qed.

Lemma stage_count_le (s : SleepStage) (l : list (HrvRecord * SleepStage)) :
  (stage_count s l <= length l)%nat.
Proof. pose proof (stage_count_total l). destruct s; lia. Qed.

Lemma round1_Q_fixed (q : Q) : Float.round1_Q (Float.round1_Q q) == Float.round1_Q q.
Proof. unfold Float.round1_Q at 2 3. apply round1_Q_tenths. Qed.

Lemma stage_minutes_unfold (sleep_records : DataFrame) :
  sleep_records <> [] ->
  let staged := detect_sleep_stages sleep_records in
  let T := Float.round1_Q (span_minutes sleep_records) in
  let share (st : SleepStage) :=
    T * (inject_Z (Z.of_nat (stage_count st staged)) / inject_Z (Z.of_nat (length staged))) in
  stage_minutes sleep_records
  = {| Stages.total_minutes := T;
       Stages.deep_minutes := Float.round1_Q (share Deep);
       Stages.rem_minutes := Float.round1_Q (share REM);
       Stages.light_minutes := Float.round1_Q (share Light) |}
  /\ (0 < length staged)%nat /\ 0 <= T.
Proof.
  intros Hne. cbv zeta. unfold stage_minutes.
  rewrite detect_sleep_stages_records, stage_count_total.
  assert (Hpos : (0 < length (detect_sleep_stages sleep_records))%nat).
  { rewrite detect_sleep_stages_length.
    destruct sleep_records; [contradiction | cbn; lia]. }
  rewrite (proj2 (Nat.ltb_lt 0 _) Hpos).
  split; [reflexivity|]. split; [exact Hpos|].
  apply round1_Q_nonneg, span_minutes_nonneg.
Qed.

Lemma rounded_share_bounds (T x : Q) :
  0 <= x -> x <= Float.round1_Q T ->
  0 <= Float.round1_Q x /\ Float.round1_Q x <= Float.round1_Q T.
Proof.
  intros H0 H1. split; [apply round1_Q_nonneg, H0|].
  rewrite <- (round1_Q_fixed T). apply round1_Q_mono, H1.
Qed.

Lemma stage_pct_range (m T : Q) : 0 <= m -> m <= T -> 0 <= stage_pct m T /\ stage_pct m T <= 100.
Proof.
  intros H0 H1. unfold stage_pct. destruct (Qlt_le_dec 0 T) as [HT|HT].
  - assert (F0 : 0 <= m / T) by (apply Qle_shift_div_l; [exact HT | lra]).
    assert (F1 : m / T <= 1) by (apply Qle_shift_div_r; [exact HT | lra]).
    set (f := m / T) in *. apply round1_in_range; lra.
  - split; [vm_compute | vm_compute]; discriminate.
Qed.

(** X12: for a night with at least one sleep record, each of the reported Deep,
    REM and Light minutes lies between 0 and the total night minutes, and
    each of the reported percentages lies between 0 and 100. *)
Theorem stage_minutes_and_percentages (sleep_records : DataFrame) :
  sleep_records <> [] ->
  let s := stage_minutes sleep_records in
  let p := stage_percentages sleep_records in
  (0 <= Stages.deep_minutes s /\ Stages.deep_minutes s <= Stages.total_minutes s)
  /\ (0 <= Stages.rem_minutes s /\ Stages.rem_minutes s <= Stages.total_minutes s)
  /\ (0 <= Stages.light_minutes s /\ Stages.light_minutes s <= Stages.total_minutes s)
  /\ (0 <= StagePct.deep_pct p /\ StagePct.deep_pct p <= 100)
  /\ (0 <= StagePct.rem_pct p /\ StagePct.rem_pct p <= 100)
  /\ (0 <= StagePct.light_pct p /\ StagePct.light_pct p <= 100).
Proof.
  intros Hne. cbv zeta. unfold stage_percentages.
  destruct (stage_minutes_unfold sleep_records Hne) as (-> & Hpos & HT).
  cbn [Stages.total_minutes Stages.deep_minutes Stages.rem_minutes Stages.light_minutes
       StagePct.deep_pct StagePct.rem_pct StagePct.light_pct].
  set (staged := detect_sleep_stages sleep_records) in *.
  set (T := Float.round1_Q (span_minutes sleep_records)) in *.
  assert (HD : 0 <= Float.round1_Q (T * (inject_Z (Z.of_nat (stage_count Deep staged))
                                         / inject_Z (Z.of_nat (length staged))))
               /\ Float.round1_Q (T * (inject_Z (Z.of_nat (stage_count Deep staged))
                                       / inject_Z (Z.of_nat (length staged)))) <= T).
  { apply rounded_share_bounds; apply share_bounds; auto using stage_count_le. }
  assert (HR : 0 <= Float.round1_Q (T * (inject_Z (Z.of_nat (stage_count REM staged))
                                         / inject_Z (Z.of_nat (length staged))))
               /\ Float.round1_Q (T * (inject_Z (Z.of_nat (stage_count REM staged))
                                       / inject_Z (Z.of_nat (length staged)))) <= T).
  { apply rounded_share_bounds; apply share_bounds; auto using stage_count_le. }
  assert (HL : 0 <= Float.round1_Q (T * (inject_Z (Z.of_nat (stage_count Light staged))
                                         / inject_Z (Z.of_nat (length staged))))
               /\ Float.round1_Q (T * (inject_Z (Z.of_nat (stage_count Light staged))
                                       / inject_Z (Z.of_nat (length staged)))) <= T).
  { apply rounded_share_bounds; apply share_bounds; auto using stage_count_le. }
  split; [exact HD|]. split; [exact HR|]. split; [exact HL|].
  split; [apply stage_pct_range; apply HD|].
  split; [apply stage_pct_range; apply HR | apply stage_pct_range; apply HL].
Qed.

Lemma night_stage_hours_fit (date_sleep : DataFrame) :
  hours_fit_span date_sleep (night_stage_hours date_sleep).
Proof.
  unfold hours_fit_span, night_stage_hours.
  rewrite detect_sleep_stages_records, stage_count_total.
  set (staged := detect_sleep_stages date_sleep).
  set (T := span_minutes date_sleep).
  assert (HT : 0 <= T) by apply span_minutes_nonneg.
  destruct (Nat.ltb_spec 0 (length staged)) as [Hpos|Hz]; cbn [andb].
  - destruct (Qlt_le_dec 0 T) as [HTpos|HT0].
    + destruct (share_bounds T (stage_count Deep staged) (length staged) HT Hpos
                  (stage_count_le _ _)) as [D0 D1].
      destruct (share_bounds T (stage_count REM staged) (length staged) HT Hpos
                  (stage_count_le _ _)) as [R0 R1].
      destruct (share_bounds T (stage_count Light staged) (length staged) HT Hpos
                  (stage_count_le _ _)) as [L0 L1].
      set (xD := T * (inject_Z (Z.of_nat (stage_count Deep staged)) / _)) in *.
      set (xR := T * (inject_Z (Z.of_nat (stage_count REM staged)) / _)) in *.
      set (xL := T * (inject_Z (Z.of_nat (stage_count Light staged)) / _)) in *.
      cbv zeta. rewrite !Qdiv_const. repeat split; lra.
    + cbv zeta. rewrite !Qdiv_const. repeat split; lra.
  - cbv zeta. rewrite !Qdiv_const. repeat split; lra.
Qed.

(** X13: the weekly chart covers the seven dates that end with the latest sleep
    date, oldest first, and for each of them the hours of Deep, REM and
    Light each lie between 0 and the span of that night in hours; on a
    date without sleep records the three are 0. *)
Theorem weekly_hours_fit_span (df : DataFrame) (latest_sleep_date : Z) :
  week_dates latest_sleep_date
  = [latest_sleep_date - 6; latest_sleep_date - 5; latest_sleep_date - 4;
     latest_sleep_date - 3; latest_sleep_date - 2; latest_sleep_date - 1;
     latest_sleep_date - 0]%Z
  /\ List.Forall2
       (fun d h =>
          let date_sleep := List.filter is_sleep (List.filter (on_date d) df) in
          hours_fit_span date_sleep h /\ (date_sleep = [] -> h = (0, 0, 0)))
       (week_dates latest_sleep_date) (weekly_stage_hours df latest_sleep_date).
Proof.
  split; [reflexivity|]. unfold weekly_stage_hours.
  induction (week_dates latest_sleep_date) as [|d t IH]; constructor; [|exact IH].
  cbv zeta.
  destruct (List.filter is_sleep (List.filter (on_date d) df)) as [|x l] eqn:E;
    cbn [empty negb].
  - split; [|reflexivity].
    unfold hours_fit_span. change (span_minutes []) with ((0 - 0) / 60).
    cbv zeta. rewrite !Qdiv_const. repeat split; lra.
  - split; [apply night_stage_hours_fit | discriminate].
Qed.

(** *** Convergence columns *)

Lemma max_Q_spec v : forall a,
  In (max_Q a v) (a :: v) /\ a <= max_Q a v /\ forall q, In q v -> q <= max_Q a v.
Proof.
  induction v as [|b t IH]; intros a; cbn [max_Q].
  - split; [left; reflexivity|]. split; [lra | intros q []].
  - destruct (IH (if Qlt_le_dec a b then b else a)) as (Hin & Hle & Hall).
    destruct (Qlt_le_dec a b) as [Hlt|Hge].
    + split; [destruct Hin as [<-|Hin]; [right; left; reflexivity | right; right; exact Hin]|].
      split; [lra|]. intros q [<-|Hq]; [exact Hle | apply Hall, Hq].
    + split; [destruct Hin as [<-|Hin]; [left; reflexivity | right; right; exact Hin]|].
      split; [exact Hle|]. intros q [<-|Hq]; [lra | apply Hall, Hq].
Qed.

Lemma series_max_spec s m :
  series_max s = Fin m -> In (Fin m) s /\ forall q, In (Fin q) s -> q <= m.
Proof.
  unfold series_max. destruct (Series.dropna s) as [|a t] eqn:E; [discriminate|].
  intros [= <-]. destruct (max_Q_spec t a) as (Hin & Hle & Hall). split.
  - apply in_dropna. rewrite E. exact Hin.
  - intros q Hq. apply in_dropna in Hq. rewrite E in Hq.
    destruct Hq as [<-|Hq]; [exact Hle | apply Hall, Hq].
Qed.

Lemma abs_diff_nonneg a b q : abs_diff a b = Fin q -> 0 <= q.
Proof.
  unfold abs_diff. destruct (a - b)%float; [discriminate|]. intros [= <-]. apply Qabs_nonneg.
Qed.

Lemma diff_norm_spec (metric baseline : list float) :
  length (diff_norm metric baseline) = Nat.min (length metric) (length baseline)
  /\ List.Forall unit_or_missing (diff_norm metric baseline)
  /\ ((exists a b, In (Fin a, Fin b) (combine metric baseline) /\ ~ a == b) ->
      exists q, In (Fin q) (diff_norm metric baseline) /\ q == 1).
Proof.
  unfold diff_norm.
  set (diff := map (fun p => abs_diff (fst p) (snd p)) (combine metric baseline)).
  assert (Hlen : length diff = Nat.min (length metric) (length baseline)).
  { unfold diff. rewrite length_map. apply length_combine. }
  assert (Hnn : forall q, In (Fin q) diff -> 0 <= q).
  { intros q Hq. unfold diff in Hq. apply in_map_iff in Hq as (p & Hp & _).
    eapply abs_diff_nonneg, Hp. }
  destruct (series_max diff) as [|m] eqn:Em.
  - cbn. rewrite length_map. split; [exact Hlen|]. split.
    + apply List.Forall_forall. intros x Hx. apply in_map_iff in Hx as (y & <- & _).
      cbn. split; lra.
    + intros (a & b & Hin & Hab). exfalso.
      assert (Hd : In (abs_diff (Fin a) (Fin b)) diff).
      { unfold diff. apply in_map_iff. exists (Fin a, Fin b). auto. }
      cbn in Hd. apply in_dropna in Hd. unfold series_max in Em.
      destruct (Series.dropna diff); [destruct Hd | discriminate].
  - destruct (series_max_spec diff m Em) as [Hm Hall].
    unfold Float.gtb, Float.ltb. destruct (Qlt_le_dec 0 m) as [Hpos|Hle].
    + rewrite length_map. split; [exact Hlen|]. split.
      * apply List.Forall_forall. intros x Hx. apply in_map_iff in Hx as (y & <- & Hy).
        destruct y as [|q]; cbn; [exact I|].
        specialize (Hall q Hy). specialize (Hnn q Hy). split.
        -- apply Qle_shift_div_l; [exact Hpos | lra].
        -- apply Qle_shift_div_r; [exact Hpos | lra].
      * intros _. exists (m / m). split.
        -- apply in_map_iff. exists (Fin m). split; [reflexivity | exact Hm].
        -- field. lra.
    + rewrite length_map. split; [exact Hlen|]. split.
      * apply List.Forall_forall. intros x Hx. apply in_map_iff in Hx as (y & <- & _).
        cbn. split; lra.
      * intros (a & b & Hin & Hab). exfalso.
        assert (Hd : In (abs_diff (Fin a) (Fin b)) diff).
        { unfold diff. apply in_map_iff. exists (Fin a, Fin b). auto. }
        change (abs_diff (Fin a) (Fin b)) with (Fin (Qabs (a - b))) in Hd.
        specialize (Hall _ Hd).
        assert (0 < Qabs (a - b)).
        { destruct (Qlt_le_dec 0 (Qabs (a - b))) as [H|H]; [exact H|].
          exfalso. apply Hab.
          pose proof (Qabs_nonneg (a - b)).
          assert (E0 : Qabs (a - b) == 0) by lra.
          pose proof (Qle_Qabs (a - b)). pose proof (Qle_Qabs (- (a - b))).
          rewrite Qabs_opp in H2. lra. }
        lra.
Qed.

(** X18: each of the four normalised difference columns of the convergence plot
    has one entry per row of the daily table, and each entry is missing or
    lies between 0 and 1; when some day's hrv differs from its baseline,
    the hrv column reaches 1. *)
Theorem convergence_columns_in_unit_range (data : list Daily.t) :
  let c := convergence_columns data in
  (length (Convergence.rhr_diff_norm c) = length data
   /\ List.Forall unit_or_missing (Convergence.rhr_diff_norm c))
  /\ (length (Convergence.hr_diff_norm c) = length data
      /\ List.Forall unit_or_missing (Convergence.hr_diff_norm c))
  /\ (length (Convergence.hrv_diff_norm c) = length data
      /\ List.Forall unit_or_missing (Convergence.hrv_diff_norm c))
  /\ (length (Convergence.breathing_diff_norm c) = length data
      /\ List.Forall unit_or_missing (Convergence.breathing_diff_norm c))
  /\ ((exists r a b, In r data /\ Daily.hrv r = Fin a /\ Daily.baseline_hrv r = Fin b
                     /\ ~ a == b) ->
      exists q, In (Fin q) (Convergence.hrv_diff_norm c) /\ q == 1).
Proof.
  cbv zeta. unfold convergence_columns.
  cbn [Convergence.rhr_diff_norm Convergence.hr_diff_norm Convergence.hrv_diff_norm
       Convergence.breathing_diff_norm].
  repeat split;
    try (match goal with |- length (diff_norm ?m ?b) = _ =>
           rewrite (proj1 (diff_norm_spec m b)), !length_map; apply Nat.min_id end);
    try (match goal with |- List.Forall _ (diff_norm ?m ?b) =>
           apply (proj1 (proj2 (diff_norm_spec m b))) end).
  intros (r & a & b & Hr & Ha & Hb & Hab).
  apply (proj2 (proj2 (diff_norm_spec _ _))).
  exists a, b. split; [|exact Hab].
  rewrite <- Ha, <- Hb. clear Ha Hb Hab.
  induction data as [|x t IH]; [destruct Hr|].
  destruct Hr as [->|Hr]; [left; reflexivity | right; apply IH, Hr].
Qed.

(** *** Tag distribution *)

Lemma list_sum_cons (n : nat) (l : list nat) : list_sum (n :: l) = (n + list_sum l)%nat.
Proof. reflexivity. Qed.

Lemma count_of_cons tag t c rest :
  count_of tag ((t, c) :: rest)
  = ((if String.eqb tag t then c else 0) + count_of tag rest)%nat.
Proof.
  unfold count_of. cbn [List.filter fst].
  destruct (String.eqb tag t); [rewrite map_cons, list_sum_cons|]; reflexivity.
Qed.

Lemma count_of_count_tag tag tag' counts :
  count_of tag (count_tag tag' counts)
  = (count_of tag counts + if String.eqb tag tag' then 1 else 0)%nat.
Proof.
  induction counts as [|[t c] rest IH]; cbn [count_tag].
  - rewrite count_of_cons. unfold count_of. cbn [List.filter map list_sum fold_right].
    destruct (String.eqb tag tag'); lia.
  - destruct (String.eqb_spec tag' t) as [->|Hne]; rewrite !count_of_cons.
    + destruct (String.eqb tag t); lia.
    + rewrite IH. destruct (String.eqb tag t); lia.
Qed.

Lemma in_keys_count_tag k tag counts :
  In k (map fst (count_tag tag counts)) <-> k = tag \/ In k (map fst counts).
Proof.
  induction counts as [|[t c] rest IH]; cbn [count_tag].
  - cbn. intuition.
  - destruct (String.eqb_spec tag t) as [->|Hne]; cbn [map fst In].
    + intuition.
    + rewrite IH. intuition.
Qed.

Lemma count_tag_NoDup tag counts :
  List.NoDup (map fst counts) -> List.NoDup (map fst (count_tag tag counts)).
Proof.
  induction counts as [|[t c] rest IH]; cbn [count_tag]; intros H.
  - cbn. constructor; [intros [] | constructor].
  - cbn [map fst] in H. apply List.NoDup_cons_iff in H as [Hn Hd].
    destruct (String.eqb_spec tag t) as [->|Hne]; cbn [map fst].
    + constructor; assumption.
    + constructor; [|apply IH, Hd]. rewrite in_keys_count_tag. intros [E|Hin]; auto.
Qed.

Lemma count_tag_positive tag counts :
  List.Forall (fun p => (1 <= snd p)%nat) counts ->
  List.Forall (fun p => (1 <= snd p)%nat) (count_tag tag counts).
Proof.
  induction 1 as [|[t c] rest Hc Hrest IH]; cbn [count_tag].
  - constructor; [cbn; lia | constructor].
  - destruct (String.eqb tag t); constructor; cbn in *; auto; lia.
Qed.

Lemma count_tag_total tag counts :
  list_sum (map snd (count_tag tag counts)) = S (list_sum (map snd counts)).
Proof.
  induction counts as [|[t c] rest IH]; cbn [count_tag]; [reflexivity|].
  destruct (String.eqb tag t); rewrite !map_cons, !list_sum_cons; cbn [snd];
    [|rewrite IH]; lia.
Qed.

Lemma occurrences_app tag l1 l2 :
  occurrences tag (l1 ++ l2) = (occurrences tag l1 + occurrences tag l2)%nat.
Proof. unfold occurrences. rewrite List.filter_app, length_app. reflexivity. Qed.

Lemma counts_ok_tags tags_list : forall seen counts,
  counts_ok seen counts ->
  counts_ok (seen ++ tags_list)
    (fold_left (fun counts tag => count_tag tag counts) tags_list counts).
Proof.
  induction tags_list as [|tag rest IH]; intros seen counts H; cbn [fold_left].
  - rewrite app_nil_r. exact H.
  - replace (seen ++ tag :: rest) with ((seen ++ [tag]) ++ rest)
      by (rewrite <- app_assoc; reflexivity).
    apply IH. destruct H as (Hn & Hp & Hs & Hc).
    split; [apply count_tag_NoDup, Hn|]. split; [apply count_tag_positive, Hp|].
    split; [rewrite count_tag_total, Hs, length_app; cbn; lia|].
    intros t. rewrite count_of_count_tag, Hc, occurrences_app. f_equal.
    unfold occurrences. cbn [List.filter]. destruct (String.eqb t tag); reflexivity.
Qed.

Lemma counts_ok_records df : forall seen counts,
  counts_ok seen counts ->
  counts_ok (seen ++ all_tags df)
    (fold_left
       (fun counts r =>
          match tags r with
          | Some tags_list =>
              fold_left (fun counts tag => count_tag tag counts) tags_list counts
          | None => counts
          end) df counts).
Proof.
  induction df as [|r rest IH]; intros seen counts H; cbn [fold_left all_tags flat_map].
  - rewrite app_nil_r. exact H.
  - fold (all_tags rest). rewrite app_assoc. apply IH.
    destruct (tags r) as [l|]; [apply counts_ok_tags, H | rewrite app_nil_r; exact H].
Qed.

Lemma tag_counts_ok df : counts_ok (all_tags df) (tag_counts df).
Proof.
  apply (counts_ok_records df [] []). repeat split; try constructor.
Qed.

Lemma count_of_In tag c counts :
  List.NoDup (map fst counts) -> In (tag, c) counts -> count_of tag counts = c.
Proof.
  unfold count_of. induction counts as [|[t c'] rest IH]; intros Hn Hin; [destruct Hin|].
  cbn [map fst] in Hn. apply List.NoDup_cons_iff in Hn as [Hnot Hd].
  cbn [List.filter fst]. destruct Hin as [[= -> ->]|Hin].
  - rewrite String.eqb_refl. cbn [map snd list_sum].
    assert (E : List.filter (fun p => String.eqb tag (fst p)) rest = []).
    { clear IH Hd. induction rest as [|[t2 c2] r2 IH2]; [reflexivity|].
      cbn [List.filter fst]. destruct (String.eqb_spec tag t2) as [->|_].
      - exfalso. apply Hnot. left. reflexivity.
      - apply IH2. intros H. apply Hnot. right. exact H. }
    rewrite E. cbn. lia.
  - destruct (String.eqb_spec tag t) as [->|_].
    + exfalso. apply Hnot. apply (in_map fst) in Hin. exact Hin.
    + apply IH; assumption.
Qed.

Lemma count_of_positive_In tag counts :
  (1 <= count_of tag counts)%nat -> exists c, In (tag, c) counts.
Proof.
  unfold count_of. induction counts as [|[t c'] rest IH]; cbn [List.filter fst].
  - cbn. lia.
  - destruct (String.eqb_spec tag t) as [->|_].
    + intros _. exists c'. left. reflexivity.
    + intros H. destruct (IH H) as (c & Hc). exists c. right. exact Hc.
Qed.

Lemma sorted_weaken {A} (R R' : A -> A -> Prop) (l : list A) :
  (forall a b, R a b -> R' a b) -> StronglySorted R l -> StronglySorted R' l.
Proof.
  intros H. induction 1 as [|a l Hl IH Ha]; constructor; [exact IH|].
  eapply Forall_impl; [exact Ha|]. intros b. apply H.
Qed.

Lemma total_count_perm (l l' : list (string * nat)) :
  Permutation l l' -> list_sum (map snd l) = list_sum (map snd l').
Proof.
  induction 1 as [|x l l' Hp IH|x y l|l l' l'' H1 IH1 H2 IH2];
    rewrite ?map_cons, ?list_sum_cons; [reflexivity | lia | lia | congruence].
Qed.

(** X19: the tag distribution lists a tag with a count exactly when the tag
    occurs in the tag lists and the count is the number of its
    occurrences; no tag is listed twice, the counts sum to the number of
    tags recorded, and the rows come in descending order of count. *)
Theorem tag_distribution_counts (df : DataFrame) :
  let distribution := fetch_tag_distribution df in
  (forall tag c,
     In (tag, c) distribution <-> c = occurrences tag (all_tags df) /\ (1 <= c)%nat)
  /\ List.NoDup (map fst distribution)
  /\ list_sum (map snd distribution) = length (all_tags df)
  /\ StronglySorted (fun a b => (snd b <= snd a)%nat) distribution.
Proof.
  cbv zeta. unfold fetch_tag_distribution.
  set (leb := fun a b : string * nat => (snd b <=? snd a)%nat).
  pose proof (isort_perm leb (tag_counts df)) as Hp.
  destruct (tag_counts_ok df) as (Hn & Hpos & Hs & Hc).
  split; [|split; [|split]].
  - intros tag c. split.
    + intros Hin. apply (Permutation_in _ Hp) in Hin.
      rewrite <- Hc. split; [symmetry; apply count_of_In; assumption|].
      rewrite List.Forall_forall in Hpos. apply (Hpos (tag, c) Hin).
    + intros [-> H1]. rewrite <- Hc in H1.
      destruct (count_of_positive_In _ _ H1) as (c & Hin).
      rewrite <- Hc, (count_of_In tag c _ Hn Hin).
      apply (Permutation_in _ (Permutation_sym Hp)), Hin.
  - eapply Permutation_NoDup; [|exact Hn]. apply Permutation_map, Permutation_sym, Hp.
  - rewrite <- Hs. apply total_count_perm, Hp.
  - assert (Hsorted : StronglySorted (fun a b => leb a b = true) (isort leb (tag_counts df))).
    { apply isort_sorted; unfold leb.
      - intros x y H. apply Nat.leb_gt in H. apply Nat.leb_le. lia.
      - intros x y z H1 H2. apply Nat.leb_le in H1, H2. apply Nat.leb_le. lia. }
    eapply sorted_weaken; [|exact Hsorted].
    intros a b Hab. unfold leb in Hab. apply Nat.leb_le, Hab.
Qed.

(** *** Date range *)

Lemma fold_min_le l : forall a, (fold_left Z.min l a <= a)%Z.
Proof.
  induction l as [|b t IH]; intros a; cbn; [lia|]. specialize (IH (Z.min a b)). lia.
Qed.

Lemma fold_min_all l : forall a d, In d l -> (fold_left Z.min l a <= d)%Z.
Proof.
  induction l as [|b t IH]; intros a d []; cbn.
  - subst b. pose proof (fold_min_le t (Z.min a d)). lia.
  - apply IH. assumption.
Qed.

Lemma fold_min_In l : forall a, In (fold_left Z.min l a) (a :: l).
Proof.
  induction l as [|b t IH]; intros a; cbn; [left; reflexivity|].
  destruct (IH (Z.min a b)) as [E|H]; [|right; right; exact H].
  rewrite <- E. destruct (Z.min_spec a b) as [[_ Em]|[_ Em]]; rewrite Em.
  - left. reflexivity.
  - right. left. reflexivity.
Qed.

Lemma sorted_length_in_interval l : forall lo hi,
  StronglySorted Z.lt l -> (lo <= hi + 1)%Z ->
  (forall x, In x l -> (lo <= x <= hi)%Z) ->
  (Z.of_nat (length l) <= hi - lo + 1)%Z.
Proof.
  induction l as [|a t IH]; intros lo hi Hs Hle Hin; [cbn; lia|].
  apply StronglySorted_inv in Hs as [Ht Ha]. rewrite List.Forall_forall in Ha.
  pose proof (Hin a (or_introl eq_refl)).
  assert (IH' := IH (a + 1)%Z hi Ht ltac:(lia)).
  cbn [length]. rewrite Nat2Z.inj_succ.
  assert (Z.of_nat (length t) <= hi - (a + 1) + 1)%Z; [|lia].
  apply IH'. intros x Hx. specialize (Ha x Hx). specialize (Hin x (or_intror Hx)). lia.
Qed.

(** X20: for a frame that is not empty, [calculate_date_range] returns the
    earliest and the latest date of the frame, both dates of the frame
    that bound every other, and a number of days that is at least 1, at
    least the number of distinct dates, and at least the number of rows
    of the dynamic-baseline table. *)
Theorem date_range_covers (df : DataFrame) :
  df <> [] ->
  exists min_date max_date date_range,
    calculate_date_range df = Some (min_date, max_date, date_range)
    /\ In min_date (map date df) /\ In max_date (map date df)
    /\ (forall r, In r df -> (min_date <= date r <= max_date)%Z)
    /\ (1 <= date_range)%Z
    /\ (Z.of_nat (length (sorted_unique (map date df))) <= date_range)%Z
    /\ (Z.of_nat (length (calculate_daily_metrics_with_dynamic_baselines df))
        <= date_range)%Z.
Proof.
  intros Hne. unfold calculate_date_range.
  destruct df as [|x df'] eqn:Edf; [contradiction Hne; reflexivity|]. rewrite <- Edf in *.
  clear Edf x df'.
  exists (earliest_date df), (latest_date df), (latest_date df - earliest_date df + 1)%Z.
  assert (Hmin : In (earliest_date df) (map date df)).
  { unfold earliest_date. destruct df as [|x t]; [contradiction Hne; reflexivity|].
    cbn [map]. apply fold_min_In. }
  assert (Hall : forall r, In r df -> (earliest_date df <= date r <= latest_date df)%Z).
  { intros r Hr. split; [|apply latest_date_max, Hr].
    unfold earliest_date. apply (in_map date) in Hr.
    destruct (map date df) as [|d ds]; [destruct Hr|].
    destruct Hr as [<-|Hr]; [apply fold_min_le | apply fold_min_all, Hr]. }
  assert (Hmax := latest_date_In df Hne).
  assert (Hrange : (1 <= latest_date df - earliest_date df + 1)%Z).
  { apply in_map_iff in Hmin as (r & Er & Hr). specialize (Hall r Hr). lia. }
  assert (Huniq : (Z.of_nat (length (sorted_unique (map date df)))
                   <= latest_date df - earliest_date df + 1)%Z).
  { apply sorted_length_in_interval; [apply sorted_unique_sorted | lia |].
    intros d Hd. apply in_sorted_unique, in_map_iff in Hd as (r & <- & Hr). apply Hall, Hr. }
  repeat split; try assumption; try (apply Hall; assumption).
  destruct (List.filter is_sleep df) as [|s l] eqn:Es.
  - rewrite (dynamic_engine_no_sleep df Es). cbn. lia.
  - destruct (dynamic_engine_rows df) as (rows & -> & Hd & _); [rewrite Es; discriminate|].
    rewrite <- (length_map Daily.date), Hd. exact Huniq.
Qed.

(** *** Sleep stage labels *)

Lemma classify_stage_cases p20 p80 p30 mean_hr r :
  (classify_stage p20 p80 p30 mean_hr r = Unknown
   <-> heartRate r = NaN \/ rmssd r = NaN \/ lfHfRatio r = NaN)
  /\ (classify_stage p20 p80 p30 mean_hr r = Deep ->
      (heartRate r <=? p20)%float = true /\ (rmssd r >=? p80)%float = true
      /\ (lfHfRatio r <? Fin 1.0)%float = true)
  /\ (classify_stage p20 p80 p30 mean_hr r = REM ->
      (heartRate r >? mean_hr)%float = true /\ (rmssd r <=? p30)%float = true
      /\ (lfHfRatio r >? Fin 2.0)%float = true).
Proof.
  unfold classify_stage.
  destruct (heartRate r) as [|h], (rmssd r) as [|m], (lfHfRatio r) as [|l];
    cbn [Float.isna orb];
    try (split; [split; [intros _; tauto | reflexivity]
                | split; intros H; discriminate H]).
  destruct (Fin h <=? p20)%float, (Fin m >=? p80)%float, (Fin l <? Fin 1.0)%float;
    cbn [andb];
    destruct (Fin h >? mean_hr)%float, (Fin m <=? p30)%float, (Fin l >? Fin 2.0)%float;
    cbn [andb];
    (split; [split; [intros H; discriminate H
                    | intros [H|[H|H]]; discriminate H]
            | split; intros H; try discriminate H; auto]).
Qed.

Lemma classify_stage_light p20 p80 p30 mean_hr r (x : Q) :
  heartRate r <> NaN -> rmssd r <> NaN -> lfHfRatio r = Fin x -> 1 <= x -> x <= 2 ->
  classify_stage p20 p80 p30 mean_hr r = Light.
Proof.
  intros Hh Hm El H1 H2. unfold classify_stage. rewrite El.
  destruct (heartRate r) as [|h]; [contradiction Hh; reflexivity|].
  destruct (rmssd r) as [|m]; [contradiction Hm; reflexivity|].
  cbn [Float.isna orb].
  assert (E1 : (Fin x <? Fin 1.0)%float = false).
  { unfold Float.ltb. destruct (Qlt_le_dec x 1.0); [exfalso; lra | reflexivity]. }
  assert (E2 : (Fin x >? Fin 2.0)%float = false).
  { unfold Float.gtb, Float.ltb. destruct (Qlt_le_dec 2.0 x); [exfalso; lra | reflexivity]. }
  rewrite E1, E2, !andb_false_r. reflexivity.
Qed.

(** X9: [detect_sleep_stages] labels every record and keeps the records and
    their order; a record is Unknown exactly when its heart rate, rmssd or
    LF/HF ratio is missing; a Deep record has an LF/HF ratio below 1 and a
    REM record an LF/HF ratio above 2; a record with its three values
    defined and an LF/HF ratio from 1 to 2 is Light. *)
Theorem sleep_stage_labels (sleep_df : DataFrame) :
  map fst (detect_sleep_stages sleep_df) = sleep_df
  /\ (forall r st, In (r, st) (detect_sleep_stages sleep_df) ->
        (st = Unknown <-> heartRate r = NaN \/ rmssd r = NaN \/ lfHfRatio r = NaN)
        /\ (st = Deep -> (lfHfRatio r <? Fin 1.0)%float = true)
        /\ (st = REM -> (lfHfRatio r >? Fin 2.0)%float = true)
        /\ (forall x, heartRate r <> NaN -> rmssd r <> NaN -> lfHfRatio r = Fin x ->
                       1 <= x -> x <= 2 -> st = Light)).
Proof.
  split; [apply detect_sleep_stages_records|].
  intros r st H. unfold detect_sleep_stages in H.
  apply in_map_iff in H as (r' & [= -> <-] & _).
  match goal with |- context [classify_stage ?a ?b ?c ?d r] =>
    destruct (classify_stage_cases a b c d r) as (HU & HD & HR) end.
  split; [exact HU|]. split; [|split].
  - intros E. apply HD in E. tauto.
  - intros E. apply HR in E. tauto.
  - intros x Hh Hm El H1 H2. apply (classify_stage_light _ _ _ _ r x); assumption.
Qed.

(** *** The score components *)

Lemma ratio_score_range num den :
  exists s, ratio_score num den = Fin s /\ 0 < s /\ s <= 1.
Proof.
  unfold ratio_score.
  destruct den as [|b], num as [|a]; cbn [Float.gtb Float.ltb andb];
    try (exists 0.5; split; [reflexivity | split; lra]).
  - destruct (Qlt_le_dec 0 b); cbn [andb]; exists 0.5; split; try reflexivity; split; lra.
  - destruct (Qlt_le_dec 0 b) as [Hb|Hb]; cbn [andb];
      [|exists 0.5; split; [reflexivity | split; lra]].
    destruct (Qlt_le_dec 0 a) as [Ha|Ha];
      [|exists 0.5; split; [reflexivity | split; lra]].
    assert (Hr : 0 < a / b) by (apply Qlt_shift_div_l; lra).
    unfold Float.py_min, Float.div, Float.lift2, Float.ltb.
    destruct (Qlt_le_dec 1.0 (a / b)); eexists; (split; [reflexivity|]); split; lra.
Qed.

Lemma ratio_score_mono_num a a' den :
  0 < a -> a <= a' -> float_le (ratio_score (Fin a) den) (ratio_score (Fin a') den).
Proof.
  intros Ha Hle. unfold ratio_score.
  rewrite (gtb_pos a Ha), (gtb_pos a') by lra.
  destruct den as [|b]; [cbn; lra|]. unfold Float.gtb at 1 2, Float.ltb.
  destruct (Qlt_le_dec 0 b) as [Hb|Hb]; cbn [andb]; [|cbn; lra].
  pose proof (Qdiv_le_mono a a' b Hb Hle).
  unfold Float.py_min, Float.div, Float.lift2, Float.ltb.
  case_Qdec; cbn; lra.
Qed.

Lemma ratio_score_mono_den num b b' :
  0 < b -> b <= b' -> float_le (ratio_score num (Fin b')) (ratio_score num (Fin b)).
Proof.
  intros Hb Hle. unfold ratio_score.
  rewrite (gtb_pos b Hb), (gtb_pos b') by lra. cbn [andb].
  destruct num as [|a]; [cbn; lra|]. unfold Float.gtb, Float.ltb.
  destruct (Qlt_le_dec 0 a) as [Ha|Ha]; [|cbn; lra].
  assert (H : a / b' <= a / b).
  { apply Qle_shift_div_l; [lra|].
    assert (E : a / b' * b == a * (b / b')) by (field; lra). rewrite E.
    assert (Hf : b / b' <= 1) by (apply Qle_shift_div_r; lra).
    set (f := b / b') in *. rewrite <- (Qmult_1_r a) at 2.
    rewrite !(Qmult_comm a). apply Qmult_le_compat_r; lra. }
  unfold Float.py_min, Float.div, Float.lift2, Float.ltb.
  case_Qdec; cbn; lra.
Qed.

Lemma ratio_score_self_const a a' :
  0 < a -> 0 < a' ->
  float_le (ratio_score (Fin a) (Fin a)) (ratio_score (Fin a') (Fin a'))
  /\ float_le (ratio_score (Fin a') (Fin a')) (ratio_score (Fin a) (Fin a)).
Proof.
  intros Ha Ha'. unfold ratio_score. rewrite (gtb_pos a Ha), (gtb_pos a' Ha'). cbn [andb].
  assert (E : a / a == 1) by (field; lra). assert (E' : a' / a' == 1) by (field; lra).
  unfold Float.py_min, Float.div, Float.lift2, Float.ltb.
  case_Qdec; cbn; split; lra.
Qed.

Lemma same_or_le_refl x : same_or_le x x.
Proof. destruct x; cbn; [exact I | lra]. Qed.

Lemma float_le_same_or_le x y : float_le x y -> same_or_le x y.
Proof. destruct x, y; cbn; auto. Qed.

Lemma same_or_le_add a a' b b' :
  same_or_le a a' -> same_or_le b b' -> same_or_le (a + b)%float (a' + b')%float.
Proof. destruct a, a', b, b'; cbn; try tauto. lra. Qed.

Lemma same_or_le_scale (c : Q) x y :
  0 <= c -> same_or_le x y -> same_or_le (Fin c * x)%float (Fin c * y)%float.
Proof.
  intros Hc. destruct x as [|a], y as [|b]; cbn; try tauto. intros H.
  rewrite !(Qmult_comm c). apply Qmult_le_compat_r; assumption.
Qed.

Lemma same_or_le_times (c : Q) x y :
  0 <= c -> same_or_le x y -> same_or_le (x * Fin c)%float (y * Fin c)%float.
Proof.
  intros Hc. destruct x as [|a], y as [|b]; cbn; try tauto. intros H.
  apply Qmult_le_compat_r; assumption.
Qed.

Lemma same_or_le_over (c : Q) x y :
  0 < c -> same_or_le x y -> same_or_le (x / Fin c)%float (y / Fin c)%float.
Proof.
  intros Hc. destruct x as [|a], y as [|b]; cbn; try tauto. apply Qdiv_le_mono, Hc.
Qed.

Lemma clamp100_mono x y :
  same_or_le x y ->
  float_le (Float.py_max (Fin 0) (Float.py_min (Fin 100) x))
           (Float.py_max (Fin 0) (Float.py_min (Fin 100) y)).
Proof.
  destruct x as [|a], y as [|b]; cbn [same_or_le]; try tauto; intros H;
    unfold Float.py_max, Float.py_min, Float.gtb, Float.ltb; case_Qdec; cbn; lra.
Qed.

Lemma score_components_scores baselines row :
  let s := score_components baselines row in
  Score.hrv_score s
  = ratio_score (get row "rmssd" NaN) (get baselines "hrv" (get row "rmssd" NaN))
  /\ Score.rhr_score s
     = ratio_score (get baselines "rhr" (get row "rhr" NaN)) (get row "rhr" NaN)
  /\ Score.sleep_quality s
     = sleep_quality_of (Score.hrv_score s) (Score.hr_drop_score s)
         (Score.duration_score s) (Score.lfhf_penalty s)
  /\ Score.recovery_score s
     = recovery_score_of (Score.hrv_score s) (Score.rhr_score s) (Score.sleep_quality s).
Proof.
  cbv zeta. unfold score_components, ratio_score.
  cbn [Score.hrv_score Score.rhr_score Score.sleep_quality Score.recovery_score
       Score.hr_drop_score Score.duration_score Score.lfhf_penalty].
  repeat split. rewrite (andb_comm (get row "rhr" NaN >? Fin 0)%float). reflexivity.
Qed.

Lemma score_components_other baselines row k v :
  k <> "mean_hr"%string -> k <> "duration_minutes"%string -> k <> "lf_hf_ratio"%string ->
  Score.hr_drop_score (score_components baselines (<[k := v]> row))
  = Score.hr_drop_score (score_components baselines row)
  /\ Score.duration_score (score_components baselines (<[k := v]> row))
     = Score.duration_score (score_components baselines row)
  /\ Score.lfhf_penalty (score_components baselines (<[k := v]> row))
     = Score.lfhf_penalty (score_components baselines row).
Proof.
  intros H1 H2 H3. unfold score_components, get.
  cbn [Score.hr_drop_score Score.duration_score Score.lfhf_penalty].
  rewrite !(lookup_insert_ne row k) by congruence. repeat split.
Qed.

Lemma sleep_quality_of_mono h h' d u l :
  float_le h h' -> float_le (sleep_quality_of h d u l) (sleep_quality_of h' d u l).
Proof.
  intros H. unfold sleep_quality_of. apply clamp100_mono.
  apply same_or_le_times; [lra|].
  repeat apply same_or_le_add; try apply same_or_le_refl.
  apply same_or_le_scale; [lra | apply float_le_same_or_le, H].
Qed.

Lemma recovery_score_of_mono h h' r r' q q' :
  float_le h h' -> float_le r r' -> float_le q q' ->
  float_le (recovery_score_of h r q) (recovery_score_of h' r' q').
Proof.
  intros Hh Hr Hq. unfold recovery_score_of. apply clamp100_mono.
  apply same_or_le_times; [lra|].
  repeat apply same_or_le_add.
  - apply same_or_le_scale; [lra | apply float_le_same_or_le, Hh].
  - apply same_or_le_scale; [lra | apply float_le_same_or_le, Hr].
  - apply same_or_le_scale; [lra|]. apply same_or_le_over; [lra|].
    apply float_le_same_or_le, Hq.
Qed.

Lemma float_le_refl_fin x q : x = Fin q -> float_le x x.
Proof. intros ->. cbn. lra. Qed.

Lemma sleep_quality_of_defined h d u l :
  exists q, sleep_quality_of h d u l = Fin q.
Proof.
  unfold sleep_quality_of.
  match goal with |- context [Float.py_min (Fin 100) ?x] =>
    destruct (py_clamp_any 0 100 x) as (y & -> & _); [lra|] end.
  eexists; reflexivity.
Qed.

(** X6: with the baselines and the other columns of the night fixed, raising a
    positive rmssd lowers neither the sleep quality nor the recovery
    score, and raising a positive rhr leaves the sleep quality as it is
    and does not raise the recovery score. *)
Theorem recovery_monotone (baselines row : gmap string float) (x x' : Q) :
  0 < x -> x <= x' ->
  (row !! "rmssd"%string = Some (Fin x) ->
   let s := score_components baselines row in
   let s' := score_components baselines (<["rmssd"%string := Fin x']> row) in
   float_le (Score.sleep_quality s) (Score.sleep_quality s')
   /\ float_le (Score.recovery_score s) (Score.recovery_score s'))
  /\ (row !! "rhr"%string = Some (Fin x) ->
      let s := score_components baselines row in
      let s' := score_components baselines (<["rhr"%string := Fin x']> row) in
      Score.sleep_quality s' = Score.sleep_quality s
      /\ float_le (Score.recovery_score s') (Score.recovery_score s)).
Proof.
  intros Hx Hle. split; intros Hrow; cbv zeta.
  - destruct (score_components_scores baselines row) as (Eh & Er & Eq & Ec).
    destruct (score_components_scores baselines (<["rmssd"%string := Fin x']> row))
      as (Eh' & Er' & Eq' & Ec').
    destruct (score_components_other baselines row "rmssd"%string (Fin x'))
      as (Ed & Eu & El); try discriminate.
    unfold get in Eh, Er, Eh', Er'.
    rewrite lookup_insert_eq in Eh'. rewrite lookup_insert_ne in Er' by discriminate.
    rewrite Hrow in Eh.
    assert (Hh : float_le (Score.hrv_score (score_components baselines row))
                   (Score.hrv_score (score_components baselines
                                       (<["rmssd"%string := Fin x']> row)))).
    { rewrite Eh, Eh'. destruct (baselines !! "hrv"%string) as [b|].
      - apply ratio_score_mono_num; assumption.
      - apply ratio_score_self_const; lra. }
    assert (Hr : float_le (Score.rhr_score (score_components baselines row))
                   (Score.rhr_score (score_components baselines
                                       (<["rmssd"%string := Fin x']> row)))).
    { rewrite Er, Er'.
      match goal with |- float_le ?a ?a =>
        destruct (ratio_score_range (get baselines "rhr" (get row "rhr" NaN))
                    (get row "rhr" NaN)) as (q & Hq & _) end.
      unfold get in Hq. eapply float_le_refl_fin, Hq. }
    assert (Hq : float_le (Score.sleep_quality (score_components baselines row))
                   (Score.sleep_quality (score_components baselines
                                           (<["rmssd"%string := Fin x']> row)))).
    { rewrite Eq, Eq', Ed, Eu, El. apply sleep_quality_of_mono, Hh. }
    split; [exact Hq|]. rewrite Ec, Ec'. apply recovery_score_of_mono; assumption.
  - destruct (score_components_scores baselines row) as (Eh & Er & Eq & Ec).
    destruct (score_components_scores baselines (<["rhr"%string := Fin x']> row))
      as (Eh' & Er' & Eq' & Ec').
    destruct (score_components_other baselines row "rhr"%string (Fin x'))
      as (Ed & Eu & El); try discriminate.
    unfold get in Eh, Er, Eh', Er'.
    rewrite lookup_insert_eq in Er'. rewrite lookup_insert_ne in Eh' by discriminate.
    rewrite Hrow in Er.
    assert (Hh : Score.hrv_score (score_components baselines (<["rhr"%string := Fin x']> row))
                 = Score.hrv_score (score_components baselines row))
      by (rewrite Eh, Eh'; reflexivity).
    assert (Hq : Score.sleep_quality
                   (score_components baselines (<["rhr"%string := Fin x']> row))
                 = Score.sleep_quality (score_components baselines row))
      by (rewrite Eq, Eq', Ed, Eu, El, Hh; reflexivity).
    split; [exact Hq|]. rewrite Ec, Ec', Hq, Hh.
    destruct (ratio_score_range (get row "rmssd" NaN)
                (get baselines "hrv" (get row "rmssd" NaN))) as (qh & Hqh & _).
    unfold get in Hqh.
    destruct (sleep_quality_of_defined
                (Score.hrv_score (score_components baselines row))
                (Score.hr_drop_score (score_components baselines row))
                (Score.duration_score (score_components baselines row))
                (Score.lfhf_penalty (score_components baselines row))) as (qs & Hqs).
    apply recovery_score_of_mono.
    + rewrite Eh. eapply float_le_refl_fin, Hqh.
    + rewrite Er, Er'. destruct (baselines !! "rhr"%string) as [b|].
      * apply ratio_score_mono_den; assumption.
      * apply ratio_score_self_const; lra.
    + rewrite Eq. eapply float_le_refl_fin, Hqs.
Qed.

(** X5: whatever the baselines and the night hold, missing values included, the
    hrv and rhr scores are defined and lie in [0, 1], the LF/HF penalty is
    1.0, 0.8 or 0.5 (0.5 when the ratio is missing), a defined duration
    score is at most 1, and the sleep quality and the recovery score before
    rounding are defined and lie in [0, 100]. *)
Theorem score_components_defined (baselines row : gmap string float) :
  let s := score_components baselines row in
  (exists h, Score.hrv_score s = Fin h /\ 0 <= h /\ h <= 1)
  /\ (exists r, Score.rhr_score s = Fin r /\ 0 <= r /\ r <= 1)
  /\ (Score.lfhf_penalty s = Fin 1.0 \/ Score.lfhf_penalty s = Fin 0.8
      \/ Score.lfhf_penalty s = Fin 0.5)
  /\ (row !! "lf_hf_ratio"%string = None \/ row !! "lf_hf_ratio"%string = Some NaN ->
      Score.lfhf_penalty s = Fin 0.5)
  /\ (forall d, Score.duration_score s = Fin d -> d <= 1)
  /\ (exists q, Score.sleep_quality s = Fin q /\ 0 <= q /\ q <= 100)
  /\ (exists y, Score.recovery_score s = Fin y /\ 0 <= y /\ y <= 100).
Proof.
  cbv zeta.
  destruct (score_components_scores baselines row) as (Eh & Er & Eq & Ec).
  destruct (ratio_score_range (get row "rmssd" NaN)
              (get baselines "hrv" (get row "rmssd" NaN))) as (h & Hh & Hh0 & Hh1).
  destruct (ratio_score_range (get baselines "rhr" (get row "rhr" NaN))
              (get row "rhr" NaN)) as (r & Hr & Hr0 & Hr1).
  rewrite Hh in Eh. rewrite Hr in Er.
  split; [exists h; split; [exact Eh | split; lra]|].
  split; [exists r; split; [exact Er | split; lra]|].
  split.
  { unfold score_components. cbn [Score.lfhf_penalty].
    destruct (get row "lf_hf_ratio" NaN <? Fin 2)%float; [left; reflexivity|].
    destruct (get row "lf_hf_ratio" NaN <? Fin 4)%float;
      [right; left | right; right]; reflexivity. }
  split.
  { intros Hl. unfold score_components, get. cbn [Score.lfhf_penalty].
    destruct Hl as [-> | ->]; reflexivity. }
  split.
  { intros d. unfold score_components. cbn [Score.duration_score].
    unfold Float.py_min, Float.ltb.
    destruct (get row "duration_minutes" (Fin 0) / Fin 420)%float as [|q]; [discriminate|].
    destruct (Qlt_le_dec 1.0 q); intros [= <-]; lra. }
  split.
  { rewrite Eq. unfold sleep_quality_of. apply py_clamp_any. lra. }
  rewrite Ec. unfold recovery_score_of. apply py_clamp_any. lra.
Qed.

(** X7: a night whose mean_hr is absent or missing, scored against a positive
    hr baseline, has a sleep quality of 100 before rounding: the weighted
    sum is NaN, [min(100, NaN)] is 100 and [max(0, 100)] is 100. *)
Theorem sleep_quality_missing_mean_hr (baselines row : gmap string float) (b : Q) :
  baselines !! "hr"%string = Some (Fin b) -> 0 < b ->
  (row !! "mean_hr"%string = None \/ row !! "mean_hr"%string = Some NaN) ->
  Score.sleep_quality (score_components baselines row) = Fin 100.
Proof.
  intros Hb Hpos Hrow.
  destruct (score_components_scores baselines row) as (_ & _ & Eq & _).
  rewrite Eq. unfold sleep_quality_of.
  assert (Hd : Score.hr_drop_score (score_components baselines row) = NaN).
  { unfold score_components, get. cbn [Score.hr_drop_score]. rewrite Hb.
    rewrite (gtb_pos b Hpos). destruct Hrow as [-> | ->]; reflexivity. }
  rewrite Hd.
  destruct (Score.hrv_score (score_components baselines row));
    destruct (Score.duration_score (score_components baselines row));
    destruct (Score.lfhf_penalty (score_components baselines row)); reflexivity.
Qed.

(** *** The chart of the components *)

(** X21: the components chart of the analytics page computes the component scores
    again: its duration score and LF/HF penalty are the ones the sleep
    quality used; its heart-rate drop is the same when the hr baseline is
    positive, and is 0.5 where the score used 0 otherwise; for a positive
    rmssd and a positive hrv baseline the chart shows the ratio capped at
    1.2, and the score used that value capped at 1.0. *)
Theorem displayed_components_and_score (baselines row : gmap string float)
    (rmssd_ avg_hr duration lf_hf_ratio : float) :
  row !! "rmssd"%string = Some rmssd_ -> row !! "mean_hr"%string = Some avg_hr ->
  row !! "duration_minutes"%string = Some duration ->
  row !! "lf_hf_ratio"%string = Some lf_hf_ratio ->
  let s := score_components baselines row in
  let c := displayed_components baselines rmssd_ avg_hr duration lf_hf_ratio in
  Components.duration_score c = Score.duration_score s
  /\ Components.lfhf_penalty c = Score.lfhf_penalty s
  /\ ((get baselines "hr" avg_hr >? Fin 0)%float = true ->
      Components.hr_drop_score c = Score.hr_drop_score s)
  /\ ((get baselines "hr" avg_hr >? Fin 0)%float = false ->
      Components.hr_drop_score c = Fin 0.5 /\ Score.hr_drop_score s = Fin 0)
  /\ forall x b,
       rmssd_ = Fin x -> get baselines "hrv" rmssd_ = Fin b -> 0 < x -> 0 < b ->
       Score.hrv_score s = Float.py_min (Components.rmssd_score c) (Fin 1.0)
       /\ exists y, Components.rmssd_score c = Fin y /\ 0 < y /\ y <= 1.2.
Proof.
  intros H1 H2 H3 H4. cbv zeta. unfold score_components, displayed_components.
  cbn [Components.duration_score Components.lfhf_penalty Components.hr_drop_score
       Components.rmssd_score Score.duration_score Score.lfhf_penalty
       Score.hr_drop_score Score.hrv_score].
  unfold get. rewrite H1, H2, H3, H4.
  split; [reflexivity|]. split; [reflexivity|].
  split; [intros ->; reflexivity|]. split; [intros ->; split; reflexivity|].
  intros x b -> Hb Hx Hb0. rewrite Hb.
  rewrite (gtb_pos b Hb0), (gtb_pos x Hx). cbn [andb].
  assert (Hr : 0 < x / b) by (apply Qlt_shift_div_l; lra).
  unfold Float.py_min, Float.div, Float.lift2, Float.ltb.
  destruct (Qlt_le_dec 1.2 (x / b)); destruct (Qlt_le_dec 1.0 (x / b));
    try (exfalso; lra).
  - destruct (Qlt_le_dec 1.0 1.2) as [_|F]; [|exfalso; revert F; vm_compute; auto].
    split; [reflexivity|]. exists 1.2. repeat split; lra.
  - destruct (Qlt_le_dec 1.0 (x / b)); [|exfalso; lra].
    split; [reflexivity|]. exists (x / b). repeat split; lra.
  - destruct (Qlt_le_dec 1.0 (x / b)); [exfalso; lra|].
    split; [reflexivity|]. exists (x / b). repeat split; lra.
Qed.

(** *** The recovery label and the recommendation *)

Lemma ltb_comp (a b c : Q) : a == b -> (Fin a <? Fin c)%float = (Fin b <? Fin c)%float.
Proof. intros E. unfold Float.ltb. case_Qdec; try reflexivity; exfalso; lra. Qed.

Lemma night_data_rows df baselines h :
  In h (calculate_recovery_score (calculate_night_metrics df) baselines) ->
  exists d,
    h = night_row d (day_records (List.filter is_sleep df) d)
    \/ h = score_row baselines (night_row d (day_records (List.filter is_sleep df) d)).
Proof.
  intros Hr. apply scored_rows in Hr as [Hr|(r0 & Hr & ->)];
    apply night_metrics_rows in Hr as (d & Hd & ->); exists d; auto.
Qed.

Lemma night_data_nonempty df baselines :
  List.filter is_sleep df <> [] ->
  calculate_recovery_score (calculate_night_metrics df) baselines <> [].
Proof.
  intros Hs E.
  assert (Hn : calculate_night_metrics df = []).
  { unfold calculate_recovery_score in E.
    destruct (calculate_night_metrics df) as [|r1 nd]; [reflexivity|].
    destruct (size baselines =? 0)%nat; discriminate. }
  pose proof (night_rows_dates df) as Hd. rewrite Hn in Hd. cbn in Hd.
  destruct (List.filter is_sleep df) as [|x l]; [contradiction Hs; reflexivity|].
  assert (Hin : In (date x) (sorted_unique (map date (x :: l))))
    by (apply in_sorted_unique_iff; left; reflexivity).
  rewrite <- Hd in Hin. destruct Hin.
Qed.

Lemma sort_by_date_descending_nonempty night_data :
  night_data <> [] -> exists h t, sort_by_date_descending night_data = h :: t.
Proof.
  intros Hne. destruct (sort_by_date_descending night_data) as [|h t] eqn:E; [|eauto].
  exfalso. unfold sort_by_date_descending in E.
  pose proof (isort_length (fun a b : NightRow => (night_date b <=? night_date a)%Z)
                night_data) as Hl.
  rewrite E in Hl. cbn in Hl. symmetry in Hl. apply length_zero_iff_nil in Hl. auto.
Qed.

Lemma latest_night_report df baselines :
  List.filter is_sleep df <> [] ->
  let night_data := calculate_recovery_score (calculate_night_metrics df) baselines in
  exists h t report,
    sort_by_date_descending night_data = h :: t
    /\ In h night_data
    /\ create_daily_report night_data baselines = Returns (Some report)
    /\ Report.recovery_score report
       = Float.round1 (present_or_zero (night_cols h) "recovery_score").
Proof.
  intros Hs. cbv zeta.
  destruct (sort_by_date_descending_nonempty _ (night_data_nonempty df baselines Hs))
    as (h & t & Esort).
  destruct (sort_by_date_descending_head _ _ _ Esort) as [Hh _].
  destruct (night_data_rows df baselines h Hh) as (d & Hrow).
  set (group := day_records (List.filter is_sleep df) d) in *.
  destruct (night_row_report_columns d group) as (mh & rm & rh & br & L1 & L2 & L3 & L4 & L5).
  assert (Hcols : night_cols h !! "mean_hr"%string = Some mh
                  /\ night_cols h !! "rmssd"%string = Some rm
                  /\ night_cols h !! "rhr"%string = Some rh
                  /\ night_cols h !! "breathing_rate"%string = Some br
                  /\ night_cols h !! "duration_minutes"%string
                     = Some (Fin (span_minutes group))).
  { destruct Hrow as [->| ->]; [repeat split; assumption|].
    rewrite !score_row_keeps by discriminate. repeat split; assumption. }
  destruct Hcols as (C1 & C2 & C3 & C4 & C5).
  exists h, t. unfold create_daily_report. rewrite Esort.
  unfold build_report. rewrite C1, C2, C3, C4, C5.
  eexists. split; [reflexivity|]. split; [exact Hh|]. split; reflexivity.
Qed.

Lemma score_row_recovery baselines r :
  exists y,
    night_cols (score_row baselines r) !! "recovery_score"%string
    = Some (Fin (Float.round1_Q y)).
Proof.
  unfold score_row. cbn [night_cols]. rewrite lookup_insert_eq.
  destruct (score_components_scores baselines
              (<["recovery_score"%string := NaN]> (night_cols r))) as (_ & _ & _ & Ec).
  rewrite Ec. unfold recovery_score_of.
  match goal with |- context [Float.py_min (Fin 100) ?x] =>
    destruct (py_clamp_any 0 100 x) as (y & -> & _); [lra|] end.
  exists y. reflexivity.
Qed.

Lemma unscored_has_no_column df :
  has_column "recovery_score" (calculate_night_metrics df) = false.
Proof.
  unfold has_column.
  destruct (existsb _ (calculate_night_metrics df)) eqn:E; [|reflexivity].
  apply existsb_exists in E as (r & Hr & Hk).
  apply night_metrics_rows in Hr as (d & _ & ->).
  rewrite (proj2 (night_row_no_scores _ _)) in Hk. discriminate.
Qed.

(** X22: for a frame with a sleep record the report is built and its recovery
    score gets a label.  With baselines, the label and the daily
    recommendation use the same bands: Low with the recovery focus day,
    Moderate with the moderate training day, High with the performance
    day.  Without baselines the report shows the score 0 with the label
    Low, and no recommendation is given. *)
Theorem recovery_label_and_recommendation (df : DataFrame)
    (baselines : gmap string float) :
  List.filter is_sleep df <> [] ->
  let night_data := calculate_recovery_score (calculate_night_metrics df) baselines in
  exists report c l,
    create_daily_report night_data baselines = Returns (Some report)
    /\ recovery_category report = Returns (c, l)
    /\ (baselines <> ∅ ->
        match daily_recommendation night_data with
        | Some RecoveryFocusDay => l = "Low"%string
        | Some ModerateTrainingDay => l = "Moderate"%string
        | Some PerformanceDay => l = "High"%string
        | None => False
        end)
    /\ (baselines = ∅ -> daily_recommendation night_data = None /\ l = "Low"%string).
Proof.
  intros Hs. cbv zeta.
  destruct (latest_night_report df baselines Hs) as (h & t & report & Esort & Hh & Erep & Erec).
  exists report. unfold recovery_category. rewrite Erec.
  destruct (decide (baselines = ∅)) as [Hb|Hb].
  - subst baselines. rewrite recovery_score_unscored in *.
    apply night_metrics_rows in Hh as (d & _ & ->).
    unfold present_or_zero. rewrite (proj2 (night_row_no_scores _ _)).
    do 2 eexists. split; [eassumption|]. split; [vm_compute; reflexivity|].
    split; [intros F; contradiction F; reflexivity|]. intros _.
    split; [|reflexivity].
    unfold daily_recommendation. rewrite unscored_has_no_column. reflexivity.
  - pose proof Hh as Hh'. rewrite (recovery_score_scored _ _ Hb) in Hh'.
    apply in_map_iff in Hh' as (r0 & <- & _).
    destruct (score_row_recovery baselines r0) as (y & Ey).
    assert (Hcol : has_column "recovery_score"
                     (calculate_recovery_score (calculate_night_metrics df) baselines)
                   = true).
    { unfold has_column. apply existsb_exists. exists (score_row baselines r0).
      split; [exact Hh|]. rewrite Ey. reflexivity. }
    assert (Hlen : (length (calculate_recovery_score (calculate_night_metrics df) baselines)
                    =? 0)%nat = false).
    { apply Nat.eqb_neq. intros E. apply length_zero_iff_nil in E.
      rewrite E in Hh. destruct Hh. }
    unfold daily_recommendation. rewrite Hcol, Hlen, Esort. cbn [andb negb].
    unfold present_or_zero, get. rewrite Ey. cbn [or_zero Float.isna Float.round1].
    unfold generate_color_label. cbn [color_label_from].
    rewrite (ltb_comp _ _ 33 (round1_Q_fixed y)), (ltb_comp _ _ 67 (round1_Q_fixed y)).
    destruct (Fin (Float.round1_Q y) <? Fin 33)%float.
    { do 2 eexists. split; [eassumption|]. split; [reflexivity|].
      split; [intros _; reflexivity | intros F; contradiction]. }
    destruct (Fin (Float.round1_Q y) <? Fin 67)%float.
    { do 2 eexists. split; [eassumption|]. split; [reflexivity|].
      split; [intros _; reflexivity | intros F; contradiction]. }
    do 2 eexists. split; [eassumption|]. split; [reflexivity|].
    split; [intros _; reflexivity | intros F; contradiction].
Qed.

(** *** The rectangles of the trend charts *)

Lemma py_min_not_above_py_max (m b : float) :
  not_above (Float.py_min m b) (Float.py_max m b).
Proof.
  unfold not_above, Float.py_min, Float.py_max, Float.gtb, Float.ltb.
  intros a c. destruct m as [|m], b as [|b]; try discriminate.
  - intros [= <-] [= <-]. lra.
  - destruct (Qlt_le_dec b m); destruct (Qlt_le_dec m b);
      intros [= <-] [= <-]; lra.
Qed.

Lemma difference_shapes_length x metric baseline plot_data :
  length (difference_shapes x metric baseline plot_data) = (length plot_data - 1)%nat.
Proof.
  induction plot_data as [|row rest IH]; [reflexivity|].
  cbn [difference_shapes]. destruct rest as [|next rest']; [reflexivity|].
  cbn [length]. rewrite IH. cbn [length]. lia.
Qed.

Lemma difference_shapes_forall (P : Z -> Z -> Prop) x metric baseline plot_data :
  (forall pre a b post, plot_data = pre ++ a :: b :: post -> P (x a) (x b)) ->
  List.Forall
    (fun s => P (Rect.x0 s) (Rect.x1 s) /\ not_above (Rect.y0 s) (Rect.y1 s))
    (difference_shapes x metric baseline plot_data).
Proof.
  induction plot_data as [|row rest IH]; intros H; [constructor|].
  cbn [difference_shapes]. destruct rest as [|next rest']; [constructor|].
  constructor.
  - cbn [Rect.x0 Rect.x1 Rect.y0 Rect.y1]. split.
    + apply (H [] row next rest'). reflexivity.
    + apply py_min_not_above_py_max.
  - apply IH. intros pre a b post E. apply (H (row :: pre) a b post).
    rewrite E. reflexivity.
Qed.

Lemma sorted_adjacent (l : list Z) pre a b post :
  StronglySorted Z.lt l -> l = pre ++ a :: b :: post -> (a < b)%Z.
Proof.
  intros Hs ->. induction pre as [|p pre IH].
  - cbn in Hs. apply StronglySorted_inv in Hs as [_ Hall].
    apply Forall_inv in Hall. exact Hall.
  - apply IH. cbn in Hs. apply StronglySorted_inv in Hs as [Hs _]. exact Hs.
Qed.

Lemma sorted_skipn (l : list Z) k :
  StronglySorted Z.lt l -> StronglySorted Z.lt (skipn k l).
Proof.
  intros Hs. revert k. induction Hs as [|a t Ht IH Ha]; intros k.
  - destruct k; constructor.
  - destruct k as [|k]; [constructor; assumption | apply IH].
Qed.

Lemma seq_adjacent (k n : nat) pre (a b : nat) post :
  seq k n = pre ++ a :: b :: post -> b = S a.
Proof.
  revert k n. induction pre as [|p pre IH]; intros k n E.
  - destruct n as [|[|n]]; cbn in E; try discriminate. injection E as <- <- _. reflexivity.
  - destruct n as [|n]; [discriminate|]. cbn in E. injection E as _ E.
    apply (IH _ _ E).
Qed.

Lemma dynamic_engine_sorted df :
  StronglySorted Z.lt (map Daily.date (calculate_daily_metrics_with_dynamic_baselines df))
  /\ map Daily.day_number (calculate_daily_metrics_with_dynamic_baselines df)
     = seq 1 (length (calculate_daily_metrics_with_dynamic_baselines df)).
Proof.
  destruct (List.filter is_sleep df) as [|s l] eqn:E.
  - rewrite (dynamic_engine_no_sleep df E). split; [constructor | reflexivity].
  - assert (Hs : List.filter is_sleep df <> []) by (rewrite E; discriminate).
    destruct (dynamic_engine_rows df Hs) as (rows & -> & Hd & Hn).
    split; [rewrite Hd; apply sorted_unique_sorted|].
    rewrite Hn. f_equal. rewrite <- Hd. apply length_map.
Qed.

(** X23: on the dynamic-baseline table, the calendar chart draws one rectangle
    less than the days it shows (at most 7) and the day-number chart one
    less than the days of the table; every calendar rectangle ends at a
    later date than it starts, every day-number rectangle is one day
    wide, and no rectangle's lower edge is above its upper edge. *)
Theorem trend_chart_shapes (df : DataFrame)
    (metric_column baseline_column : Daily.t -> float) :
  let data := calculate_daily_metrics_with_dynamic_baselines df in
  let weekly := weekly_trend_shapes metric_column baseline_column data in
  let by_day := day_number_shapes metric_column baseline_column data in
  length weekly = (Nat.min 7 (length data) - 1)%nat
  /\ List.Forall
       (fun s => (Rect.x0 s < Rect.x1 s)%Z /\ not_above (Rect.y0 s) (Rect.y1 s)) weekly
  /\ length by_day = (length data - 1)%nat
  /\ List.Forall
       (fun s => (Rect.x1 s = Rect.x0 s + 1)%Z /\ not_above (Rect.y0 s) (Rect.y1 s))
       by_day.
Proof.
  cbv zeta. destruct (dynamic_engine_sorted df) as [Hsorted Hnum].
  set (data := calculate_daily_metrics_with_dynamic_baselines df) in *.
  unfold weekly_trend_shapes, day_number_shapes, tail.
  split; [rewrite difference_shapes_length, length_skipn; lia|].
  split.
  - apply (difference_shapes_forall Z.lt). intros pre a b post E.
    apply (sorted_adjacent (map Daily.date (skipn (length data - Nat.min 7 (length data)) data))
             (map Daily.date pre) _ _ (map Daily.date post)).
    + rewrite <- skipn_map. apply sorted_skipn, Hsorted.
    + rewrite E, map_app. reflexivity.
  - split; [apply difference_shapes_length|].
    apply (difference_shapes_forall (fun u v => v = u + 1)%Z).
    intros pre a b post E.
    assert (Hb : Daily.day_number b = S (Daily.day_number a)).
    { apply (seq_adjacent 1 (length data) (map Daily.day_number pre) _ _
               (map Daily.day_number post)).
      rewrite <- Hnum, E, map_app. reflexivity. }
    rewrite Hb. lia.
Qed.

(** *** The fallbacks of the scores and the stage minutes *)






(** ** The theorems on the sample data *)

(** The sample day yields one row, for its one date, numbered 1. *)
Lemma three_sleep_day_one_row :
  map Daily.date (calculate_daily_metrics_with_dynamic_baselines three_sleep_day)
  = sorted_unique (map date three_sleep_day)
  /\ map Daily.day_number (calculate_daily_metrics_with_dynamic_baselines three_sleep_day)
     = seq 1 (length (calculate_daily_metrics_with_dynamic_baselines three_sleep_day)).
Proof.
  assert (H : List.filter is_sleep three_sleep_day <> []) by (vm_compute; discriminate).
  destruct (proj2 (dynamic_rows_one_per_date three_sleep_day) H) as (E1 & _ & _ & E2).
  split; [exact E1 | exact E2].
Defined.

(** The records of a second day leave the row of the first day as it was. *)
Lemma second_day_keeps_first_row :
  exists rest,
    calculate_daily_metrics_with_dynamic_baselines (two_sleep_day ++ second_day)
    = calculate_daily_metrics_with_dynamic_baselines two_sleep_day ++ rest
    /\ map Daily.date rest = sorted_unique (map date second_day).
Proof.
  assert (Hlt : forall r r', In r two_sleep_day -> In r' second_day ->
                             (date r < date r')%Z).
  { intros r r' [<-|[<-|[<-|[]]]] [<-|[<-|[]]]; reflexivity. }
  destruct (dynamic_rows_no_lookahead two_sleep_day second_day Hlt)
    as (rest & E & Hd & _).
  exists rest. split; [exact E|]. apply Hd. vm_compute. discriminate.
Defined.

(** The stress index of the sample day. *)
Lemma three_sleep_day_stress_index :
  Daily.stress_index (first_daily three_sleep_day) = NaN
  \/ exists s, Daily.stress_index (first_daily three_sleep_day) = Fin s /\ 0 <= s /\ s <= 3.
Proof.
  apply (dynamic_rows_stress_index three_sleep_day (first_daily three_sleep_day)).
  apply first_daily_In. vm_compute. discriminate.
Defined.

(** The night of the sample day: one group, of three records. *)
Lemma three_sleep_day_night_group :
  night_cols (first_night three_sleep_day) !! "record_count"%string
  = Some (Fin (Series.len_Q
                 (day_records (List.filter is_sleep three_sleep_day)
                    (night_date (first_night three_sleep_day))))).
Proof.
  destruct (night_rows_partition three_sleep_day) as (_ & _ & _ & H).
  apply (H (first_night three_sleep_day)).
  apply first_night_In. vm_compute. discriminate.
Defined.

(** The resting heart rate of the sample night. *)
Lemma three_sleep_day_night_rhr :
  exists rhr,
    night_cols (first_night three_sleep_day) !! "rhr"%string = Some rhr
    /\ (rhr = NaN
        <-> Series.dropna
              (column heartRate
                 (day_records (List.filter is_sleep three_sleep_day)
                    (night_date (first_night three_sleep_day)))) = [])
    /\ forall x, rhr = Fin x ->
         between_recorded
           (column heartRate
              (day_records (List.filter is_sleep three_sleep_day)
                 (night_date (first_night three_sleep_day)))) x.
Proof.
  apply (night_rhr_within_recorded three_sleep_day (first_night three_sleep_day)).
  apply first_night_In. vm_compute. discriminate.
Defined.

(** The static baseline of the sample day has its six keys. *)
Lemma three_sleep_day_baseline_keys :
  dom (calculate_baselines three_sleep_day 14)
  = list_to_set ["hrv"; "rhr"; "sdnn"; "breathing_rate"; "hr"; "lf_hf_ratio"]%string.
Proof.
  apply (proj1 (proj2 (static_baseline_keys three_sleep_day 14))).
  intros E. apply (f_equal (fun m : gmap string float => m !! "hr"%string)) in E.
  vm_compute in E. discriminate.
Defined.

(** The hrv baseline of the sample day, 20, lies between its recorded values. *)
Lemma three_sleep_day_hrv_baseline :
  between_recorded
    (column rmssd (List.filter is_sleep (baseline_window three_sleep_day 14))) 20.
Proof.
  apply (proj1 (static_baselines_within_recorded three_sleep_day 14 20)).
  vm_compute. reflexivity.
Defined.

(** The dynamic hrv baseline of the sample day, 10, is one of its values. *)
Lemma three_sleep_day_dynamic_hrv_baseline :
  between_recorded
    (column rmssd
       (List.filter (fun y => (date y <=? Daily.date (first_daily three_sleep_day))%Z)
          (List.filter is_sleep three_sleep_day))) 10.
Proof.
  apply (proj1 (dynamic_baselines_from_history three_sleep_day
                  (first_daily three_sleep_day) 10
                  (first_daily_In three_sleep_day ltac:(vm_compute; discriminate)))).
  vm_compute. reflexivity.
Defined.

(** The sample night is scored against the baseline of its own day. *)
Lemma three_sleep_day_scored :
  in_range 0 100
    (night_cols
       (hd (first_night three_sleep_day)
          (calculate_recovery_score (calculate_night_metrics three_sleep_day)
             (calculate_baselines three_sleep_day 14)))
     !! "sleep_quality"%string)
  /\ in_range 0 100
       (night_cols
          (hd (first_night three_sleep_day)
             (calculate_recovery_score (calculate_night_metrics three_sleep_day)
                (calculate_baselines three_sleep_day 14)))
        !! "recovery_score"%string).
Proof.
  apply (proj1 (night_scores_need_recent_sleep three_sleep_day 14)).
  - exists (sample 0 1 (Fin 50) (Fin 10) (Fin 0.5) true).
    split; [left; reflexivity|]. split; [reflexivity|]. vm_compute. discriminate.
  - apply hd_In. vm_compute. discriminate.
Defined.

(** The colour and the label of a recovery score of 50. *)
Lemma recovery_50_label :
  exists c l,
    generate_color_label (Some (Fin 50)) [Fin 33; Fin 67]
      ["#d9534f"; "#f0ad4e"; "#5cb85c"]%string = Returns (c, l)
    /\ In c ["#d9534f"; "#f0ad4e"; "#5cb85c"]%string
    /\ In l ["Unknown"; "Low"; "Moderate"; "High"]%string
    /\ (l = "Unknown"%string <-> Some (Fin 50) = None \/ Some (Fin 50) = Some NaN).
Proof.
  apply (color_label_never_raises (Some (Fin 50)) [Fin 33; Fin 67]
           ["#d9534f"; "#f0ad4e"; "#5cb85c"]%string).
  - discriminate.
  - simpl. lia.
  - simpl. lia.
Defined.

(** The report of the sample day. *)
Lemma three_sleep_day_report :
  exists report,
    create_daily_report
      (calculate_recovery_score (calculate_night_metrics three_sleep_day)
         (calculate_baselines three_sleep_day 14))
      (calculate_baselines three_sleep_day 14) = Returns (Some report)
    /\ (forall r, In r three_sleep_day -> is_sleep r = true ->
          (date r <= Report.date report)%Z)
    /\ (exists y, Report.recovery_score report = Fin y /\ 0 <= y /\ y <= 100).
Proof.
  assert (H : List.filter is_sleep three_sleep_day <> []) by (vm_compute; discriminate).
  destruct (daily_report_of_latest_night three_sleep_day
              (calculate_baselines three_sleep_day 14) H)
    as (report & E & _ & Hmax & _ & _ & _ & _ & Hrec & _).
  exists report. split; [exact E|]. split; [exact Hmax | exact Hrec].
Defined.

(** The stage percentages of the six-record night. *)
Lemma six_record_night_percentages :
  0 <= StagePct.deep_pct (stage_percentages six_record_night)
  /\ StagePct.deep_pct (stage_percentages six_record_night) <= 100.
Proof.
  assert (H : six_record_night <> []) by discriminate.
  apply (stage_minutes_and_percentages six_record_night H).
Defined.

(** The normalised hrv difference of the sample day is 1. *)
Lemma three_sleep_day_hrv_difference :
  exists q,
    In (Fin q)
      (Convergence.hrv_diff_norm
         (convergence_columns (calculate_daily_metrics_with_dynamic_baselines three_sleep_day)))
    /\ q == 1.
Proof.
  apply (proj2 (proj2 (proj2 (proj2
           (convergence_columns_in_unit_range
              (calculate_daily_metrics_with_dynamic_baselines three_sleep_day)))))).
  exists (first_daily three_sleep_day), (90 # 3), 10.
  split; [apply first_daily_In; vm_compute; discriminate|].
  split; [vm_compute; reflexivity|]. split; [vm_compute; reflexivity|].
  intros E. vm_compute in E. discriminate.
Defined.

(** The date range of the sample day is one day. *)
Lemma three_sleep_day_date_range :
  exists min_date max_date date_range,
    calculate_date_range three_sleep_day = Some (min_date, max_date, date_range)
    /\ (forall r, In r three_sleep_day -> (min_date <= date r <= max_date)%Z)
    /\ (1 <= date_range)%Z.
Proof.
  assert (H : three_sleep_day <> []) by discriminate.
  destruct (date_range_covers three_sleep_day H)
    as (a & b & c & E & _ & _ & Hall & Hpos & _).
  exists a, b, c. split; [exact E|]. split; [exact Hall | exact Hpos].
Defined.

(** A higher rmssd on the sample night does not lower its scores. *)
Lemma three_sleep_day_higher_rmssd :
  float_le
    (Score.recovery_score
       (score_components {[ "hrv"%string := Fin 60 ]}
          (night_cols (first_night three_sleep_day))))
    (Score.recovery_score
       (score_components {[ "hrv"%string := Fin 60 ]}
          (<["rmssd"%string := Fin 40]> (night_cols (first_night three_sleep_day))))).
Proof.
  apply (proj1 (recovery_monotone {[ "hrv"%string := Fin 60 ]}
                  (night_cols (first_night three_sleep_day)) (90 # 3) 40
                  ltac:(reflexivity) ltac:(vm_compute; discriminate))).
  vm_compute. reflexivity.
Defined.

(** The sample night has no mean_rr, so no mean_hr: its sleep quality is 100. *)
Lemma three_sleep_day_quality_100 :
  Score.sleep_quality
    (score_components hr_only_baselines (night_cols (first_night three_sleep_day)))
  = Fin 100.
Proof.
  apply (sleep_quality_missing_mean_hr hr_only_baselines
           (night_cols (first_night three_sleep_day)) 60).
  - reflexivity.
  - reflexivity.
  - right. vm_compute. reflexivity.
Defined.

(** The chart and the score use one duration score for the sample night. *)
Lemma three_sleep_day_chart_duration :
  Components.duration_score
    (displayed_components (calculate_baselines three_sleep_day 14)
       (Fin (90 # 3)) NaN (Fin (120 # 60)) (Fin (3500 # 3000)))
  = Score.duration_score
      (score_components (calculate_baselines three_sleep_day 14)
         (night_cols (first_night three_sleep_day))).
Proof.
  assert (H1 : night_cols (first_night three_sleep_day) !! "rmssd"%string
               = Some (Fin (90 # 3))) by (vm_compute; reflexivity).
  assert (H2 : night_cols (first_night three_sleep_day) !! "mean_hr"%string = Some NaN)
    by (vm_compute; reflexivity).
  assert (H3 : night_cols (first_night three_sleep_day) !! "duration_minutes"%string
               = Some (Fin (120 # 60))) by (vm_compute; reflexivity).
  assert (H4 : night_cols (first_night three_sleep_day) !! "lf_hf_ratio"%string
               = Some (Fin (3500 # 3000))) by (vm_compute; reflexivity).
  destruct (displayed_components_and_score (calculate_baselines three_sleep_day 14)
              (night_cols (first_night three_sleep_day)) _ _ _ _ H1 H2 H3 H4) as (E & _).
  exact E.
Defined.

(** The label of the sample day's report and its recommendation agree. *)
Lemma three_sleep_day_label :
  exists report c l,
    create_daily_report
      (calculate_recovery_score (calculate_night_metrics three_sleep_day)
         (calculate_baselines three_sleep_day 14))
      (calculate_baselines three_sleep_day 14) = Returns (Some report)
    /\ recovery_category report = Returns (c, l)
    /\ match daily_recommendation
               (calculate_recovery_score (calculate_night_metrics three_sleep_day)
                  (calculate_baselines three_sleep_day 14)) with
       | Some RecoveryFocusDay => l = "Low"%string
       | Some ModerateTrainingDay => l = "Moderate"%string
       | Some PerformanceDay => l = "High"%string
       | None => False
       end.
Proof.
  assert (H : List.filter is_sleep three_sleep_day <> []) by (vm_compute; discriminate).
  destruct (recovery_label_and_recommendation three_sleep_day
              (calculate_baselines three_sleep_day 14) H)
    as (report & c & l & E1 & E2 & Hb & _).
  exists report, c, l. split; [exact E1|]. split; [exact E2|].
  apply Hb. intros E. apply (f_equal (fun m : gmap string float => m !! "hr"%string)) in E.
  vm_compute in E. discriminate.
Defined.
